(** * TeamAssist: the task and clarification services

    A shallow embedding of [backend/src/services/task.service.ts], of the
    clarification schema [models/task-clarification.model.ts] and of the
    query decoding of [getAllTasksController], together with the properties
    of the role-gated task workflow.

    Conventions of the embedding.
    - Object ids are strings, compared as the code compares them (through
      [toString]); every id is taken to be a well-formed ObjectId, so the
      driver's cast of an id never fails. This holds of the ids the store
      holds; a request that carries a text which is no ObjectId where an id
      is expected, the assignee of a body included, is refused by the
      driver in the first query that carries it and is outside the model.
    - JavaScript numbers that count documents or pages are integers of [Z];
      the arithmetic of the services is exact as long as the numbers stay
      below 2^53 in absolute value. [parseInt] returns the double nearest
      to the digits it reads.
    - A collection is a finite map from [_id] to document; the order in which
      an unsorted scan meets the documents is the map's.
    - The services run in a state and error monad over the database that also
      records the model calls an operation awaits.
    - [populate] only swaps a reference for the referenced document in the
      reply; replies carry the stored documents.
    - A string is a sequence of UTF-16 code units, as in JavaScript. The
      type [string] carries the code units below 256, U+0000 to U+00FF, one
      per character: the length of a string is its JavaScript length, the
      no-break space U+00A0 is the character 160 and the letter U+00E9 is
      the character 233. Strings with a code unit from 256 on are outside
      the model. Letter case is that of ASCII.
    - The task schema is not part of the sources: a task holds the fields
      the services read and write. Time stamps that the store maintains by
      itself when a task is updated are not among them. *)

From Stdlib Require Import ZArith Ascii String List Bool Lia.
From stdpp Require Import base option list gmap strings sorting.

Local Open Scope Z_scope.

(** ** Values of the platform *)

Abbreviation ObjectId := string.

(** [enums/role.enum.ts] is not part of the sources; the roles are the three
    of the specification. *)
Inductive RoleType := OWNER | ADMIN | MEMBER.

Global Instance RoleType_eq_dec : EqDecision RoleType.
Proof. solve_decision. Defined.

(** The errors a service can raise: the three application exceptions of
    [utils/appError], a bare JavaScript [Error], and an error raised by the
    store or its driver (cast, validation, duplicate key, malformed query). *)
Inductive Exc :=
| NotFoundException (message : string)
| BadRequestException (message : string)
| UnauthorizedException (message : string)
| JsError (message : string)
| MongoError (message : string).

Global Instance Exc_eq_dec : EqDecision Exc.
Proof. solve_decision. Defined.

Definition isNotFound (e : Exc) : bool :=
  match e with NotFoundException _ => true | _ => false end.
Definition isBadRequest (e : Exc) : bool :=
  match e with BadRequestException _ => true | _ => false end.
Definition isUnauthorized (e : Exc) : bool :=
  match e with UnauthorizedException _ => true | _ => false end.

(** What the store and the JavaScript runtime contribute and the sources do
    not define: the regular-expression engine behind [$regex] with option
    [i], and the reading of a date string by [new Date]. *)
Class Externals := {
  (** [regexCompile p] is [None] when the store rejects the pattern [p], and
      otherwise the case-insensitive search for [p] in a subject. *)
  regexCompile : string → option (string → bool);
  (** [dateValue s] is the time value of [new Date(s)], [None] for an
      invalid date. *)
  dateValue : string → option Z;
  (** [schemaDate s] is the time value the schema's cast to a date reads
      from a string that is not empty, [None] when the cast fails. The cast
      reads a numeric string from 275761 on, or below -271820, as a number
      of milliseconds, and any other string as [new Date] does. *)
  schemaDate : string → option Z
}.

(** ** Strings *)

Definition asciiLower (c : ascii) : ascii :=
  let n := N_of_ascii c in
  if ((65 <=? n) && (n <=? 90))%N then ascii_of_N (n + 32) else c.

Fixpoint lower (s : string) : string :=
  match s with
  | EmptyString => EmptyString
  | String c s' => String (asciiLower c) (lower s')
  end.

Fixpoint isPrefix (p s : string) : bool :=
  match p, s with
  | EmptyString, _ => true
  | String a p', String b s' => if decide (a = b) then isPrefix p' s' else false
  | String _ _, EmptyString => false
  end.

(** [contains p s]: [p] occurs in [s] as a substring. *)
Fixpoint contains (p s : string) : bool :=
  isPrefix p s ||
  match s with
  | EmptyString => false
  | String _ s' => contains p s'
  end.

Definition containsIgnoreCase (p s : string) : bool :=
  contains (lower p) (lower s).

(** The white space and the line terminators of ECMAScript among the code
    units below 256: tab, line feed, vertical tab, form feed, carriage
    return, space and the no-break space U+00A0. *)
Definition isWhiteSpace (c : ascii) : bool :=
  bool_decide (N_of_ascii c ∈ [9; 10; 11; 12; 13; 32; 160]%N).

(** [String.prototype.trim], which zod's [trim()] and the [trim] option of a
    schema call. *)
Fixpoint trimStart (s : string) : string :=
  match s with
  | String c s' => if isWhiteSpace c then trimStart s' else s
  | EmptyString => EmptyString
  end.

Definition trim (s : string) : string :=
  String.rev (trimStart (String.rev (trimStart s))).

(** [s.split(",")]. *)
Fixpoint splitComma_go (cur : string) (s : string) : list string :=
  match s with
  | EmptyString => [String.rev cur]
  | String c s' =>
      if decide (c = ","%char) then String.rev cur :: splitComma_go "" s'
      else splitComma_go (String c cur) s'
  end.

Definition splitComma (s : string) : list string := splitComma_go "" s.

(** Truthiness of a string: the empty string is the only falsy one. *)
Definition truthy (s : string) : bool :=
  match s with EmptyString => false | _ => true end.

(** What [parseInt] returns: a double that is an integer, an infinity, or
    [NaN]. The zero stands for both zeros, which are equally falsy. *)
Inductive JsInt := NaN | Num (z : Z) | Infinity (negative : bool).

Global Instance JsInt_eq_dec : EqDecision JsInt.
Proof. solve_decision. Defined.

(** The double nearest to a natural number, ties to even: below 2^53 every
    number is a double; above, the 53 leading bits are kept and the rest
    rounds; [None] is the infinity that a number rounding to 2^1024 or
    more becomes. *)
Definition roundToDouble (n : Z) : option Z :=
  if n <? 2 ^ 53 then Some n
  else
    let e := Z.log2 n - 52 in
    let q := Z.shiftr n e in
    let r := n - Z.shiftl q e in
    let half := 2 ^ (e - 1) in
    let q' := if (half <? r) || ((r =? half) && Z.odd q) then q + 1 else q in
    let v := Z.shiftl q' e in
    if v <? 2 ^ 1024 then Some v else None.

Definition digitValue (radix : Z) (c : ascii) : option Z :=
  let n := Z.of_N (N_of_ascii c) in
  let d := if (48 <=? n) && (n <=? 57) then Some (n - 48)
           else if (97 <=? n) && (n <=? 122) then Some (n - 87)
           else if (65 <=? n) && (n <=? 90) then Some (n - 55)
           else None in
  match d with
  | Some v => if v <? radix then Some v else None
  | None => None
  end.

Fixpoint parseDigits (radix : Z) (acc : option Z) (s : string) : option Z :=
  match s with
  | EmptyString => acc
  | String c s' =>
      match digitValue radix c with
      | Some d => parseDigits radix (Some (from_option id 0 acc * radix + d)) s'
      | None => acc
      end
  end.

(** [parseInt(s)] with no radix: leading white space is skipped, a sign is
    read, a [0x] prefix selects base 16, and the longest run of digits is
    read; the result is the double nearest to their value, [NaN] when there
    is no digit. *)
Definition parseInt (input : string) : JsInt :=
  let s := trimStart input in
  let '(negative, s) :=
    match s with
    | String "-" r => (true, r)
    | String "+" r => (false, r)
    | _ => (false, s)
    end in
  let '(radix, s) :=
    match s with
    | String "0" (String "x" r) => (16, r)
    | String "0" (String "X" r) => (16, r)
    | _ => (10, s)
    end in
  match parseDigits radix None s with
  | None => NaN
  | Some v =>
      match roundToDouble v with
      | Some d => Num (if negative then - d else d)
      | None => Infinity negative
      end
  end.

(** [String(v)] of a query parameter that may be missing. *)
Definition toStringParam (v : option string) : string :=
  from_option id "undefined" v.

(** [Math.ceil(a / b)]; [None] when the quotient is not a finite number. *)
Definition ceilDiv (a b : Z) : option Z :=
  if b =? 0 then None else Some (- ((- a) / b)).

(** ** What is asked of the regular-expression engine *)

(** The characters with a meaning of their own in a pattern. *)
Definition isRegexMeta (c : ascii) : bool :=
  bool_decide (c ∈ list_ascii_of_string "\^$.|?*+()[]{}").

Fixpoint hasMeta (p : string) : bool :=
  match p with
  | EmptyString => false
  | String c p' => isRegexMeta c || hasMeta p'
  end.

(** A pattern without such characters is accepted and searched for as it is
    written, letter case apart. *)
Class RegexLaws `{Externals} : Prop := {
  regex_literal : ∀ p, hasMeta p = false →
    ∃ re, regexCompile p = Some re ∧ ∀ s, re s = containsIgnoreCase p s
}.

(** ** A reference instance of the externals

    An engine for patterns made of ordinary characters and of the dot, which
    stands for any character but the line feed; it accepts no other
    metacharacter. Its dates are the calendar dates [YYYY-MM-DD], read as
    midnight UTC. It serves to run the services on concrete data. *)

Inductive PatternItem := Literal (c : ascii) | AnyChar.

Fixpoint parsePattern (p : string) : option (list PatternItem) :=
  match p with
  | EmptyString => Some []
  | String c p' =>
      if decide (c = "."%char) then cons AnyChar <$> parsePattern p'
      else if isRegexMeta c then None
      else cons (Literal (asciiLower c)) <$> parsePattern p'
  end.

Fixpoint matchHere (items : list PatternItem) (s : string) : bool :=
  match items, s with
  | [], _ => true
  | _ :: _, EmptyString => false
  | Literal c :: items', String b s' =>
      if decide (c = asciiLower b) then matchHere items' s' else false
  | AnyChar :: items', String b s' =>
      if decide (b = "010"%char) then false else matchHere items' s'
  end.

Fixpoint searchPattern (items : list PatternItem) (s : string) : bool :=
  matchHere items s ||
  match s with
  | EmptyString => false
  | String _ s' => searchPattern items s'
  end.

Definition twoDigits (a b : ascii) : option Z :=
  x ← digitValue 10 a; y ← digitValue 10 b; Some (10 * x + y).

Definition daysFromCivil (y m d : Z) : Z :=
  let y := if m <=? 2 then y - 1 else y in
  let era := y / 400 in
  let yoe := y - era * 400 in
  let doy := (153 * (if 2 <? m then m - 3 else m + 9) + 2) / 5 + d - 1 in
  let doe := yoe * 365 + yoe / 4 - yoe / 100 + doy in
  era * 146097 + doe - 719468.

Definition isLeapYear (y : Z) : bool :=
  ((y mod 4 =? 0) && negb (y mod 100 =? 0)) || (y mod 400 =? 0).

Definition daysInMonth (y m : Z) : Z :=
  if m =? 2 then (if isLeapYear y then 29 else 28)
  else if (m =? 4) || (m =? 6) || (m =? 9) || (m =? 11) then 30 else 31.

Definition isoDayOf (y : Z) (m1 m2 d1 d2 : ascii) : option Z :=
  m ← twoDigits m1 m2; d ← twoDigits d1 d2;
  if (1 <=? m) && (m <=? 12) && (1 <=? d) && (d <=? daysInMonth y m)
  then Some (daysFromCivil y m d * 86400000) else None.

Definition isoDay (y1 y2 y3 y4 m1 m2 d1 d2 : ascii) : option Z :=
  yh ← twoDigits y1 y2; yl ← twoDigits y3 y4;
  isoDayOf (100 * yh + yl) m1 m2 d1 d2.

(** A year of six digits behind its sign; the year [-000000] is not
    written. *)
Definition isoLongYear (sign y1 y2 y3 y4 y5 y6 : ascii) : option Z :=
  a ← twoDigits y1 y2; b ← twoDigits y3 y4; c ← twoDigits y5 y6;
  let y := 10000 * a + 100 * b + c in
  if bool_decide (sign = "+"%char) then Some y
  else if bool_decide (sign = "-"%char) && negb (y =? 0) then Some (- y)
  else None.

Definition isoTime (h1 h2 n1 n2 s1 s2 f1 f2 f3 : ascii) : option Z :=
  h ← twoDigits h1 h2; n ← twoDigits n1 n2; sec ← twoDigits s1 s2;
  f ← twoDigits f1 f2; g ← digitValue 10 f3;
  if (h <=? 23) && (n <=? 59) && (sec <=? 59)
  then Some (((h * 60 + n) * 60 + sec) * 1000 + 10 * f + g) else None.

(** The dates [YYYY-MM-DD] and the date-times [YYYY-MM-DDTHH:mm:ss.sssZ]
    and [±YYYYYY-MM-DDTHH:mm:ss.sssZ], the output of [toISOString]. *)
Definition isoDateValue (s : string) : option Z :=
  match list_ascii_of_string s with
  | [y1; y2; y3; y4; a; m1; m2; b; d1; d2] =>
      if bool_decide (a = "-"%char ∧ b = "-"%char)
      then isoDay y1 y2 y3 y4 m1 m2 d1 d2 else None
  | [y1; y2; y3; y4; a; m1; m2; b; d1; d2; t; h1; h2; c; n1; n2; d; s1; s2; e;
     f1; f2; f3; z] =>
      if bool_decide (a = "-"%char ∧ b = "-"%char ∧ t = "T"%char ∧ c = ":"%char
                      ∧ d = ":"%char ∧ e = "."%char ∧ z = "Z"%char)
      then day ← isoDay y1 y2 y3 y4 m1 m2 d1 d2;
           time ← isoTime h1 h2 n1 n2 s1 s2 f1 f2 f3;
           Some (day + time)
      else None
  | [sign; y1; y2; y3; y4; y5; y6; a; m1; m2; b; d1; d2; t; h1; h2; c; n1; n2; d;
     s1; s2; e; f1; f2; f3; z] =>
      if bool_decide (a = "-"%char ∧ b = "-"%char ∧ t = "T"%char ∧ c = ":"%char
                      ∧ d = ":"%char ∧ e = "."%char ∧ z = "Z"%char)
      then y ← isoLongYear sign y1 y2 y3 y4 y5 y6;
           day ← isoDayOf y m1 m2 d1 d2;
           time ← isoTime h1 h2 n1 n2 s1 s2 f1 f2 f3;
           Some (day + time)
      else None
  | _ => None
  end.

(** A decimal numeral, with or without a minus sign. *)
Fixpoint allDigits (s : string) : bool :=
  match s with
  | EmptyString => true
  | String c s' => bool_decide (is_Some (digitValue 10 c)) && allDigits s'
  end.

Definition decimalValue (s : string) : option Z :=
  match s with
  | String "-" r => if truthy r && allDigits r
                    then Z.opp <$> parseDigits 10 None r else None
  | _ => if truthy s && allDigits s then parseDigits 10 None s else None
  end.

(** The cast of the reference instance: a decimal numeral in the range of
    the milliseconds is a number of milliseconds, which must lie within the
    8.64e15 of a date; any other string is read as a date. *)
Definition referenceSchemaDate (s : string) : option Z :=
  match decimalValue s with
  | Some n =>
      if (275761 <=? n) || (n <? -271820)
      then (if Z.abs n <=? 8640000000000000 then Some n else None)
      else isoDateValue s
  | None => isoDateValue s
  end.

Definition referenceExternals : Externals := {|
  regexCompile p := (λ items s, searchPattern items s) <$> parsePattern p;
  dateValue := isoDateValue;
  schemaDate := referenceSchemaDate
|}.

(** The year, month and day of a day number, the inverse of
    [daysFromCivil]. *)
Definition civilFromDays (z : Z) : Z * Z * Z :=
  let z := z + 719468 in
  let era := z / 146097 in
  let doe := z - era * 146097 in
  let yoe := (doe - doe / 1460 + doe / 36524 - doe / 146096) / 365 in
  let doy := doe - (365 * yoe + yoe / 4 - yoe / 100) in
  let mp := (5 * doy + 2) / 153 in
  let d := doy - (153 * mp + 2) / 5 + 1 in
  let m := if mp <? 10 then mp + 3 else mp - 9 in
  (if m <=? 2 then yoe + era * 400 + 1 else yoe + era * 400, m, d).

(** The decimal digits of a number, to a fixed width. *)
Fixpoint padded (width : nat) (n : Z) : string :=
  match width with
  | O => EmptyString
  | S w => padded w (n / 10) +:+ String (ascii_of_N (Z.to_N (48 + n mod 10))) EmptyString
  end.

(** [Date.prototype.toISOString] of a time value: the years 0 to 9999 are
    written with four digits, the others with a sign and six. A date holds
    a time value within 8.64e15 of the epoch, where six digits suffice. *)
Definition referenceToISOString (t : Z) : string :=
  let '(y, m, d) := civilFromDays (t / 86400000) in
  let ms := t mod 86400000 in
  (if (0 <=? y) && (y <=? 9999) then padded 4 y
   else if y <? 0 then "-" +:+ padded 6 (- y) else "+" +:+ padded 6 y)
  +:+ "-" +:+ padded 2 m +:+ "-" +:+ padded 2 d +:+ "T"
  +:+ padded 2 (ms / 3600000) +:+ ":" +:+ padded 2 (ms / 60000 mod 60) +:+ ":"
  +:+ padded 2 (ms / 1000 mod 60) +:+ "." +:+ padded 3 (ms mod 1000) +:+ "Z".

(** ** Documents *)

(** [models/project.model.ts] is not part of the sources; the services read
    only the workspace a project belongs to. *)
Module Project.
Record t := mk { workspace : ObjectId }.
End Project.

(** [models/member.model.ts] is not part of the sources; the services query
    it by user and workspace. *)
Module Member.
Record t := mk { userId : ObjectId; workspaceId : ObjectId }.
End Member.

(** [models/task.model.ts] is not part of the sources; the fields are those
    the services write in [createTaskService] and the creation time they sort
    by. A due date is stored as a time value. A modification stamp, if the
    schema keeps one, is maintained by the store on every update and is not
    a field of this record: what is stated of a stored task is stated of
    these fields. *)
Module Task.
Record t := mk {
  title : string;
  description : option string;
  priority : string;
  status : string;
  assignedTo : option ObjectId;
  createdBy : ObjectId;
  workspace : ObjectId;
  project : ObjectId;
  dueDate : option Z;
  createdAt : Z
}.
End Task.

(** [ClarificationResponse] of the clarification schema. *)
Module ClarificationResponse.
Record t := mk {
  message : string;
  respondedBy : ObjectId;
  createdAt : Z
}.
End ClarificationResponse.

(** [TaskClarificationDocument]; [timestamps: true] adds both time stamps. *)
Module TaskClarification.
Record t := mk {
  task : ObjectId;
  workspace : ObjectId;
  question : string;
  askedBy : ObjectId;
  responses : list ClarificationResponse.t;
  createdAt : Z;
  updatedAt : Z
}.
End TaskClarification.

Global Instance Project_eq_dec : EqDecision Project.t.
Proof. solve_decision. Defined.
Global Instance Member_eq_dec : EqDecision Member.t.
Proof. solve_decision. Defined.
Global Instance Task_eq_dec : EqDecision Task.t.
Proof. solve_decision. Defined.
Global Instance ClarificationResponse_eq_dec : EqDecision ClarificationResponse.t.
Proof. solve_decision. Defined.
Global Instance TaskClarification_eq_dec : EqDecision TaskClarification.t.
Proof. solve_decision. Defined.

(** ** The database *)

Record Db := mkDb {
  projects : gmap string Project.t;
  tasks : gmap string Task.t;
  members : list Member.t;
  clarifications : gmap string TaskClarification.t
}.

(** The model calls a service awaits, in the order it awaits them. *)
Inductive DbCall :=
| Project_findById (id : ObjectId)
| Member_exists (userId workspaceId : ObjectId)
| Task_findById (id : ObjectId)
| Task_findOne (id : ObjectId)
| Task_save (id : ObjectId)
| Task_findByIdAndUpdate (id : ObjectId)
| Task_find
| Task_countDocuments
| Task_findOneAndDelete (id : ObjectId)
| Clarification_find
| Clarification_create (id : ObjectId)
| Clarification_findOneAndUpdate (id : ObjectId).

Global Instance DbCall_eq_dec : EqDecision DbCall.
Proof. solve_decision. Defined.

Definition isMemberCheck (c : DbCall) : bool :=
  match c with Member_exists _ _ => true | _ => false end.

(** ** The service monad: database state, errors, and the calls made *)

Definition M (A : Type) : Type := Db → (Exc + A) * Db * list DbCall.

Global Instance M_ret : MRet M := λ A a db, (inr a, db, []).

Global Instance M_bind : MBind M := λ A B f m db,
  match m db with
  | (inl e, db', cs) => (inl e, db', cs)
  | (inr a, db', cs) => let '(r, db'', cs') := f a db' in (r, db'', cs ++ cs')
  end.

Definition throw {A} (e : Exc) : M A := λ db, (inl e, db, []).

Definition outcome {A} (r : (Exc + A) * Db * list DbCall) : Exc + A := r.1.1.
Definition finalDb {A} (r : (Exc + A) * Db * list DbCall) : Db := r.1.2.
Definition callsOf {A} (r : (Exc + A) * Db * list DbCall) : list DbCall := r.2.

(** The environment of one request: the clock read by [new Date()] and by
    the schema time stamps, and the [_id] the driver generates for a new
    document. *)
Record Env := mkEnv { now : Z; freshId : ObjectId }.

(** ** Request payloads *)

(** A JavaScript value as the services meet it in a request body. *)
Inductive JsValue := JsUndefined | JsNull | JsString (s : string).

Global Instance JsValue_eq_dec : EqDecision JsValue.
Proof. solve_decision. Defined.

(** The [assignedTo] property of a body, of type [string | null] and
    optional: the key may be missing, or present with one of the values. *)
Inductive AssigneeField :=
| Absent
| Present (v : JsValue).

Definition assigneeValue (a : AssigneeField) : JsValue :=
  match a with Absent => JsUndefined | Present v => v end.

Definition optValue (o : option string) : JsValue :=
  match o with Some s => JsString s | None => JsUndefined end.

(** The body of [createTaskService]. *)
Module CreateTaskPayload.
Record t := mk {
  title : string;
  description : option string;
  priority : string;
  status : string;
  assignedTo : AssigneeField;
  dueDate : option string
}.
End CreateTaskPayload.

(** [UpdateTaskPayload]: every property is optional; [None] is a property
    that is missing or [undefined]. *)
Module UpdateTaskPayload.
Record t := mk {
  title : option string;
  description : option string;
  priority : option string;
  status : option string;
  assignedTo : AssigneeField;
  dueDate : option string
}.
End UpdateTaskPayload.

(** [Object.entries(body)]: the own properties of the body. A property held
    as [None] is listed with the value [undefined], which is how the
    services tell it from a provided one. *)
Definition Object_entries (body : UpdateTaskPayload.t) : list (string * JsValue) :=
  [("title", optValue (UpdateTaskPayload.title body));
   ("description", optValue (UpdateTaskPayload.description body));
   ("priority", optValue (UpdateTaskPayload.priority body));
   ("status", optValue (UpdateTaskPayload.status body))]
  ++ match UpdateTaskPayload.assignedTo body with
     | Absent => []
     | Present v => [("assignedTo", v)]
     end
  ++ [("dueDate", optValue (UpdateTaskPayload.dueDate body))].

(** [updatePayload]: the object handed to [findByIdAndUpdate]; a field that
    is [None] is a key the object does not have. [assignedTo] holds
    [Some None] for the value [null]. *)
Record UpdatePayload := mkUpdate {
  set_status : option string;
  set_title : option string;
  set_description : option string;
  set_priority : option string;
  set_dueDate : option string;
  set_assignedTo : option (option ObjectId)
}.

Definition keyIf {A} (k : string) (o : option A) : list string :=
  match o with Some _ => [k] | None => [] end.

(** [Object.keys(updatePayload)]. *)
Definition Object_keys (u : UpdatePayload) : list string :=
  keyIf "status" (set_status u) ++ keyIf "title" (set_title u)
  ++ keyIf "description" (set_description u) ++ keyIf "priority" (set_priority u)
  ++ keyIf "dueDate" (set_dueDate u) ++ keyIf "assignedTo" (set_assignedTo u).

(** The filters and the pagination of [getAllTasksService]. *)
Module Filters.
Record t := mk {
  projectId : option string;
  status : option (list string);
  priority : option (list string);
  assignedTo : option (list string);
  keyword : option string;
  dueDate : option string
}.
End Filters.

Module Pagination.
Record t := mk { pageSize : Z; pageNumber : Z }.
End Pagination.

(** [TaskPriorityEnum.MEDIUM] and [TaskStatusEnum.TODO]: [enums/task.enum.ts]
    is not part of the sources; the values are the names the specification
    gives. *)
Definition TaskPriorityEnum_MEDIUM : string := "MEDIUM".
Definition TaskStatusEnum_TODO : string := "TODO".

(** ** The models: what each awaited call does to the database *)

(** The [query] object [getAllTasksService] builds. The due date is the
    [Date] made by [new Date(..)], [Some None] for an invalid one. *)
Record TaskQuery := mkQuery {
  q_workspace : ObjectId;
  q_project : option ObjectId;
  q_status : option (list string);
  q_priority : option (list string);
  q_assignedTo : option (list string);
  q_title : option string;
  q_dueDate : option (option Z)
}.

Definition newestFirstTask : relation (ObjectId * Task.t) :=
  λ a b, Task.createdAt b.2 ≤ Task.createdAt a.2.

Definition newestFirstClarification : relation (ObjectId * TaskClarification.t) :=
  λ a b, TaskClarification.createdAt b.2 ≤ TaskClarification.createdAt a.2.

Global Instance newestFirstTask_dec : RelDecision newestFirstTask.
Proof. intros a b. unfold newestFirstTask. apply _. Defined.

Global Instance newestFirstClarification_dec : RelDecision newestFirstClarification.
Proof. intros a b. unfold newestFirstClarification. apply _. Defined.

(** [.limit(n)]: zero is no limit, and the driver reads a negative limit as
    its absolute value. *)
Definition applyLimit {A} (n : Z) (l : list A) : list A :=
  if n =? 0 then l else take (Z.to_nat (Z.abs n)) l.

Definition inOpt (o : option (list string)) (x : string) : bool :=
  match o with Some l => bool_decide (x ∈ l) | None => true end.

Section Services.
Context `{Externals}.

(** The schema's cast of a date written as a string: the empty string is
    stored as no date, a string the cast cannot read is refused. *)
Definition castDate (s : string) : Exc + option Z :=
  if truthy s then
    match schemaDate s with
    | Some d => inr (Some d)
    | None => inl (MongoError "Cast to date failed")
    end
  else inr None.

Definition castOptDate (o : option string) : Exc + option Z :=
  match o with Some s => castDate s | None => inr None end.

(** The documents a query selects; a query the store cannot run (an
    invalid date, a pattern the engine rejects) is an error. *)
Definition matchesQuery (q : TaskQuery) (re : string → bool) (t : Task.t) : bool :=
  bool_decide (Task.workspace t = q_workspace q)
  && from_option (λ p, bool_decide (Task.project t = p)) true (q_project q)
  && inOpt (q_status q) (Task.status t)
  && inOpt (q_priority q) (Task.priority t)
  && from_option (λ l, from_option (λ a, bool_decide (a ∈ l)) false
                         (Task.assignedTo t)) true (q_assignedTo q)
  && re (Task.title t)
  && from_option (λ d, bool_decide (Task.dueDate t = d)) true (q_dueDate q).

Definition compileQuery (q : TaskQuery) : Exc + (Task.t → bool) :=
  match q_dueDate q with
  | Some None => inl (MongoError "Cast to date failed")
  | _ =>
    match q_title q with
    | Some p =>
        match regexCompile p with
        | None => inl (MongoError "Regular expression is invalid")
        | Some re => inr (matchesQuery q re)
        end
    | None => inr (matchesQuery q (λ _, true))
    end
  end.

Definition selectTasks (P : Task.t → bool) (db : Db) : list (ObjectId * Task.t) :=
  filter (λ kt, P kt.2 = true) (map_to_list (tasks db)).

Definition ProjectModel_findById (id : ObjectId) : M (option Project.t) :=
  λ db, (inr (projects db !! id), db, [Project_findById id]).

Definition MemberModel_exists (userId workspaceId : ObjectId) : M bool :=
  λ db, (inr (bool_decide (Member.mk userId workspaceId ∈ members db)), db,
         [Member_exists userId workspaceId]).

Definition TaskModel_findById (id : ObjectId) : M (option Task.t) :=
  λ db, (inr (tasks db !! id), db, [Task_findById id]).

(** [TaskModel.findOne({_id, workspace})], with [project] when given. *)
Definition TaskModel_findOne (id workspaceId : ObjectId) (projectId : option ObjectId)
  : M (option Task.t) :=
  λ db, (inr (match tasks db !! id with
              | Some t =>
                  if bool_decide (Task.workspace t = workspaceId)
                     && from_option (λ p, bool_decide (Task.project t = p)) true projectId
                  then Some t else None
              | None => None
              end), db, [Task_findOne id]).

(** The schema's cast of an assignee when a task is built: [null] and
    [undefined] are no assignee, and the empty string is no ObjectId. A
    string that is not empty reaches this cast only after the membership
    query has found it among the members, whose ids are well-formed by
    the convention on ids; a text that is no ObjectId is refused by that
    query already, which is outside the model. *)
Definition castAssignee (v : JsValue) : Exc + option ObjectId :=
  match v with
  | JsString s => if truthy s then inr (Some s)
                  else inl (MongoError "Cast to ObjectId failed")
  | _ => inr None
  end.

(** [new TaskModel({..})]: the document, or the error its validation will
    report on [save]. The creation time is the schema's time stamp. *)
Definition TaskModel_new (env : Env) (title : string) (description : option string)
    (priority status : string) (assignedTo : JsValue)
    (createdBy workspace project : ObjectId) (dueDate : option string)
  : Exc + Task.t :=
  match castAssignee assignedTo, castOptDate dueDate with
  | inl e, _ => inl e
  | inr _, inl e => inl e
  | inr a, inr d =>
      inr (Task.mk title description priority status a createdBy workspace project
                   d (now env))
  end.

(** [task.save()] of a new document. *)
Definition TaskModel_save (id : ObjectId) (doc : Exc + Task.t) : M Task.t :=
  λ db, match doc with
        | inl e => (inl e, db, [Task_save id])
        | inr t =>
            match tasks db !! id with
            | Some _ => (inl (MongoError "Duplicate key"), db, [Task_save id])
            | None => (inr t, mkDb (projects db) (<[id := t]> (tasks db)) (members db)
                                   (clarifications db), [Task_save id])
            end
        end.

(** The update [$set]s the keys of the payload. *)
Definition applyUpdate (u : UpdatePayload) (due : option Z) (t : Task.t) : Task.t :=
  Task.mk (default (Task.title t) (set_title u))
          (match set_description u with Some d => Some d | None => Task.description t end)
          (default (Task.priority t) (set_priority u))
          (default (Task.status t) (set_status u))
          (default (Task.assignedTo t) (set_assignedTo u))
          (Task.createdBy t) (Task.workspace t) (Task.project t)
          (match set_dueDate u with Some _ => due | None => Task.dueDate t end)
          (Task.createdAt t).

(** [TaskModel.findByIdAndUpdate(id, payload, {new: true})]. *)
Definition TaskModel_findByIdAndUpdate (id : ObjectId) (u : UpdatePayload)
  : M (option Task.t) :=
  λ db, match castOptDate (set_dueDate u) with
        | inl e => (inl e, db, [Task_findByIdAndUpdate id])
        | inr due =>
            match tasks db !! id with
            | None => (inr None, db, [Task_findByIdAndUpdate id])
            | Some t =>
                let t' := applyUpdate u due t in
                (inr (Some t'), mkDb (projects db) (<[id := t']> (tasks db))
                                     (members db) (clarifications db),
                 [Task_findByIdAndUpdate id])
            end
        end.

(** [TaskModel.find(query).skip(skip).limit(limit).sort({createdAt: -1})]:
    the store sorts, then skips, then limits. *)
Definition TaskModel_find (q : TaskQuery) (skip limit : Z)
  : M (list (ObjectId * Task.t)) :=
  λ db, match compileQuery q with
        | inl e => (inl e, db, [Task_find])
        | inr P =>
            if skip <? 0
            then (inl (MongoError "Skip value must be non-negative"), db, [Task_find])
            else (inr (applyLimit limit (drop (Z.to_nat skip)
                         (merge_sort newestFirstTask (selectTasks P db)))),
                  db, [Task_find])
        end.

Definition TaskModel_countDocuments (q : TaskQuery) : M Z :=
  λ db, match compileQuery q with
        | inl e => (inl e, db, [Task_countDocuments])
        | inr P => (inr (Z.of_nat (length (selectTasks P db))), db, [Task_countDocuments])
        end.

(** [TaskModel.findOneAndDelete({_id, workspace})]. *)
Definition TaskModel_findOneAndDelete (id workspaceId : ObjectId) : M (option Task.t) :=
  λ db, match tasks db !! id with
        | Some t =>
            if decide (Task.workspace t = workspaceId)
            then (inr (Some t), mkDb (projects db) (delete id (tasks db)) (members db)
                                     (clarifications db), [Task_findOneAndDelete id])
            else (inr None, db, [Task_findOneAndDelete id])
        | None => (inr None, db, [Task_findOneAndDelete id])
        end.

(** [Promise.all] of two queries: both are issued, and the result is the
    first rejection if there is one. *)
Definition promiseAll {A B} (m1 : M A) (m2 : M B) : M (A * B) :=
  λ db, let '(r1, db1, c1) := m1 db in
        let '(r2, db2, c2) := m2 db1 in
        (match r1, r2 with
         | inl e, _ => inl e
         | inr _, inl e => inl e
         | inr a, inr b => inr (a, b)
         end, db2, c1 ++ c2).

Definition selectClarifications (workspaceId taskId : ObjectId) (db : Db)
  : list (ObjectId * TaskClarification.t) :=
  filter (λ kc, TaskClarification.workspace kc.2 = workspaceId
                ∧ TaskClarification.task kc.2 = taskId)
         (map_to_list (clarifications db)).

(** [TaskClarificationModel.find({workspace, task}).sort({createdAt: -1})]. *)
Definition TaskClarificationModel_find (workspaceId taskId : ObjectId)
  : M (list (ObjectId * TaskClarification.t)) :=
  λ db, (inr (merge_sort newestFirstClarification
                (selectClarifications workspaceId taskId db)),
         db, [Clarification_find]).

(** [TaskClarificationModel.create({workspace, task, askedBy, question})]:
    the question is trimmed by the schema and required, the responses
    default to the empty list, both time stamps are the current time. *)
Definition TaskClarificationModel_create (env : Env)
    (workspaceId taskId askedBy : ObjectId) (question : string)
  : M (ObjectId * TaskClarification.t) :=
  λ db, let id := freshId env in
        if truthy (trim question) then
          match clarifications db !! id with
          | Some _ => (inl (MongoError "Duplicate key"), db, [Clarification_create id])
          | None =>
              let c := TaskClarification.mk taskId workspaceId (trim question) askedBy
                         [] (now env) (now env) in
              (inr (id, c), mkDb (projects db) (tasks db) (members db)
                                 (<[id := c]> (clarifications db)),
               [Clarification_create id])
          end
        else (inl (MongoError "Validation failed: question is required"), db,
              [Clarification_create id]).

(** The [$push] of one response: the schema trims the message. *)
Definition pushResponse (env : Env) (r : ClarificationResponse.t)
    (c : TaskClarification.t) : TaskClarification.t :=
  TaskClarification.mk (TaskClarification.task c) (TaskClarification.workspace c)
    (TaskClarification.question c) (TaskClarification.askedBy c)
    (TaskClarification.responses c
       ++ [ClarificationResponse.mk (trim (ClarificationResponse.message r))
             (ClarificationResponse.respondedBy r)
             (ClarificationResponse.createdAt r)])
    (TaskClarification.createdAt c) (now env).

(** [TaskClarificationModel.findOneAndUpdate({_id, workspace, task},
    {$push: {responses: r}}, {new: true})]. *)
Definition TaskClarificationModel_findOneAndUpdate (env : Env)
    (id workspaceId taskId : ObjectId) (r : ClarificationResponse.t)
  : M (option TaskClarification.t) :=
  λ db, match clarifications db !! id with
        | Some c =>
            if bool_decide (TaskClarification.workspace c = workspaceId)
               && bool_decide (TaskClarification.task c = taskId)
            then let c' := pushResponse env r c in
                 (inr (Some c'), mkDb (projects db) (tasks db) (members db)
                                      (<[id := c']> (clarifications db)),
                  [Clarification_findOneAndUpdate id])
            else (inr None, db, [Clarification_findOneAndUpdate id])
        | None => (inr None, db, [Clarification_findOneAndUpdate id])
        end.

(** ** The services of [task.service.ts] *)

Definition verifyTaskBelongsToWorkspace (workspaceId taskId : ObjectId) : M Task.t :=
  task ← TaskModel_findOne taskId workspaceId None;
  match task with
  | None => throw (NotFoundException "Task not found or does not belong to this workspace")
  | Some task => mret task
  end.

(** [!project || project.workspace.toString() !== workspaceId.toString()] *)
Definition projectOutside (project : option Project.t) (workspaceId : ObjectId) : bool :=
  match project with
  | None => true
  | Some p => bool_decide (Project.workspace p ≠ workspaceId)
  end.

Definition createTaskService (env : Env) (workspaceId projectId userId : ObjectId)
    (body : CreateTaskPayload.t) : M (ObjectId * Task.t) :=
  let assignedTo := assigneeValue (CreateTaskPayload.assignedTo body) in
  project ← ProjectModel_findById projectId;
  if projectOutside project workspaceId then
    throw (NotFoundException "Project not found or does not belong to this workspace")
  else
    (match assignedTo with
     | JsString a =>
         if truthy a then
           isAssignedUserMember ← MemberModel_exists a workspaceId;
           if negb isAssignedUserMember
           then throw (JsError "Assigned user is not a member of this workspace.")
           else mret ()
         else mret ()
     | _ => mret ()
     end);;
    let priority := CreateTaskPayload.priority body in
    let status := CreateTaskPayload.status body in
    task ← TaskModel_save (freshId env)
             (TaskModel_new env (CreateTaskPayload.title body)
                (CreateTaskPayload.description body)
                (if truthy priority then priority else TaskPriorityEnum_MEDIUM)
                (if truthy status then status else TaskStatusEnum_TODO)
                assignedTo userId workspaceId projectId
                (CreateTaskPayload.dueDate body));
    mret (freshId env, task).

Definition isOwnerOrAdmin (userRole : RoleType) : bool :=
  bool_decide (userRole = OWNER) || bool_decide (userRole = ADMIN).

(** [task.assignedTo && task.assignedTo.toString() === userId.toString()] *)
Definition isTaskAssignedToUser (task : Task.t) (userId : ObjectId) : bool :=
  match Task.assignedTo task with
  | Some a => bool_decide (a = userId)
  | None => false
  end.

Definition providedEntries (body : UpdateTaskPayload.t) : list (string * JsValue) :=
  filter (λ kv, kv.2 ≠ JsUndefined) (Object_entries body).

Definition invalidFields (body : UpdateTaskPayload.t) : list string :=
  filter (λ key, key ≠ "status") (providedEntries body).*1.

(** Lines 141 to 185: the payload the update will carry, or the rejection
    of an assignee who is not a member. *)
Definition buildUpdatePayload (workspaceId : ObjectId) (ownerOrAdmin : bool)
    (body : UpdateTaskPayload.t) : M UpdatePayload :=
  let status := UpdateTaskPayload.status body in
  if ownerOrAdmin then
    let u := mkUpdate status (UpdateTaskPayload.title body)
               (UpdateTaskPayload.description body)
               (UpdateTaskPayload.priority body)
               (UpdateTaskPayload.dueDate body) None in
    match UpdateTaskPayload.assignedTo body with
    | Absent => mret u
    | Present v =>
        let sanitizedAssignee :=
          match v with
          | JsUndefined => JsUndefined
          | JsString s => if bool_decide (s = "") then JsUndefined else v
          | JsNull => JsNull
          end in
        match sanitizedAssignee with
        | JsString a =>
            (* a sanitized string is never empty, hence truthy *)
            isAssignedUserMember ← MemberModel_exists a workspaceId;
            if negb isAssignedUserMember
            then throw (BadRequestException
                          "Assigned user is not a member of this workspace")
            else mret (mkUpdate (set_status u) (set_title u) (set_description u)
                         (set_priority u) (set_dueDate u) (Some (Some a)))
        | _ =>
            if bool_decide (v = JsNull) then
              mret (mkUpdate (set_status u) (set_title u) (set_description u)
                      (set_priority u) (set_dueDate u) (Some None))
            else if bool_decide (v = JsString "") then
              mret (mkUpdate (set_status u) (set_title u) (set_description u)
                      (set_priority u) (set_dueDate u) (Some None))
            else mret u
        end
    end
  else mret (mkUpdate status None None None None None).

Definition updateTaskService (workspaceId projectId taskId userId : ObjectId)
    (userRole : RoleType) (body : UpdateTaskPayload.t) : M Task.t :=
  project ← ProjectModel_findById projectId;
  if projectOutside project workspaceId then
    throw (NotFoundException "Project not found or does not belong to this workspace")
  else
    task ← TaskModel_findById taskId;
    match task with
    | None => throw (NotFoundException "Task not found or does not belong to this project")
    | Some task =>
        if bool_decide (Task.project task ≠ projectId) then
          throw (NotFoundException "Task not found or does not belong to this project")
        else if negb (isOwnerOrAdmin userRole) && negb (isTaskAssignedToUser task userId)
        then throw (UnauthorizedException "You are not authorized to update this task")
        else if negb (isOwnerOrAdmin userRole)
                && bool_decide (0 < length (invalidFields body))%nat
        then throw (UnauthorizedException "Members can only update the task status")
        else
          updatePayload ← buildUpdatePayload workspaceId (isOwnerOrAdmin userRole) body;
          if bool_decide (length (Object_keys updatePayload) = 0%nat) then
            throw (BadRequestException "No updates were provided")
          else
            updatedTask ← TaskModel_findByIdAndUpdate taskId updatePayload;
            match updatedTask with
            | None => throw (BadRequestException "Failed to update task")
            | Some updatedTask => mret updatedTask
            end
    end.

(** The reply of [getAllTasksService]. [totalPages] is [None] when
    [Math.ceil(totalCount / pageSize)] is not a finite number. *)
Record TaskPage := mkPage {
  page_tasks : list (ObjectId * Task.t);
  page_pageSize : Z;
  page_pageNumber : Z;
  page_totalCount : Z;
  page_totalPages : option Z;
  page_skip : Z
}.

(** Lines 217 to 245: the query built from the filters. *)
Definition buildQuery (workspaceId : ObjectId) (filters : Filters.t) : TaskQuery :=
  mkQuery workspaceId
    (match Filters.projectId filters with
     | Some p => if truthy p then Some p else None
     | None => None
     end)
    (match Filters.status filters with
     | Some l => if bool_decide (0 < length l)%nat then Some l else None
     | None => None
     end)
    (match Filters.priority filters with
     | Some l => if bool_decide (0 < length l)%nat then Some l else None
     | None => None
     end)
    (match Filters.assignedTo filters with
     | Some l => if bool_decide (0 < length l)%nat then Some l else None
     | None => None
     end)
    (match Filters.keyword filters with
     | Some k => if truthy k then Some k else None
     | None => None
     end)
    (match Filters.dueDate filters with
     | Some d => if truthy d then Some (dateValue d) else None
     | None => None
     end).

Definition getAllTasksService (workspaceId : ObjectId) (filters : Filters.t)
    (pagination : Pagination.t) : M TaskPage :=
  let query := buildQuery workspaceId filters in
  let pageSize := Pagination.pageSize pagination in
  let pageNumber := Pagination.pageNumber pagination in
  let skip := (pageNumber - 1) * pageSize in
  '(tasks, totalCount) ← promiseAll (TaskModel_find query skip pageSize)
                                    (TaskModel_countDocuments query);
  let totalPages := ceilDiv totalCount pageSize in
  mret (mkPage tasks pageSize pageNumber totalCount totalPages skip).

Definition getTaskByIdService (workspaceId projectId taskId : ObjectId) : M Task.t :=
  project ← ProjectModel_findById projectId;
  if projectOutside project workspaceId then
    throw (NotFoundException "Project not found or does not belong to this workspace")
  else
    task ← TaskModel_findOne taskId workspaceId (Some projectId);
    match task with
    | None => throw (NotFoundException "Task not found.")
    | Some task => mret task
    end.

Definition getTaskClarificationsService (workspaceId taskId : ObjectId)
  : M (list (ObjectId * TaskClarification.t)) :=
  verifyTaskBelongsToWorkspace workspaceId taskId;;
  TaskClarificationModel_find workspaceId taskId.

Definition createTaskClarificationService (env : Env)
    (workspaceId taskId userId : ObjectId) (question : string)
  : M (ObjectId * TaskClarification.t) :=
  verifyTaskBelongsToWorkspace workspaceId taskId;;
  TaskClarificationModel_create env workspaceId taskId userId question.

Definition respondToTaskClarificationService (env : Env)
    (workspaceId taskId clarificationId userId : ObjectId) (message : string)
  : M TaskClarification.t :=
  verifyTaskBelongsToWorkspace workspaceId taskId;;
  clarification ← TaskClarificationModel_findOneAndUpdate env clarificationId
                    workspaceId taskId
                    (ClarificationResponse.mk message userId (now env));
  match clarification with
  | None => throw (NotFoundException "Clarification not found for this task")
  | Some clarification => mret clarification
  end.

Definition deleteTaskService (workspaceId taskId : ObjectId) : M unit :=
  task ← TaskModel_findOneAndDelete taskId workspaceId;
  match task with
  | None => throw (NotFoundException
                     "Task not found or does not belong to the specified workspace")
  | Some _ => mret ()
  end.

(** ** The query decoding of [getAllTasksController] *)

(** [req.query] of the listing route. *)
Record ListQuery := mkListQuery {
  query_projectId : option string;
  query_status : option string;
  query_priority : option string;
  query_assignedTo : option string;
  query_keyword : option string;
  query_dueDate : option string;
  query_pageSize : option string;
  query_pageNumber : option string
}.

(** [v ? v.split(",") : undefined] *)
Definition splitParam (v : option string) : option (list string) :=
  match v with
  | Some s => if truthy s then Some (splitComma s) else None
  | None => None
  end.

Definition filtersOf (q : ListQuery) : Filters.t :=
  Filters.mk (query_projectId q) (splitParam (query_status q))
    (splitParam (query_priority q)) (splitParam (query_assignedTo q))
    (query_keyword q) (query_dueDate q).

(** [parseInt(v) || fallback]: [NaN] and both zeros are falsy, an
    infinity is not. *)
Definition parseIntOr (v : option string) (fallback : Z) : JsInt :=
  match parseInt (toStringParam v) with
  | NaN => Num fallback
  | Num n => if n =? 0 then Num fallback else Num n
  | Infinity negative => Infinity negative
  end.

(** The pagination handed to the service. The service is modelled on
    integers: a page size or a page number that reads as an infinity has
    none, and what the store answers to an infinite limit or skip is not
    determined by the sources. *)
Definition paginationOf (q : ListQuery) : option Pagination.t :=
  match parseIntOr (query_pageSize q) 10, parseIntOr (query_pageNumber q) 1 with
  | Num pageSize, Num pageNumber => Some (Pagination.mk pageSize pageNumber)
  | _, _ => None
  end.

(** The controller: the workspace id, the caller's role and the role guard
    come from modules that are not part of the sources; [access] is their
    combined effect, after which the service runs on the decoded query.
    The controller is [None] where the pagination is. *)
Definition getAllTasksController (access : M unit) (workspaceId : ObjectId)
    (q : ListQuery) : option (M TaskPage) :=
  pagination ← paginationOf q;
  Some (access;; getAllTasksService workspaceId (filtersOf q) pagination).

(** ** The operations as one request type *)

Inductive Request :=
| CreateTask (workspaceId projectId userId : ObjectId) (body : CreateTaskPayload.t)
| UpdateTask (workspaceId projectId taskId userId : ObjectId) (userRole : RoleType)
    (body : UpdateTaskPayload.t)
| GetAllTasks (workspaceId : ObjectId) (filters : Filters.t) (pagination : Pagination.t)
| GetTaskById (workspaceId projectId taskId : ObjectId)
| GetTaskClarifications (workspaceId taskId : ObjectId)
| CreateTaskClarification (workspaceId taskId userId : ObjectId) (question : string)
| RespondToTaskClarification (workspaceId taskId clarificationId userId : ObjectId)
    (message : string)
| DeleteTask (workspaceId taskId : ObjectId).

Inductive Reply :=
| TaskReply (id : ObjectId) (task : Task.t)
| TaskPageReply (page : TaskPage)
| ClarificationReply (id : ObjectId) (c : TaskClarification.t)
| ClarificationsReply (cs : list (ObjectId * TaskClarification.t))
| Done.

Definition handle (env : Env) (r : Request) : M Reply :=
  match r with
  | CreateTask w p u body =>
      '(id, t) ← createTaskService env w p u body; mret (TaskReply id t)
  | UpdateTask w p t u role body =>
      t' ← updateTaskService w p t u role body; mret (TaskReply t t')
  | GetAllTasks w f pg =>
      page ← getAllTasksService w f pg; mret (TaskPageReply page)
  | GetTaskById w p t =>
      t' ← getTaskByIdService w p t; mret (TaskReply t t')
  | GetTaskClarifications w t =>
      cs ← getTaskClarificationsService w t; mret (ClarificationsReply cs)
  | CreateTaskClarification w t u question =>
      '(id, c) ← createTaskClarificationService env w t u question;
      mret (ClarificationReply id c)
  | RespondToTaskClarification w t c u message =>
      c' ← respondToTaskClarificationService env w t c u message;
      mret (ClarificationReply c c')
  | DeleteTask w t =>
      deleteTaskService w t;; mret Done
  end.

(** The task and the workspace a request names, for the operations on one
    task. *)
Definition namedTask (r : Request) : option (ObjectId * ObjectId) :=
  match r with
  | UpdateTask w _ t _ _ _ | GetTaskById w _ t | GetTaskClarifications w t
  | CreateTaskClarification w t _ _ | RespondToTaskClarification w t _ _ _
  | DeleteTask w t => Some (w, t)
  | CreateTask _ _ _ _ | GetAllTasks _ _ _ => None
  end.

(** Running a list of requests, each in its own environment. *)
Fixpoint runAll (rs : list (Env * Request)) (db : Db) : Db :=
  match rs with
  | [] => db
  | (env, r) :: rs' => runAll rs' (finalDb (handle env r db))
  end.

(** ** Vocabulary of the properties *)

(** The request resolves to the task [t]: the project is in the workspace
    and the task in the project. *)
Definition resolves (db : Db) (workspaceId projectId taskId : ObjectId) (t : Task.t)
  : Prop :=
  (∃ p, projects db !! projectId = Some p ∧ Project.workspace p = workspaceId)
  ∧ tasks db !! taskId = Some t ∧ Task.project t = projectId.

(** The body defines a field other than [status]. *)
Definition definesBesidesStatus (body : UpdateTaskPayload.t) : Prop :=
  is_Some (UpdateTaskPayload.title body)
  ∨ is_Some (UpdateTaskPayload.description body)
  ∨ is_Some (UpdateTaskPayload.priority body)
  ∨ is_Some (UpdateTaskPayload.dueDate body)
  ∨ ∃ v, UpdateTaskPayload.assignedTo body = Present v ∧ v ≠ JsUndefined.

(** The body defines no field at all. *)
Definition definesNothing (body : UpdateTaskPayload.t) : Prop :=
  UpdateTaskPayload.status body = None ∧ ¬ definesBesidesStatus body.

(** The task with another status and everything else as it was. *)
Definition withStatus (s : string) (t : Task.t) : Task.t :=
  Task.mk (Task.title t) (Task.description t) (Task.priority t) s
          (Task.assignedTo t) (Task.createdBy t) (Task.workspace t) (Task.project t)
          (Task.dueDate t) (Task.createdAt t).

Definition withTasks (ts : gmap string Task.t) (db : Db) : Db :=
  mkDb (projects db) ts (members db) (clarifications db).
(** The caller may update the task: owner, admin, or its assignee. *)
Definition mayUpdate (role : RoleType) (userId : ObjectId) (t : Task.t) : Prop :=
  role = OWNER ∨ role = ADMIN ∨ Task.assignedTo t = Some userId.

(** The fields a role may apply, and the provided fields of a body that
    are among them: its effective changes. *)
Definition allowedFields (role : RoleType) : list string :=
  if isOwnerOrAdmin role
  then ["status"; "title"; "description"; "priority"; "dueDate"; "assignedTo"]
  else ["status"].

Definition effectiveFields (role : RoleType) (body : UpdateTaskPayload.t) : list string :=
  filter (λ key, key ∈ allowedFields role) (providedEntries body).*1.

(** The body asks for the task to be unassigned. *)
Definition clearsAssignee (body : UpdateTaskPayload.t) : Prop :=
  UpdateTaskPayload.assignedTo body = Present JsNull
  ∨ UpdateTaskPayload.assignedTo body = Present (JsString "").

Definition withClarifications (cs : gmap string TaskClarification.t) (db : Db) : Db :=
  mkDb (projects db) (tasks db) (members db) cs.

(** The task exists and belongs to the workspace. *)
Definition taskInWorkspace (db : Db) (taskId workspaceId : ObjectId) : Prop :=
  ∃ t, tasks db !! taskId = Some t ∧ Task.workspace t = workspaceId.

(** The invariant of the data model: a task lies in the workspace of its
    project. *)
Definition consistent (db : Db) : Prop :=
  ∀ id t p, tasks db !! id = Some t → projects db !! Task.project t = Some p →
    Project.workspace p = Task.workspace t.

(** What one request can do to the documents. *)
Inductive Step (env : Env) (db : Db) : Db → Prop :=
| step_none : Step env db db
| step_task_insert id t p :
    tasks db !! id = None →
    projects db !! Task.project t = Some p →
    Project.workspace p = Task.workspace t →
    Step env db (withTasks (<[id := t]> (tasks db)) db)
| step_task_update id t u due :
    tasks db !! id = Some t →
    Step env db (withTasks (<[id := applyUpdate u due t]> (tasks db)) db)
| step_task_delete id :
    Step env db (withTasks (delete id (tasks db)) db)
| step_clarification_insert id c :
    clarifications db !! id = None →
    TaskClarification.responses c = [] →
    Step env db (withClarifications (<[id := c]> (clarifications db)) db)
| step_clarification_push id c r :
    clarifications db !! id = Some c →
    ClarificationResponse.createdAt r = now env →
    Step env db (withClarifications (<[id := pushResponse env r c]> (clarifications db)) db).

(** The creation times of the responses of a clarification, in the order
    of the list. *)
Definition responseTimes (c : TaskClarification.t) : list Z :=
  ClarificationResponse.createdAt <$> TaskClarification.responses c.

(** Every response list is ordered by creation time, and no response is
    later than the clock. *)
Definition chronological (clock : Z) (db : Db) : Prop :=
  ∀ id c, clarifications db !! id = Some c →
    StronglySorted Z.le (responseTimes c) ∧ Forall (λ x, x ≤ clock) (responseTimes c).

(** The clock does not run backwards along a list of requests. *)
Fixpoint clockMonotone (clock : Z) (rs : list (Env * Request)) : Prop :=
  match rs with
  | [] => True
  | (env, _) :: rs' => clock ≤ now env ∧ clockMonotone (now env) rs'
  end.

Definition lastClock (clock : Z) (rs : list (Env * Request)) : Z :=
  foldl (λ _ er, now er.1) clock rs.

(** The store cannot run the listing: the skip is negative, the engine
    rejects the keyword as a pattern, or the due date is no date. *)
Definition storeRejects (filters : Filters.t) (pagination : Pagination.t) : Prop :=
  (Pagination.pageNumber pagination - 1) * Pagination.pageSize pagination < 0
  ∨ (∃ k, Filters.keyword filters = Some k ∧ k ≠ "" ∧ regexCompile k = None)
  ∨ (∃ d, Filters.dueDate filters = Some d ∧ d ≠ "" ∧ dateValue d = None).

(** The slice of a sorted result that a page shows. *)
Definition pageSlice {A} (pagination : Pagination.t) (l : list A) : list A :=
  applyLimit (Pagination.pageSize pagination)
    (drop (Z.to_nat ((Pagination.pageNumber pagination - 1)
                     * Pagination.pageSize pagination)) l).

(** [n] is the ceiling of the quotient [a / b]. *)
Definition isCeiling (n a b : Z) : Prop :=
  (0 < b ∧ b * (n - 1) < a ≤ b * n) ∨ (b < 0 ∧ b * n ≤ a < b * (n - 1)).

(** Page parameters on which the arithmetic of the listing is exact in
    doubles: the size, the number and the skip are all below 2^53. *)
Definition safePage (pageSize pageNumber : Z) : Prop :=
  Z.abs pageSize < 2 ^ 53 ∧ Z.abs pageNumber < 2 ^ 53
  ∧ Z.abs ((pageNumber - 1) * pageSize) < 2 ^ 53.

(** A listing filtered by keyword alone. *)
Definition keywordOnly (k : string) : Filters.t :=
  Filters.mk None None None None (Some k) None.
End Services.

(** ** Sample data *)

Definition sampleTask1 : Task.t :=
  Task.mk "Write the report" (Some "Quarterly numbers") "HIGH" "TODO" (Some "bob")
          "alice" "w1" "p1" None 100.

Definition sampleTask2 : Task.t :=
  Task.mk "a" None "LOW" "DONE" None "alice" "w1" "p1" None 200.

Definition sampleTask3 : Task.t :=
  Task.mk "Plan" None "LOW" "TODO" None "dave" "w2" "p2" None 300.

Definition sampleClarification : TaskClarification.t :=
  TaskClarification.mk "t1" "w1" "Which quarter?" "bob"
    [ClarificationResponse.mk "The third" "alice" 150] 120 150.

Definition sampleDb : Db :=
  mkDb {[ "p1" := Project.mk "w1"; "p2" := Project.mk "w2" ]}
       {[ "t1" := sampleTask1; "t2" := sampleTask2; "t3" := sampleTask3 ]}
       [Member.mk "alice" "w1"; Member.mk "bob" "w1"; Member.mk "dave" "w2"]
       {[ "c1" := sampleClarification ]}.

Definition emptyBody : UpdateTaskPayload.t :=
  UpdateTaskPayload.mk None None None None Absent None.

Definition sampleEnv : Env := mkEnv 1000 "n1".

Definition titleBody : UpdateTaskPayload.t :=
  UpdateTaskPayload.mk (Some "New title") None None None Absent None.

Definition statusBody : UpdateTaskPayload.t :=
  UpdateTaskPayload.mk None None None (Some "DONE") Absent None.

Definition clearBody : UpdateTaskPayload.t :=
  UpdateTaskPayload.mk None None None None (Present JsNull) None.

Definition malloryTask : CreateTaskPayload.t :=
  CreateTaskPayload.mk "Audit" None "LOW" "TODO" (Present (JsString "mallory")) None.

Definition malloryBody : UpdateTaskPayload.t :=
  UpdateTaskPayload.mk None None None None (Present (JsString "mallory")) None.

Definition firstPage : Pagination.t := Pagination.mk 10 1.

Definition todoFilter : Filters.t :=
  Filters.mk None (Some ["TODO"]) None None None None.

Definition emptyQuery : ListQuery :=
  mkListQuery None None None None None None None None.

Definition sampleResponse : Request :=
  RespondToTaskClarification "w1" "t1" "c1" "alice" "  See the Q3 sheet ".


(** * Request validation: [validation/task.validation.ts]

    A schema reads a JSON value, or nothing when the key is missing, and
    answers with the parsed value or with the issues it found. *)

(** A value of a JSON body as the schemas look at it. [JOther] is a
    boolean, a number, an array or an object: no schema of this file reads
    inside one. *)
Inductive Json := JNull | JString (s : string) | JOther.

Global Instance Json_eq_dec : EqDecision Json.
Proof. solve_decision. Defined.

Inductive ZodIssueCode :=
| invalid_type | too_small | too_big | invalid_enum_value | custom.

Record ZodIssue := mkIssue { issue_path : list string; issue_code : ZodIssueCode }.

(** The result of [safeParse]; [parse] throws the issues as a [ZodError]. *)
Definition Parsed (A : Type) : Type := list ZodIssue + A.

Definition issueAt (key : string) (i : ZodIssue) : ZodIssue :=
  mkIssue (key :: issue_path i) (issue_code i).

(** The issues of a property are reported under its key. *)
Definition atKey {A} (key : string) (r : Parsed A) : Parsed A :=
  match r with inl errs => inl (issueAt key <$> errs) | inr a => inr a end.

Definition issuesOf {A} (r : Parsed A) : list ZodIssue :=
  match r with inl errs => errs | inr _ => [] end.

(** [z.string()] followed by [.trim()] and length checks, which all run on
    the trimmed string and all report. *)
Definition zStringTrim (checks : string → list ZodIssue) (v : option Json)
  : Parsed string :=
  match v with
  | Some (JString s) =>
      match checks (trim s) with
      | [] => inr (trim s)
      | errs => inl errs
      end
  | _ => inl [mkIssue [] invalid_type]
  end.

(** [.min(n)] and [.max(n)] compare the [length] of the string, its number
    of UTF-16 code units; a character of the model is one code unit. *)
Definition checkMin (n : nat) (s : string) : list ZodIssue :=
  if (String.length s <? n)%nat then [mkIssue [] too_small] else [].

Definition checkMax (n : nat) (s : string) : list ZodIssue :=
  if (n <? String.length s)%nat then [mkIssue [] too_big] else [].

(** [.optional()] and [.nullable()]. *)
Definition zOptional {A} (schema : option Json → Parsed A) (v : option Json)
  : Parsed (option A) :=
  match v with None => inr None | Some _ => sum_map id Some (schema v) end.

Definition zNullable {A} (schema : option Json → Parsed A) (v : option Json)
  : Parsed (option A) :=
  match v with Some JNull => inr None | _ => sum_map id Some (schema v) end.

(** [z.enum(values)]: the string must be one of the values as written. *)
Definition zEnum (values : list string) (v : option Json) : Parsed string :=
  match v with
  | Some (JString s) =>
      if bool_decide (s ∈ values) then inr s
      else inl [mkIssue [] invalid_enum_value]
  | _ => inl [mkIssue [] invalid_type]
  end.

(** [titleSchema = z.string().trim().min(1).max(255)] *)
Definition titleSchema : option Json → Parsed string :=
  zStringTrim (λ s, checkMin 1 s ++ checkMax 255 s).

(** [descriptionSchema = z.string().trim().optional()] *)
Definition descriptionSchema : option Json → Parsed (option string) :=
  zOptional (zStringTrim (λ _, [])).

(** [assignedToSchema = z.string().trim().min(1).nullable().optional()]:
    nothing, [null], or a string that is not blank. *)
Definition assignedToSchema : option Json → Parsed (option (option string)) :=
  zOptional (zNullable (zStringTrim (checkMin 1))).

(** [taskIdSchema] and [clarificationIdSchema], both
    [z.string().trim().min(1)]; a route parameter is always a string. *)
Definition taskIdSchema (param : string) : Parsed string :=
  zStringTrim (checkMin 1) (Some (JString param)).

Definition clarificationIdSchema (param : string) : Parsed string :=
  zStringTrim (checkMin 1) (Some (JString param)).

(** The values of [TaskPriorityEnum] and [TaskStatusEnum]:
    [enums/task.enum.ts] is not part of the sources. *)
Class TaskEnums := {
  TaskPriorityEnum_values : list string;
  TaskStatusEnum_values : list string
}.

(** The property of a parsed body that goes into the [assignedTo] field of
    a payload. *)
Definition assigneeField (o : option (option string)) : AssigneeField :=
  match o with
  | None => Absent
  | Some None => Present JsNull
  | Some (Some s) => Present (JsString s)
  end.

Section Validation.
Context `{Externals} `{TaskEnums}.

Definition prioritySchema : option Json → Parsed string :=
zEnum TaskPriorityEnum_values.

Definition statusSchema : option Json → Parsed string :=
zEnum TaskStatusEnum_values.

(** [dueDateSchema = z.string().trim().optional().refine(val => !val ||
  !isNaN(Date.parse(val)))]: the refinement runs on the trimmed string. *)
Definition dueDateSchema (v : option Json) : Parsed (option string) :=
match zOptional (zStringTrim (λ _, [])) v with
| inl errs => inl errs
| inr val =>
    match val with
    | Some s =>
        if negb (truthy s) || bool_decide (is_Some (dateValue s)) then inr val
        else inl [mkIssue [] custom]
    | None => inr val
    end
end.

(** [createTaskSchema = z.object({..})]. The body is the object's own
  properties; the issues of all properties are reported together, in the
  order of the schema, and unknown properties are dropped. *)
Definition createTaskSchema (body : gmap string Json) : Parsed CreateTaskPayload.t :=
let title := atKey "title" (titleSchema (body !! "title")) in
let description := atKey "description" (descriptionSchema (body !! "description")) in
let priority := atKey "priority" (prioritySchema (body !! "priority")) in
let status := atKey "status" (statusSchema (body !! "status")) in
let assignedTo := atKey "assignedTo" (assignedToSchema (body !! "assignedTo")) in
let dueDate := atKey "dueDate" (dueDateSchema (body !! "dueDate")) in
match title, description, priority, status, assignedTo, dueDate with
| inr t, inr d, inr p, inr s, inr a, inr due =>
    inr (CreateTaskPayload.mk t d p s (assigneeField a) due)
| _, _, _, _, _, _ =>
    inl (issuesOf title ++ issuesOf description ++ issuesOf priority
         ++ issuesOf status ++ issuesOf assignedTo ++ issuesOf dueDate)
end.

(** [updateTaskSchema = z.object({..}).partial()]: every property becomes
  optional. *)
Definition updateTaskSchema (body : gmap string Json) : Parsed UpdateTaskPayload.t :=
let title := atKey "title" (zOptional titleSchema (body !! "title")) in
let description :=
  atKey "description" (zOptional descriptionSchema (body !! "description")) in
let priority := atKey "priority" (zOptional prioritySchema (body !! "priority")) in
let status := atKey "status" (zOptional statusSchema (body !! "status")) in
let assignedTo :=
  atKey "assignedTo" (zOptional assignedToSchema (body !! "assignedTo")) in
let dueDate := atKey "dueDate" (zOptional dueDateSchema (body !! "dueDate")) in
match title, description, priority, status, assignedTo, dueDate with
| inr t, inr d, inr p, inr s, inr a, inr due =>
    inr (UpdateTaskPayload.mk t (mjoin d) p s (assigneeField (mjoin a)) (mjoin due))
| _, _, _, _, _, _ =>
    inl (issuesOf title ++ issuesOf description ++ issuesOf priority
         ++ issuesOf status ++ issuesOf assignedTo ++ issuesOf dueDate)
end.
End Validation.

(** [createClarificationSchema]: a question of 5 to 1000 characters once
    trimmed. *)
Definition createClarificationSchema (body : gmap string Json) : Parsed string :=
  atKey "question"
    (zStringTrim (λ s, checkMin 5 s ++ checkMax 1000 s) (body !! "question")).

(** [respondClarificationSchema]: a message of 1 to 1000 characters once
    trimmed. *)
Definition respondClarificationSchema (body : gmap string Json) : Parsed string :=
  atKey "message"
    (zStringTrim (λ s, checkMin 1 s ++ checkMax 1000 s) (body !! "message")).

(** The JSON image of a payload, as a body: a property that is undefined
    is left out, as [JSON.stringify] does. *)
Definition jsonOfOpt (o : option string) : option Json := JString <$> o.

Definition jsonOfAssignee (a : AssigneeField) : option Json :=
  match a with
  | Absent | Present JsUndefined => None
  | Present JsNull => Some JNull
  | Present (JsString s) => Some (JString s)
  end.

Definition putKey (key : string) (v : option Json) (body : gmap string Json)
  : gmap string Json :=
  match v with Some j => <[key := j]> body | None => body end.

Definition jsonOfUpdate (p : UpdateTaskPayload.t) : gmap string Json :=
  putKey "title" (jsonOfOpt (UpdateTaskPayload.title p))
    (putKey "description" (jsonOfOpt (UpdateTaskPayload.description p))
       (putKey "priority" (jsonOfOpt (UpdateTaskPayload.priority p))
          (putKey "status" (jsonOfOpt (UpdateTaskPayload.status p))
             (putKey "assignedTo" (jsonOfAssignee (UpdateTaskPayload.assignedTo p))
                (putKey "dueDate" (jsonOfOpt (UpdateTaskPayload.dueDate p)) ∅))))).

(** * The task editor of the client

    [EditTaskForm] and [ClarificationSection]: what the form sends when it
    is submitted. The functions that carry a payload to the server
    ([lib/api]) are not part of the sources; a payload reaches the server as
    its JSON image. *)

Definition UNASSIGNED_OPTION_VALUE : string := "__unassigned__".

(** [Date.prototype.toISOString], which the sources do not define. *)
Class ClientExternals := { toISOString : Z → string }.

(** The values of the form once [formSchema] has accepted them; the due
    date is the time value of a [Date]. *)
Module FormValues.
Record t := mk {
title : string;
description : string;
status : string;
priority : string;
assignedTo : option string;
dueDate : Z
}.
End FormValues.

(** The [title] of [formSchema]: [z.string().trim().min(1)], with no upper
    bound. *)
Definition formTitleSchema : option Json → Parsed string :=
  zStringTrim (checkMin 1).

(** [roleName === "OWNER" || roleName === "ADMIN"] *)
Definition clientIsOwnerOrAdmin (roleName : option string) : bool :=
  bool_decide (roleName = Some "OWNER") || bool_decide (roleName = Some "ADMIN").

(** [task.assignedTo?._id === user?._id] *)
Definition clientIsTaskAssignee (assignee user : option ObjectId) : bool :=
  bool_decide (assignee = user).

Section Client.
Context `{ClientExternals}.

(** [onSubmit]: nothing is sent while an update is pending or when the user
  may not update; otherwise the payload holds the status and, for an
  owner or admin, the other fields, with the unassigned option and an
  empty choice sent as [null]. *)
Definition onSubmit (isUpdatingTask ownerOrAdmin taskAssignee : bool)
  (values : FormValues.t) : option UpdateTaskPayload.t :=
let canUpdateStatus := ownerOrAdmin || taskAssignee in
if isUpdatingTask || negb canUpdateStatus then None
else if ownerOrAdmin then
  Some (UpdateTaskPayload.mk
          (Some (FormValues.title values))
          (Some (FormValues.description values))
          (Some (FormValues.priority values))
          (Some (FormValues.status values))
          (Present
             (match FormValues.assignedTo values with
              | Some a =>
                  if truthy a && bool_decide (a ≠ UNASSIGNED_OPTION_VALUE)
                  then JsString a else JsNull
              | None => JsNull
              end))
          (Some (toISOString (FormValues.dueDate values))))
else
  Some (UpdateTaskPayload.mk None None None (Some (FormValues.status values))
          Absent None).
End Client.

(** [handleAsk]: the question is trimmed and sent only if it then holds at
    least 5 characters. *)
Definition handleAsk (question : string) : option string :=
  let trimmed := trim question in
  if (String.length trimmed <? 5)%nat then None else Some trimmed.

(** [handleRespond]: the draft of the clarification is trimmed and sent
    unless it is missing or empty. [answerDrafts] maps a clarification id
    to its draft. *)
Definition handleRespond (answerDrafts : gmap string string)
    (clarificationId : ObjectId) : option string :=
  match trim <$> answerDrafts !! clarificationId with
  | Some message => if truthy message then Some message else None
  | None => None
  end.

(** The draft is typed into ([onDraftChange]) and cleared on success. *)
Definition onDraftChange (answerDrafts : gmap string string)
    (clarificationId : ObjectId) (value : string) : gmap string string :=
  <[clarificationId := value]> answerDrafts.

Definition onRespondSuccess (answerDrafts : gmap string string)
    (clarificationId : ObjectId) : gmap string string :=
  <[clarificationId := ""]> answerDrafts.

(** * The routes of [routes/task.route.ts]

    A path is the list of its segments, the text between the slashes behind
    the mount point. A segment of a route is a fixed word, compared without
    regard to letter case, or a parameter, which takes any segment that is
    not empty; a closing slash is allowed. Parameter values are kept as
    they are written. *)

Inductive Method := GET | POST | PUT | DELETE.

Global Instance Method_eq_dec : EqDecision Method.
Proof. solve_decision. Defined.

Inductive RouteSegment := Word (w : string) | Param (name : string).

(** The handlers; [getAllTasksRoute] is the entry of
    [getAllTasksController]. *)
Inductive Controller :=
| createTaskController
| deleteTaskController
| updateTaskController
| getTaskClarificationsController
| createTaskClarificationController
| respondToTaskClarificationController
| getAllTasksRoute
| getTaskByIdController.

Global Instance Controller_eq_dec : EqDecision Controller.
Proof. solve_decision. Defined.

(** The routes in the order the file registers them. *)
Definition taskRoutes : list (Method * list RouteSegment * Controller) :=
  [ (POST, [Word "project"; Param "projectId"; Word "workspace"; Param "workspaceId";
            Word "create"], createTaskController);
    (DELETE, [Param "id"; Word "workspace"; Param "workspaceId"; Word "delete"],
     deleteTaskController);
    (PUT, [Param "id"; Word "project"; Param "projectId"; Word "workspace";
           Param "workspaceId"; Word "update"], updateTaskController);
    (GET, [Param "taskId"; Word "workspace"; Param "workspaceId";
           Word "clarifications"], getTaskClarificationsController);
    (POST, [Param "taskId"; Word "workspace"; Param "workspaceId";
            Word "clarifications"], createTaskClarificationController);
    (POST, [Param "taskId"; Word "workspace"; Param "workspaceId";
            Word "clarifications"; Param "clarificationId"; Word "respond"],
     respondToTaskClarificationController);
    (GET, [Word "workspace"; Param "workspaceId"; Word "all"], getAllTasksRoute);
    (GET, [Param "id"; Word "project"; Param "projectId"; Word "workspace";
           Param "workspaceId"], getTaskByIdController) ].

(** The parameters a path gives to a route, if the route matches it. *)
Fixpoint matchSegments (route : list RouteSegment) (path : list string)
  : option (list (string * string)) :=
  match route, path with
  | [], [] => Some []
  | [], [s] => if truthy s then None else Some []
  | Word w :: route', s :: path' =>
      if bool_decide (lower w = lower s) then matchSegments route' path' else None
  | Param name :: route', s :: path' =>
      if truthy s then cons (name, s) <$> matchSegments route' path' else None
  | _, _ => None
  end.

(** The router hands the request to the first route registered for the
    method that matches the path. *)
Fixpoint dispatchIn (routes : list (Method * list RouteSegment * Controller))
    (m : Method) (path : list string) : option (Controller * list (string * string)) :=
  match routes with
  | [] => None
  | (m', route, c) :: rest =>
      match (if bool_decide (m' = m) then matchSegments route path else None) with
      | Some params => Some (c, params)
      | None => dispatchIn rest m path
      end
  end.

Definition dispatch : Method → list string → option (Controller * list (string * string)) :=
  dispatchIn taskRoutes.

(** The query parameter [v] is the list [l] written with commas between
    its elements: a text that is not empty, whose elements hold no comma. *)
Definition commaJoined (v : option string) (l : list string) : Prop :=
  ∃ s, v = Some s ∧ s ≠ "" ∧ s = String.concat "," l
       ∧ l ≠ [] ∧ Forall (λ x, ","%char ∉ list_ascii_of_string x) l.

(** ** Sample data for validation, the editor and the routes *)

Definition sampleEnums : TaskEnums := {|
  TaskPriorityEnum_values := ["LOW"; "MEDIUM"; "HIGH"];
  TaskStatusEnum_values := ["BACKLOG"; "TODO"; "IN_PROGRESS"; "IN_REVIEW"; "DONE"]
|}.

(** The client of the examples renders dates as the reference instance
    reads them. *)
Definition sampleClient : ClientExternals := {| toISOString := referenceToISOString |}.

Definition sampleCreateBody : CreateTaskPayload.t :=
  CreateTaskPayload.mk "Review" None "" "" (Present (JsString "bob")) (Some "2024-03-01").

Definition assignBody : UpdateTaskPayload.t :=
  UpdateTaskPayload.mk None None None None (Present (JsString "alice")) None.

Definition sampleUpdateJson : gmap string Json :=
  {[ "title" := JString "  New title "; "status" := JString "DONE";
     "priority" := JString "HIGH"; "assignedTo" := JNull;
     "dueDate" := JString " 2024-03-01" ]}.

Definition sampleUpdateParsed : UpdateTaskPayload.t :=
  UpdateTaskPayload.mk (Some "New title") None (Some "HIGH") (Some "DONE")
    (Present JsNull) (Some "2024-03-01").

Definition sampleCreateJson : gmap string Json :=
  {[ "title" := JString " Review "; "priority" := JString "LOW";
     "status" := JString "TODO"; "assignedTo" := JString "bob" ]}.

Definition sampleCreateParsed : CreateTaskPayload.t :=
  CreateTaskPayload.mk "Review" None "LOW" "TODO" (Present (JsString "bob")) None.

Definition sampleCreated : Task.t :=
  Task.mk "Review" None "LOW" "TODO" (Some "bob") "alice" "w1" "p1" None 1000.

Definition sampleForm : FormValues.t :=
  FormValues.mk "Write the report" "Quarterly numbers" "DONE" "HIGH"
    (Some UNASSIGNED_OPTION_VALUE) 1709251200000.

Definition sampleDrafts : gmap string string := {[ "c1" := "  On it  " ]}.

Definition samplePage : TaskPage :=
  mkPage [("t1", sampleTask1)] 10 1 1 (Some 1) 0.

(** A task with a due date, and a listing that sets every list filter, the
    project and the due date. *)
Definition datedTask : Task.t :=
  Task.mk "Ship the release" None "HIGH" "TODO" (Some "bob") "alice" "w1" "p1"
          (Some 1709251200000) 400.

Definition datedDb : Db :=
  mkDb (projects sampleDb) (<["t4" := datedTask]> (tasks sampleDb)) (members sampleDb)
       (clarifications sampleDb).

Definition fullFilter : Filters.t :=
  Filters.mk (Some "p1") (Some ["TODO"]) (Some ["HIGH"]) (Some ["bob"]) None
    (Some "2024-03-01").

Definition datedPage : TaskPage :=
  mkPage [("t4", datedTask)] 10 1 1 (Some 1) 0.
(** * Properties *)

Section Properties.
Context `{Externals}.

Lemma bind_run {A B} (m : M A) (f : A → M B) db :
  (m ≫= f) db =
  match m db with
  | (inl e, db', cs) => (inl e, db', cs)
  | (inr a, db', cs) => let '(r, db'', cs') := f a db' in (r, db'', cs ++ cs')
  end.
Proof. reflexivity. Qed.

Lemma updateTaskService_resolved db w p t u role body task :
  resolves db w p t task →
  updateTaskService w p t u role body db =
  (let k : M Task.t :=
     if negb (isOwnerOrAdmin role) && negb (isTaskAssignedToUser task u)
     then throw (UnauthorizedException "You are not authorized to update this task")
     else if negb (isOwnerOrAdmin role)
             && bool_decide (0 < length (invalidFields body))%nat
     then throw (UnauthorizedException "Members can only update the task status")
     else
       updatePayload ← buildUpdatePayload w (isOwnerOrAdmin role) body;
       if bool_decide (length (Object_keys updatePayload) = 0%nat) then
         throw (BadRequestException "No updates were provided")
       else
         updatedTask ← TaskModel_findByIdAndUpdate t updatePayload;
         match updatedTask with
         | None => throw (BadRequestException "Failed to update task")
         | Some updatedTask => mret updatedTask
         end in
   let '(r, db', cs) := k db in (r, db', [Project_findById p; Task_findById t] ++ cs)).
Proof.
  intros [(pr & Hp & Hw) [Ht Htp]].
  unfold updateTaskService. rewrite bind_run. unfold ProjectModel_findById at 1.
  rewrite Hp. unfold projectOutside. rewrite bool_decide_false by (intros ?; congruence).
  rewrite bind_run. unfold TaskModel_findById at 1. rewrite Ht.
  rewrite bool_decide_false by (intros ?; congruence).
  cbv zeta.
  match goal with |- context [?k db] => destruct (k db) as [[r db'] cs] end.
  reflexivity.
Qed.

Lemma notOwnerOrAdmin role :
  role ≠ OWNER → role ≠ ADMIN → isOwnerOrAdmin role = false.
Proof. intros. unfold isOwnerOrAdmin. by rewrite !bool_decide_false. Qed.

Lemma isTaskAssignedToUser_spec t u :
  isTaskAssignedToUser t u = bool_decide (Task.assignedTo t = Some u).
Proof.
  unfold isTaskAssignedToUser. destruct (Task.assignedTo t) as [a|]; [|done].
  apply bool_decide_ext. split; congruence.
Qed.

(** C1. A caller who is neither owner nor admin and is not the assignee of
    the task the request resolves to is turned away as unauthorized,
    whatever the body holds, after the two lookups and with the database
    as it was. *)
Theorem updateTask_outsider_unauthorized db w p tid u role body t :
  resolves db w p tid t →
  role ≠ OWNER → role ≠ ADMIN →
  Task.assignedTo t ≠ Some u →
  updateTaskService w p tid u role body db =
  (inl (UnauthorizedException "You are not authorized to update this task"), db,
   [Project_findById p; Task_findById tid]).
Proof.
  intros Hres Ho Ha Hu.
  rewrite (updateTaskService_resolved _ _ _ _ _ _ _ _ Hres).
  rewrite notOwnerOrAdmin, isTaskAssignedToUser_spec by done.
  by rewrite bool_decide_false.
Qed.

Lemma updateTask_outsider_rejected db w p tid u role body :
  role ≠ OWNER → role ≠ ADMIN →
  (∀ t, tasks db !! tid = Some t → Task.assignedTo t ≠ Some u) →
  ∃ e cs, updateTaskService w p tid u role body db = (inl e, db, cs)
          ∧ (isUnauthorized e || isNotFound e = true).
Proof.
  intros Ho Ha Hu. unfold updateTaskService.
  rewrite bind_run. unfold ProjectModel_findById at 1.
  destruct (projectOutside _ _); [by do 2 eexists|].
  rewrite bind_run. unfold TaskModel_findById at 1.
  destruct (tasks db !! tid) as [t|] eqn:Ht; [|by do 2 eexists].
  destruct (bool_decide _); [by do 2 eexists|].
  rewrite notOwnerOrAdmin, isTaskAssignedToUser_spec by done.
  rewrite bool_decide_false by by apply Hu.
  by do 2 eexists.
Qed.

Lemma invalidFields_nil body :
  invalidFields body = [] ↔ ¬ definesBesidesStatus body.
Proof.
  destruct body as [ti de pr st [|v] du]; unfold definesBesidesStatus; simpl.
  all: destruct ti, de, pr, st, du; try destruct v; vm_compute; split;
    try discriminate; try reflexivity; intros Hn; try intros Hd.
  all: try (exfalso; apply Hn; clear Hn).
  all: try (destruct Hd as [[? ?]|[[? ?]|[[? ?]|[[? ?]|(? & ? & ?)]]]]; congruence).
  all: eauto 10.
  all: right; right; right; right; eexists; split; [reflexivity|discriminate].
Qed.

Lemma invalidFields_pos body :
  definesBesidesStatus body → bool_decide (0 < length (invalidFields body))%nat = true.
Proof.
  intros Hd. apply bool_decide_eq_true.
  destruct (invalidFields body) eqn:E; simpl; [|lia].
  apply invalidFields_nil in E. contradiction.
Qed.

Lemma applyUpdate_status s t :
  applyUpdate (mkUpdate (Some s) None None None None None) None t = withStatus s t.
Proof. reflexivity. Qed.

(** C2. For the assignee of the task who is neither owner nor admin: a
    body that defines any field besides the status is refused as
    unauthorized and nothing is written; a body that defines the status
    alone succeeds, and the stored task differs from the old one in its
    status only. *)
Theorem updateTask_assignee_status_only db w p tid u role body t :
  resolves db w p tid t →
  role ≠ OWNER → role ≠ ADMIN →
  Task.assignedTo t = Some u →
  (definesBesidesStatus body →
     updateTaskService w p tid u role body db =
     (inl (UnauthorizedException "Members can only update the task status"), db,
      [Project_findById p; Task_findById tid]))
  ∧ (∀ s, UpdateTaskPayload.status body = Some s → ¬ definesBesidesStatus body →
     updateTaskService w p tid u role body db =
     (inr (withStatus s t), withTasks (<[tid := withStatus s t]> (tasks db)) db,
      [Project_findById p; Task_findById tid; Task_findByIdAndUpdate tid])).
Proof.
  intros Hres Ho Ha Hu.
  rewrite (updateTaskService_resolved _ _ _ _ _ _ _ _ Hres).
  rewrite notOwnerOrAdmin, isTaskAssignedToUser_spec by done.
  rewrite bool_decide_true by done. simpl negb. cbn [andb].
  split.
  - intros Hd. by rewrite invalidFields_pos.
  - intros s Hs Hn. apply invalidFields_nil in Hn. rewrite Hn. simpl.
    unfold buildUpdatePayload. rewrite Hs. rewrite bind_run. simpl.
    rewrite bind_run. unfold TaskModel_findByIdAndUpdate. simpl.
    destruct Hres as (_ & Ht & _). rewrite Ht. rewrite applyUpdate_status.
    reflexivity.
Qed.

(** ** Assigning to a user who is not a member *)

Lemma createTask_nonmember env db w p u body a pr :
  projects db !! p = Some pr → Project.workspace pr = w →
  CreateTaskPayload.assignedTo body = Present (JsString a) → a ≠ "" →
  Member.mk a w ∉ members db →
  createTaskService env w p u body db =
  (inl (JsError "Assigned user is not a member of this workspace."), db,
   [Project_findById p; Member_exists a w]).
Proof.
  intros Hp Hw Ha Hne Hm. unfold createTaskService.
  rewrite bind_run. unfold ProjectModel_findById at 1. rewrite Hp.
  unfold projectOutside. rewrite bool_decide_false by (intros ?; congruence).
  rewrite Ha. simpl assigneeValue. cbv iota.
  destruct a as [|c a]; [done|]. simpl truthy. cbv iota.
  rewrite !bind_run. unfold MemberModel_exists at 1.
  by rewrite bool_decide_false.
Qed.

Lemma updateTask_nonmember db w p tid u role body t a :
  resolves db w p tid t →
  isOwnerOrAdmin role = true →
  UpdateTaskPayload.assignedTo body = Present (JsString a) → a ≠ "" →
  Member.mk a w ∉ members db →
  updateTaskService w p tid u role body db =
  (inl (BadRequestException "Assigned user is not a member of this workspace"), db,
   [Project_findById p; Task_findById tid; Member_exists a w]).
Proof.
  intros Hres Hr Ha Hne Hm.
  rewrite (updateTaskService_resolved _ _ _ _ _ _ _ _ Hres).
  rewrite Hr. simpl negb. cbn [andb].
  unfold buildUpdatePayload. rewrite Ha.
  rewrite bool_decide_false by done.
  rewrite !bind_run. unfold MemberModel_exists at 1.
  by rewrite bool_decide_false.
Qed.

(** ** Updates that change nothing *)

Lemma effectiveFields_owner role body :
  isOwnerOrAdmin role = true → effectiveFields role body = [] →
  UpdateTaskPayload.status body = None
  ∧ UpdateTaskPayload.title body = None
  ∧ UpdateTaskPayload.description body = None
  ∧ UpdateTaskPayload.priority body = None
  ∧ UpdateTaskPayload.dueDate body = None
  ∧ (UpdateTaskPayload.assignedTo body = Absent
     ∨ UpdateTaskPayload.assignedTo body = Present JsUndefined).
Proof.
  intros Hr. unfold effectiveFields, allowedFields. rewrite Hr.
  destruct body as [ti de pr st [|v] du]; simpl.
  all: destruct ti, de, pr, st, du; try destruct v; vm_compute;
    try discriminate; intros _; repeat split; auto.
Qed.

Lemma effectiveFields_member role body :
  isOwnerOrAdmin role = false → effectiveFields role body = [] →
  UpdateTaskPayload.status body = None.
Proof.
  intros Hr. unfold effectiveFields, allowedFields. rewrite Hr.
  destruct body as [ti de pr st [|v] du]; simpl.
  all: destruct ti, de, pr, st, du; try destruct v; vm_compute;
    try discriminate; done.
Qed.

Lemma definesNothing_effectiveFields role body :
  definesNothing body → effectiveFields role body = [].
Proof.
  intros [Hs Hn]. apply invalidFields_nil in Hn.
  unfold effectiveFields. unfold invalidFields in Hn.
  destruct body as [ti de pr st [|v] du]; simpl in *; subst st.
  all: destruct ti, de, pr, du; try destruct v; vm_compute in Hn;
    try discriminate; reflexivity.
Qed.

(** C4, amended. An authorized update whose body yields no effective
    change fails as a bad request and writes nothing, provided that a
    caller who is neither owner nor admin sent no field besides the
    status (such a field is refused as unauthorized before the payload is
    looked at). *)
Theorem updateTask_no_effective_change db w p tid u role body t :
  resolves db w p tid t →
  mayUpdate role u t →
  effectiveFields role body = [] →
  (isOwnerOrAdmin role = false → ¬ definesBesidesStatus body) →
  updateTaskService w p tid u role body db =
  (inl (BadRequestException "No updates were provided"), db,
   [Project_findById p; Task_findById tid]).
Proof.
  intros Hres Hmay Heff Hmem.
  rewrite (updateTaskService_resolved _ _ _ _ _ _ _ _ Hres).
  destruct (isOwnerOrAdmin role) eqn:Hr; simpl negb; cbn [andb].
  - destruct (effectiveFields_owner _ _ Hr Heff) as (Hs & Ht & Hd & Hp & Hu & Ha).
    unfold buildUpdatePayload. rewrite Hs, Ht, Hd, Hp, Hu.
    destruct Ha as [-> | ->]; reflexivity.
  - assert (Task.assignedTo t = Some u) as Hu.
    { unfold isOwnerOrAdmin in Hr. apply orb_false_iff in Hr as [H1 H2].
      apply bool_decide_eq_false in H1, H2. destruct Hmay as [?|[?|?]]; done. }
    rewrite isTaskAssignedToUser_spec, bool_decide_true by done. simpl negb.
    specialize (Hmem eq_refl). apply invalidFields_nil in Hmem. rewrite Hmem.
    simpl. unfold buildUpdatePayload.
    rewrite (effectiveFields_member _ _ Hr Heff). reflexivity.
Qed.

(** ** Clearing the assignee *)

Lemma buildUpdatePayload_clear db w body :
  clearsAssignee body →
  buildUpdatePayload w true body db =
  (inr (mkUpdate (UpdateTaskPayload.status body) (UpdateTaskPayload.title body)
          (UpdateTaskPayload.description body) (UpdateTaskPayload.priority body)
          (UpdateTaskPayload.dueDate body) (Some None)), db, []).
Proof. intros [Ha|Ha]; unfold buildUpdatePayload; rewrite Ha; reflexivity. Qed.

Lemma Object_keys_assignedTo u a :
  set_assignedTo u = Some a →
  bool_decide (length (Object_keys u) = 0%nat) = false.
Proof.
  intros Ha. apply bool_decide_eq_false. unfold Object_keys.
  rewrite Ha, !length_app. simpl. lia.
Qed.

(** C10. When an owner or admin sends [assignedTo] as [null] or as the
    empty string, the payload carries [assignedTo: null]: the calls made
    are the two lookups and the update, with no membership query; the
    request is not turned down as an empty update; and once the store has
    cast the due date, the task it writes has no assignee. *)
Theorem updateTask_clear_assignee db w p tid u role body t :
  resolves db w p tid t →
  role = OWNER ∨ role = ADMIN →
  clearsAssignee body →
  let r := updateTaskService w p tid u role body db in
  let payload := mkUpdate (UpdateTaskPayload.status body) (UpdateTaskPayload.title body)
                   (UpdateTaskPayload.description body)
                   (UpdateTaskPayload.priority body)
                   (UpdateTaskPayload.dueDate body) (Some None) in
  callsOf r = [Project_findById p; Task_findById tid; Task_findByIdAndUpdate tid]
  ∧ Forall (λ c, isMemberCheck c = false) (callsOf r)
  ∧ outcome r ≠ inl (BadRequestException "No updates were provided")
  ∧ ∀ due, castOptDate (UpdateTaskPayload.dueDate body) = inr due →
      outcome r = inr (applyUpdate payload due t)
      ∧ tasks (finalDb r) = <[tid := applyUpdate payload due t]> (tasks db)
      ∧ Task.assignedTo (applyUpdate payload due t) = None.
Proof.
  intros Hres Hrole Hclear r payload.
  assert (isOwnerOrAdmin role = true) as Hr by (destruct Hrole; subst; reflexivity).
  assert (r =
    match castOptDate (UpdateTaskPayload.dueDate body) with
    | inl e => (inl e, db,
                [Project_findById p; Task_findById tid; Task_findByIdAndUpdate tid])
    | inr due => (inr (applyUpdate payload due t),
                  withTasks (<[tid := applyUpdate payload due t]> (tasks db)) db,
                  [Project_findById p; Task_findById tid; Task_findByIdAndUpdate tid])
    end) as Hrun.
  { subst r. rewrite (updateTaskService_resolved _ _ _ _ _ _ _ _ Hres).
    rewrite Hr. simpl negb. cbn [andb]. rewrite bind_run.
    rewrite (buildUpdatePayload_clear _ _ _ Hclear). fold payload.
    rewrite (Object_keys_assignedTo payload None) by reflexivity.
    rewrite bind_run. unfold TaskModel_findByIdAndUpdate.
    change (set_dueDate payload) with (UpdateTaskPayload.dueDate body).
    destruct (castOptDate (UpdateTaskPayload.dueDate body)) as [e|due]; [|].
    - reflexivity.
    - destruct Hres as (_ & Ht & _). rewrite Ht. reflexivity. }
  rewrite Hrun. clear Hrun.
  assert (∀ e, castOptDate (UpdateTaskPayload.dueDate body) = inl e →
               e ≠ BadRequestException "No updates were provided") as Hcast.
  { intros e. unfold castOptDate, castDate.
    repeat case_match; intros; simplify_eq; done. }
  destruct (castOptDate (UpdateTaskPayload.dueDate body)) as [e|due] eqn:E.
  - split; [reflexivity|]. split; [repeat constructor|]. split.
    + unfold outcome. simpl. intros [= ->]. by eapply Hcast.
    + discriminate.
  - split; [reflexivity|]. split; [repeat constructor|]. split; [discriminate|].
    intros due' [= <-]. done.
Qed.

(** ** What a request does to the documents *)

Lemma verifyTaskBelongsToWorkspace_run w t db :
  verifyTaskBelongsToWorkspace w t db =
  match tasks db !! t with
  | Some task =>
      if bool_decide (Task.workspace task = w)
      then (inr task, db, [Task_findOne t])
      else (inl (NotFoundException "Task not found or does not belong to this workspace"),
            db, [Task_findOne t])
  | None => (inl (NotFoundException "Task not found or does not belong to this workspace"),
             db, [Task_findOne t])
  end.
Proof.
  unfold verifyTaskBelongsToWorkspace. rewrite bind_run. unfold TaskModel_findOne.
  destruct (tasks db !! t) as [task|]; [|reflexivity]. simpl.
  rewrite andb_true_r. by destruct (bool_decide _).
Qed.

Lemma createTaskService_step env w p u body db :
  Step env db (finalDb (createTaskService env w p u body db)).
Proof.
  unfold createTaskService. rewrite bind_run. unfold ProjectModel_findById at 1.
  unfold projectOutside.
  destruct (projects db !! p) as [pr|] eqn:Hp; [|apply step_none].
  case_bool_decide as Hw; [apply step_none|].
  rewrite bind_run.
  match goal with |- context [match ?m db with _ => _ end] =>
    assert (m db = (inl (JsError "Assigned user is not a member of this workspace."),
                    db, callsOf (m db))
            ∨ m db = (inr (), db, callsOf (m db))) as [-> | ->]
  end.
  { destruct (assigneeValue _) as [| |a]; try (right; reflexivity).
    destruct (truthy a); [|right; reflexivity].
    rewrite bind_run. unfold MemberModel_exists.
    destruct (bool_decide _); [right|left]; reflexivity. }
  { apply step_none. }
  rewrite bind_run. unfold TaskModel_save, TaskModel_new.
  destruct (castAssignee _) as [e|a]; [apply step_none|].
  destruct (castOptDate _) as [e|d]; [apply step_none|].
  destruct (tasks db !! freshId env) eqn:Hf; [apply step_none|].
  simpl. unfold finalDb. simpl.
  eapply (step_task_insert env db (freshId env) _ pr); simpl; done.
Qed.

Lemma buildUpdatePayload_finalDb w b body db :
  finalDb (buildUpdatePayload w b body db) = db.
Proof.
  unfold buildUpdatePayload. destruct b; [|reflexivity].
  destruct (UpdateTaskPayload.assignedTo body) as [|[| |s]]; try reflexivity.
  case_bool_decide; [subst; reflexivity|].
  rewrite bind_run. unfold MemberModel_exists.
  by destruct (bool_decide _).
Qed.

Lemma updateTaskService_step env w p t u role body db :
  Step env db (finalDb (updateTaskService w p t u role body db)).
Proof.
  unfold updateTaskService. rewrite bind_run. unfold ProjectModel_findById at 1.
  destruct (projectOutside _ _); [apply step_none|].
  rewrite bind_run. unfold TaskModel_findById at 1.
  destruct (tasks db !! t) as [task|] eqn:Ht; [|apply step_none].
  destruct (bool_decide _); [apply step_none|].
  destruct (_ && _); [apply step_none|].
  destruct (_ && _); [apply step_none|].
  rewrite bind_run.
  pose proof (buildUpdatePayload_finalDb w (isOwnerOrAdmin role) body db) as Hb.
  destruct (buildUpdatePayload _ _ _ db) as [[[e|payload] db'] cs];
    unfold finalDb in Hb; simpl in Hb; subst db'; [apply step_none|].
  destruct (bool_decide _); [apply step_none|].
  rewrite bind_run. unfold TaskModel_findByIdAndUpdate.
  destruct (castOptDate _) as [e|due]; [apply step_none|].
  rewrite Ht. unfold finalDb. simpl.
  by apply step_task_update.
Qed.

Lemma deleteTaskService_step env w t db :
  Step env db (finalDb (deleteTaskService w t db)).
Proof.
  unfold deleteTaskService. rewrite bind_run. unfold TaskModel_findOneAndDelete.
  destruct (tasks db !! t) as [task|]; [|apply step_none].
  destruct (decide _); [|apply step_none].
  apply step_task_delete.
Qed.

Lemma getAllTasksService_finalDb w filters pg db :
  finalDb (getAllTasksService w filters pg db) = db.
Proof.
  unfold getAllTasksService. rewrite bind_run.
  unfold promiseAll, TaskModel_find, TaskModel_countDocuments.
  destruct (compileQuery _) as [e|P]; [reflexivity|].
  by destruct (_ <? 0).
Qed.

Lemma getTaskByIdService_finalDb w p t db :
  finalDb (getTaskByIdService w p t db) = db.
Proof.
  unfold getTaskByIdService. rewrite bind_run. unfold ProjectModel_findById at 1.
  destruct (projectOutside _ _); [reflexivity|].
  rewrite bind_run. unfold TaskModel_findOne.
  destruct (tasks db !! t); [|reflexivity].
  by destruct (_ && _).
Qed.

Lemma getTaskClarificationsService_finalDb w t db :
  finalDb (getTaskClarificationsService w t db) = db.
Proof.
  unfold getTaskClarificationsService. rewrite bind_run.
  rewrite verifyTaskBelongsToWorkspace_run.
  destruct (tasks db !! t); [|reflexivity].
  by destruct (bool_decide _).
Qed.

Lemma createTaskClarificationService_step env w t u question db :
  Step env db (finalDb (createTaskClarificationService env w t u question db)).
Proof.
  unfold createTaskClarificationService. rewrite bind_run.
  rewrite verifyTaskBelongsToWorkspace_run.
  destruct (tasks db !! t); [|apply step_none].
  destruct (bool_decide _); [|apply step_none].
  unfold TaskClarificationModel_create.
  destruct (truthy _); [|apply step_none].
  destruct (clarifications db !! freshId env) eqn:Hf; [apply step_none|].
  unfold finalDb. simpl. by apply step_clarification_insert.
Qed.

Lemma respondToTaskClarificationService_step env w t c u message db :
  Step env db (finalDb (respondToTaskClarificationService env w t c u message db)).
Proof.
  unfold respondToTaskClarificationService. rewrite bind_run.
  rewrite verifyTaskBelongsToWorkspace_run.
  destruct (tasks db !! t); [|apply step_none].
  destruct (bool_decide _); [|apply step_none].
  rewrite bind_run. unfold TaskClarificationModel_findOneAndUpdate.
  destruct (clarifications db !! c) as [c0|] eqn:Hc; [|apply step_none].
  destruct (_ && _); [|apply step_none].
  unfold finalDb. simpl. by apply step_clarification_push.
Qed.

Lemma handle_finalDb env r db :
  finalDb (handle env r db) =
  match r with
  | CreateTask w p u body => finalDb (createTaskService env w p u body db)
  | UpdateTask w p t u role body => finalDb (updateTaskService w p t u role body db)
  | GetAllTasks w f pg => finalDb (getAllTasksService w f pg db)
  | GetTaskById w p t => finalDb (getTaskByIdService w p t db)
  | GetTaskClarifications w t => finalDb (getTaskClarificationsService w t db)
  | CreateTaskClarification w t u q =>
      finalDb (createTaskClarificationService env w t u q db)
  | RespondToTaskClarification w t c u m =>
      finalDb (respondToTaskClarificationService env w t c u m db)
  | DeleteTask w t => finalDb (deleteTaskService w t db)
  end.
Proof.
  destruct r; simpl; rewrite bind_run;
    match goal with |- context [match ?m db with _ => _ end] =>
      destruct (m db) as [[[e|a] db'] cs] end; try reflexivity;
    try (destruct a; reflexivity).
Qed.

Lemma handle_step env r db : Step env db (finalDb (handle env r db)).
Proof.
  rewrite handle_finalDb. destruct r.
  - apply createTaskService_step.
  - apply updateTaskService_step.
  - rewrite getAllTasksService_finalDb. apply step_none.
  - rewrite getTaskByIdService_finalDb. apply step_none.
  - rewrite getTaskClarificationsService_finalDb. apply step_none.
  - apply createTaskClarificationService_step.
  - apply respondToTaskClarificationService_step.
  - apply deleteTaskService_step.
Qed.

Lemma applyUpdate_frame u due t :
  Task.workspace (applyUpdate u due t) = Task.workspace t
  ∧ Task.project (applyUpdate u due t) = Task.project t
  ∧ Task.createdAt (applyUpdate u due t) = Task.createdAt t
  ∧ Task.createdBy (applyUpdate u due t) = Task.createdBy t.
Proof. done. Qed.

Lemma consistent_step env db db' : Step env db db' → consistent db → consistent db'.
Proof.
  intros Hstep Hc. inversion Hstep as [|id t p Hn Hp Hw|id t u due Ht|id|id c Hn Hr|id c r Hc0 Hr]; subst.
  - done.
  - intros id' t' p'. simpl. intros Ht' Hp'.
    destruct (decide (id = id')) as [->|Hne].
    + rewrite lookup_insert_eq in Ht'. simplify_eq. done.
    + rewrite lookup_insert_ne in Ht' by done. eauto.
  - intros id' t' p'. simpl. intros Ht' Hp'.
    destruct (decide (id = id')) as [->|Hne].
    + rewrite lookup_insert_eq in Ht'. simplify_eq.
      apply (Hc id' t p'); done.
    + rewrite lookup_insert_ne in Ht' by done. eauto.
  - intros id' t' p'. simpl. intros Ht' Hp'.
    apply lookup_delete_Some in Ht' as [_ Ht']. eauto.
  - intros id' t' p'. simpl. eauto.
  - intros id' t' p'. simpl. eauto.
Qed.

Lemma consistent_handle env r db :
  consistent db → consistent (finalDb (handle env r db)).
Proof. apply consistent_step with env, handle_step. Qed.

Lemma consistent_runAll rs db : consistent db → consistent (runAll rs db).
Proof.
  revert db. induction rs as [|[env r] rs IH]; intros db Hc; simpl; [done|].
  apply IH, consistent_handle, Hc.
Qed.

(** ** A task outside the workspace *)

Lemma verifyTaskBelongsToWorkspace_outside w t db :
  ¬ taskInWorkspace db t w →
  verifyTaskBelongsToWorkspace w t db =
  (inl (NotFoundException "Task not found or does not belong to this workspace"),
   db, [Task_findOne t]).
Proof.
  intros Hout. rewrite verifyTaskBelongsToWorkspace_run.
  destruct (tasks db !! t) as [task|] eqn:Ht; [|done].
  case_bool_decide; [|done]. destruct Hout. by exists task.
Qed.

Local Ltac nf := do 2 eexists; reflexivity.

(** C5. In a database that respects the data model, every operation on
    one task (get, update, delete, and the three clarification
    operations) fails as not-found when the task does not belong to the
    workspace of the request, and leaves every document as it was. *)
Theorem task_outside_workspace_not_found env r db w t :
  consistent db →
  namedTask r = Some (w, t) →
  ¬ taskInWorkspace db t w →
  ∃ message, outcome (handle env r db) = inl (NotFoundException message)
             ∧ finalDb (handle env r db) = db.
Proof.
  intros Hc Hn Hout.
  cut (∃ message cs, handle env r db = (inl (NotFoundException message), db, cs)).
  { intros (message & cs & ->). by exists message. }
  destruct r as [| w' p t' u role body | | w' p t' | w' t' | w' t' u q
                 | w' t' c u m | w' t']; simpl in Hn; simplify_eq.
  - (* update *)
    unfold handle. rewrite bind_run. unfold updateTaskService.
    rewrite bind_run. unfold ProjectModel_findById at 1. unfold projectOutside.
    destruct (projects db !! p) as [pr|] eqn:Hp; [|nf].
    case_bool_decide as Hw; [nf|].
    rewrite bind_run. unfold TaskModel_findById at 1.
    destruct (tasks db !! t) as [task|] eqn:Ht; [|nf].
    case_bool_decide as Htp; [nf|].
    destruct Hout. exists task. split; [done|].
    subst p. by rewrite <- (Hc t task pr Ht Hp).
  - (* get *)
    unfold handle. rewrite bind_run. unfold getTaskByIdService.
    rewrite bind_run. unfold ProjectModel_findById at 1.
    destruct (projectOutside _ _); [nf|].
    rewrite bind_run. unfold TaskModel_findOne.
    destruct (tasks db !! t) as [task|] eqn:Ht; [|nf].
    case_bool_decide as Hw; [|nf].
    destruct Hout. by exists task.
  - (* list the clarifications *)
    unfold handle. rewrite bind_run. unfold getTaskClarificationsService.
    rewrite bind_run, verifyTaskBelongsToWorkspace_outside by done. nf.
  - (* ask *)
    unfold handle. rewrite bind_run. unfold createTaskClarificationService.
    rewrite bind_run, verifyTaskBelongsToWorkspace_outside by done. nf.
  - (* respond *)
    unfold handle. rewrite bind_run. unfold respondToTaskClarificationService.
    rewrite bind_run, verifyTaskBelongsToWorkspace_outside by done. nf.
  - (* delete *)
    unfold handle. rewrite bind_run. unfold deleteTaskService.
    rewrite bind_run. unfold TaskModel_findOneAndDelete.
    destruct (tasks db !! t) as [task|] eqn:Ht; [|nf].
    destruct (decide _) as [Hw|Hw]; [|nf].
    destruct Hout. by exists task.
Qed.

Lemma consistent_no_tasks db : tasks db = ∅ → consistent db.
Proof. intros He id t p. by rewrite He, lookup_empty. Qed.

(** ** Responses are only ever appended *)

Lemma chronological_mono clock clock' db :
  clock ≤ clock' → chronological clock db → chronological clock' db.
Proof.
  intros Hle Hc id c Hl. destruct (Hc id c Hl) as [Hs Hf]. split; [done|].
  eapply Forall_impl; [exact Hf|]. simpl. lia.
Qed.

Lemma responseTimes_push env r c :
  responseTimes (pushResponse env r c)
  = responseTimes c ++ [ClarificationResponse.createdAt r].
Proof. unfold responseTimes, pushResponse. simpl. by rewrite fmap_app. Qed.

Lemma step_prefix env db db' id c :
  Step env db db' → clarifications db !! id = Some c →
  ∃ c', clarifications db' !! id = Some c'
        ∧ TaskClarification.responses c `prefix_of` TaskClarification.responses c'.
Proof.
  intros Hstep Hl.
  inversion Hstep as [|? ? ? ? ? ?|? ? ? ? ?|?|id0 c0 Hn Hr|id0 c0 r Hc0 Hr]; subst;
    simpl; try (exists c; split; [done|reflexivity]).
  - exists c. split; [|reflexivity].
    rewrite lookup_insert_ne; [done|]. intros ->. congruence.
  - destruct (decide (id0 = id)) as [->|Hne].
    + rewrite lookup_insert_eq. eexists. split; [done|].
      simplify_eq. simpl. by apply prefix_app_r.
    + rewrite lookup_insert_ne by done. exists c. split; [done|reflexivity].
Qed.

Lemma step_chronological env db db' :
  Step env db db' → chronological (now env) db → chronological (now env) db'.
Proof.
  intros Hstep Hc.
  inversion Hstep as [|? ? ? ? ? ?|? ? ? ? ?|?|id0 c0 Hn Hr|id0 c0 r Hc0 Hr]; subst;
    try exact Hc.
  - intros id c. simpl. destruct (decide (id0 = id)) as [->|Hne].
    + rewrite lookup_insert_eq. intros [= <-]. unfold responseTimes. rewrite Hr.
      split; constructor.
    + rewrite lookup_insert_ne by done. apply Hc.
  - intros id c. simpl. destruct (decide (id0 = id)) as [->|Hne].
    + rewrite lookup_insert_eq. intros [= <-].
      destruct (Hc id c0 Hc0) as [Hs Hf].
      rewrite responseTimes_push, Hr. split.
      * apply StronglySorted_app. split_and!; [|done|repeat constructor].
        intros x1 x2 Hx1 Hx2. apply list_elem_of_singleton in Hx2 as ->.
        by eapply Forall_forall in Hf.
      * apply Forall_app. split; [done|]. by constructor.
    + rewrite lookup_insert_ne by done. apply Hc.
Qed.

Lemma respondToTaskClarificationService_run env w t id u m db c :
  taskInWorkspace db t w →
  clarifications db !! id = Some c →
  TaskClarification.workspace c = w → TaskClarification.task c = t →
  respondToTaskClarificationService env w t id u m db =
  (inr (pushResponse env (ClarificationResponse.mk m u (now env)) c),
   withClarifications
     (<[id := pushResponse env (ClarificationResponse.mk m u (now env)) c]>
        (clarifications db)) db,
   [Task_findOne t; Clarification_findOneAndUpdate id]).
Proof.
  intros (task & Ht & Hw) Hc Hcw Hct.
  unfold respondToTaskClarificationService. rewrite bind_run.
  rewrite verifyTaskBelongsToWorkspace_run, Ht, bool_decide_true by done.
  rewrite bind_run. unfold TaskClarificationModel_findOneAndUpdate.
  rewrite Hc, !bool_decide_true by done. reflexivity.
Qed.

(** C7. Responses are append-only and ordered by creation time. A
    successful response call stores the old list followed by exactly one
    new entry and touches no other clarification; no request of the
    service removes or alters a stored response (the old list stays a
    prefix of the new one); and the lists stay ordered by creation time
    as long as no stored response is ahead of the clock. *)
Theorem responses_append_only env r db :
  chronological (now env) db →
  (∀ w t id u m c,
     r = RespondToTaskClarification w t id u m →
     taskInWorkspace db t w → clarifications db !! id = Some c →
     TaskClarification.workspace c = w → TaskClarification.task c = t →
     ∃ c', outcome (handle env r db) = inr (ClarificationReply id c')
           ∧ TaskClarification.responses c'
             = TaskClarification.responses c
               ++ [ClarificationResponse.mk (trim m) u (now env)]
           ∧ clarifications (finalDb (handle env r db))
             = <[id := c']> (clarifications db))
  ∧ (∀ id c, clarifications db !! id = Some c →
       ∃ c', clarifications (finalDb (handle env r db)) !! id = Some c'
             ∧ TaskClarification.responses c `prefix_of` TaskClarification.responses c')
  ∧ chronological (now env) (finalDb (handle env r db)).
Proof.
  intros Hchron. split; [|split].
  - intros w t id u m c -> Ht Hc Hw Hct.
    unfold handle. rewrite bind_run.
    rewrite (respondToTaskClarificationService_run _ _ _ _ _ _ _ c) by done.
    eexists. split; [reflexivity|]. split; reflexivity.
  - intros id c Hc. exact (step_prefix env db _ id c (handle_step env r db) Hc).
  - exact (step_chronological env db _ (handle_step env r db) Hchron).
Qed.

Lemma runAll_prefix rs db id c :
  clarifications db !! id = Some c →
  ∃ c', clarifications (runAll rs db) !! id = Some c'
        ∧ TaskClarification.responses c `prefix_of` TaskClarification.responses c'.
Proof.
  revert db c. induction rs as [|[env r] rs IH]; intros db c Hc; simpl.
  - exists c. split; [done|reflexivity].
  - destruct (step_prefix env db _ id c (handle_step env r db) Hc) as (c1 & Hc1 & Hp1).
    destruct (IH _ c1 Hc1) as (c2 & Hc2 & Hp2).
    exists c2. split; [done|]. by etrans.
Qed.

Lemma chronological_runAll rs clock db :
  clockMonotone clock rs → chronological clock db →
  chronological (lastClock clock rs) (runAll rs db).
Proof.
  revert clock db. induction rs as [|[env r] rs IH]; intros clock db Hm Hc; [done|].
  destruct Hm as [Hle Hm]. simpl. apply IH; [done|].
  apply (step_chronological env db _ (handle_step env r db)).
  by apply chronological_mono with clock.
Qed.

(** ** Listing tasks *)

Global Instance newestFirstTask_total : Total newestFirstTask.
Proof. intros a b. unfold newestFirstTask. lia. Qed.

Global Instance newestFirstTask_trans : Transitive newestFirstTask.
Proof. intros a b c. unfold newestFirstTask. lia. Qed.

Lemma StronglySorted_take {A} (R : relation A) n l :
  StronglySorted R l → StronglySorted R (take n l).
Proof.
  intros Hs. rewrite <- (take_drop n l) in Hs.
  by apply StronglySorted_app in Hs as (_ & ? & _).
Qed.

Lemma StronglySorted_drop {A} (R : relation A) n l :
  StronglySorted R l → StronglySorted R (drop n l).
Proof.
  intros Hs. rewrite <- (take_drop n l) in Hs.
  by apply StronglySorted_app in Hs as (_ & _ & ?).
Qed.

Lemma applyLimit_subseteq {A} n (l : list A) : applyLimit n l ⊆ l.
Proof. unfold applyLimit. destruct (n =? 0); [done|apply subseteq_take]. Qed.

Lemma pageSlice_subseteq {A} pg (l : list A) : pageSlice pg l ⊆ l.
Proof.
  unfold pageSlice. etrans; [apply applyLimit_subseteq|apply subseteq_drop].
Qed.

Lemma pageSlice_sorted {A} (R : relation A) pg l :
  StronglySorted R l → StronglySorted R (pageSlice pg l).
Proof.
  intros Hs. unfold pageSlice, applyLimit.
  destruct (_ =? 0); [|apply StronglySorted_take]; by apply StronglySorted_drop.
Qed.

Lemma getAllTasksService_run w filters pg db :
  getAllTasksService w filters pg db =
  match compileQuery (buildQuery w filters) with
  | inl e => (inl e, db, [Task_find; Task_countDocuments])
  | inr P =>
      if (Pagination.pageNumber pg - 1) * Pagination.pageSize pg <? 0
      then (inl (MongoError "Skip value must be non-negative"), db,
            [Task_find; Task_countDocuments])
      else
        let total := Z.of_nat (length (selectTasks P db)) in
        (inr (mkPage (pageSlice pg (merge_sort newestFirstTask (selectTasks P db)))
                (Pagination.pageSize pg) (Pagination.pageNumber pg) total
                (ceilDiv total (Pagination.pageSize pg))
                ((Pagination.pageNumber pg - 1) * Pagination.pageSize pg)),
         db, [Task_find; Task_countDocuments])
  end.
Proof.
  unfold getAllTasksService. rewrite bind_run.
  unfold promiseAll, TaskModel_find, TaskModel_countDocuments.
  destruct (compileQuery _) as [e|P]; [reflexivity|].
  by destruct (_ <? 0).
Qed.

Lemma compileQuery_rejected w filters pg e :
  compileQuery (buildQuery w filters) = inl e → storeRejects filters pg.
Proof.
  unfold compileQuery, buildQuery, storeRejects. simpl.
  destruct (Filters.dueDate filters) as [d|] eqn:Hd.
  - destruct (truthy d) eqn:Htd.
    + destruct (dateValue d) eqn:Hdv.
      * destruct (Filters.keyword filters) as [k|] eqn:Hk; [|discriminate].
        destruct (truthy k) eqn:Htk; [|discriminate].
        destruct (regexCompile k) eqn:Hre; [discriminate|]. intros _.
        right; left. exists k. split_and!; [done| |done]. by intros ->.
      * intros _. right; right. exists d. split_and!; [done| |done]. by intros ->.
    + destruct (Filters.keyword filters) as [k|] eqn:Hk; [|discriminate].
      destruct (truthy k) eqn:Htk; [|discriminate].
      destruct (regexCompile k) eqn:Hre; [discriminate|]. intros _.
      right; left. exists k. split_and!; [done| |done]. by intros ->.
  - destruct (Filters.keyword filters) as [k|] eqn:Hk; [|discriminate].
    destruct (truthy k) eqn:Htk; [|discriminate].
    destruct (regexCompile k) eqn:Hre; [discriminate|]. intros _.
    right; left. exists k. split_and!; [done| |done]. by intros ->.
Qed.

Lemma compileQuery_selects q P t :
  compileQuery q = inr P → P t = true →
  Task.workspace t = q_workspace q ∧ inOpt (q_status q) (Task.status t) = true.
Proof.
  unfold compileQuery. intros HP Ht.
  assert (∃ re, P = matchesQuery q re) as [re ->].
  { repeat case_match; simplify_eq; eauto. }
  unfold matchesQuery in Ht. repeat (apply andb_true_iff in Ht as [Ht ?]).
  split; [by apply bool_decide_eq_true in Ht|done].
Qed.

(** C8. A listing with a status filter returns only tasks of the
    workspace whose status is in the given set, in descending order of
    creation time; it fails only when the store cannot run the query. *)
Theorem listing_status_filter db w filters pg l :
  Filters.status filters = Some l → l ≠ [] →
  match outcome (getAllTasksService w filters pg db) with
  | inr page =>
      Forall (λ kt, Task.status kt.2 ∈ l ∧ tasks db !! kt.1 = Some kt.2
                    ∧ Task.workspace kt.2 = w) (page_tasks page)
      ∧ StronglySorted newestFirstTask (page_tasks page)
  | inl _ => storeRejects filters pg
  end.
Proof.
  intros Hst Hl. rewrite getAllTasksService_run.
  destruct (compileQuery _) as [e|P] eqn:HP.
  { simpl. by eapply compileQuery_rejected. }
  destruct (_ <? 0) eqn:Hskip.
  { simpl. left. by apply Z.ltb_lt. }
  simpl. split.
  - apply Forall_forall. intros [id t] Hin.
    apply pageSlice_subseteq in Hin. rewrite merge_sort_Permutation in Hin.
    apply list_elem_of_filter in Hin as [HPt Hin]. simpl in HPt.
    apply elem_of_map_to_list in Hin.
    destruct (compileQuery_selects _ _ _ HP HPt) as [Hw Hs]. simpl in *.
    rewrite Hst in Hs. rewrite bool_decide_true in Hs by (destruct l; simpl; [done|lia]).
    simpl in Hs. by apply bool_decide_eq_true in Hs.
  - apply pageSlice_sorted, StronglySorted_merge_sort; apply _.
Qed.

Lemma splitComma_go_nonempty cur s : splitComma_go cur s ≠ [].
Proof.
  revert cur. induction s as [|c s IH]; intros cur; simpl; [done|].
  destruct (decide _); [done|apply IH].
Qed.

(** Through the controller a status filter is never the empty set. *)
Lemma filtersOf_status_nonempty q l :
  Filters.status (filtersOf q) = Some l → l ≠ [].
Proof.
  unfold filtersOf, splitParam. simpl.
  destruct (query_status q) as [s|]; [|done].
  destruct (truthy s); [|done].
  intros [= <-]. apply splitComma_go_nonempty.
Qed.

(** ** Pagination *)

Lemma ceilDiv_spec a b : b ≠ 0 → ∃ n, ceilDiv a b = Some n ∧ isCeiling n a b.
Proof.
  intros Hb. unfold ceilDiv. rewrite (proj2 (Z.eqb_neq b 0)) by done.
  eexists. split; [reflexivity|]. unfold isCeiling.
  pose proof (Z.div_mod (- a) b Hb) as Hdm.
  destruct (Z.lt_total b 0) as [Hneg|[?|Hpos]]; [right|done|left].
  - pose proof (Z.mod_neg_bound (- a) b Hneg). split; [done|]. nia.
  - pose proof (Z.mod_pos_bound (- a) b Hpos). split; [done|]. nia.
Qed.

Lemma parseIntOr_nonzero v fallback n :
  fallback ≠ 0 → parseIntOr v fallback = Num n → n ≠ 0.
Proof.
  intros Hf. unfold parseIntOr.
  destruct (parseInt _) as [|m|negative]; [by intros [= <-]| |done].
  destruct (m =? 0) eqn:E; intros [= <-]; [done|]. by apply Z.eqb_neq.
Qed.

Lemma parseIntOr_NaN v fallback :
  parseInt (toStringParam v) = NaN → parseIntOr v fallback = Num fallback.
Proof. unfold parseIntOr. by intros ->. Qed.

(** C9. A page size or page number that is missing or does not parse as
    an integer is replaced by 10 and by 1. With a page size [s] and a
    page number [n] so decoded, on which the arithmetic is exact, the
    listing runs with them: the reply reports [s] and [n], the skip
    [(n - 1) * s] and, as the number of pages, the ceiling of
    [totalCount / s]; the tasks it returns are the slice that this skip
    and this limit cut from the matching tasks, newest first, so that with
    both defaults the page is the first ten of them; and the count is that
    of the matching tasks. The listing fails only if the access check does
    or the store cannot run the query. *)
Theorem listing_pagination (access : M unit) db w q :
  let pageSize := parseIntOr (query_pageSize q) 10 in
  let pageNumber := parseIntOr (query_pageNumber q) 1 in
  ((query_pageSize q = None ∨ parseInt (toStringParam (query_pageSize q)) = NaN) →
     pageSize = Num 10)
  ∧ ((query_pageNumber q = None ∨ parseInt (toStringParam (query_pageNumber q)) = NaN) →
     pageNumber = Num 1)
  ∧ ∀ s n, pageSize = Num s → pageNumber = Num n → safePage s n →
      ∃ run, getAllTasksController access w q = Some run
        ∧ match outcome (run db) with
          | inr page =>
              let db' := finalDb (access db) in
              page_pageSize page = s ∧ page_pageNumber page = n
              ∧ page_skip page = (n - 1) * s ∧ 0 ≤ page_skip page
              ∧ (∃ k, page_totalPages page = Some k
                      ∧ isCeiling k (page_totalCount page) s)
              ∧ ∃ P, compileQuery (buildQuery w (filtersOf q)) = inr P
                  ∧ page_totalCount page = Z.of_nat (length (selectTasks P db'))
                  ∧ page_tasks page
                    = pageSlice (Pagination.mk s n)
                        (merge_sort newestFirstTask (selectTasks P db'))
                  ∧ (s = 10 → n = 1 →
                     page_tasks page
                     = take 10 (merge_sort newestFirstTask (selectTasks P db')))
          | inl e => outcome (access db) = inl e
                     ∨ storeRejects (filtersOf q) (Pagination.mk s n)
          end.
Proof.
  intros pageSize pageNumber. split; [|split].
  - intros Hq. subst pageSize. apply parseIntOr_NaN.
    by destruct Hq as [->|Hq].
  - intros Hq. subst pageNumber. apply parseIntOr_NaN.
    by destruct Hq as [->|Hq].
  - intros s n Hs Hn Hsafe. subst pageSize pageNumber.
    unfold getAllTasksController, paginationOf. rewrite Hs, Hn. simpl.
    eexists. split; [reflexivity|]. rewrite bind_run.
    destruct (access db) as [[[e|[]] db'] cs] eqn:Hacc; [by left|].
    rewrite getAllTasksService_run. unfold finalDb. simpl.
    destruct (compileQuery _) as [e|P] eqn:HP.
    { simpl. right. by eapply compileQuery_rejected. }
    simpl Pagination.pageNumber. simpl Pagination.pageSize.
    destruct (_ <? 0) eqn:Hskip.
    { simpl. right. left. by apply Z.ltb_lt. }
    apply Z.ltb_ge in Hskip. simpl. split_and!; try done.
    { apply ceilDiv_spec. by apply (parseIntOr_nonzero (query_pageSize q) 10). }
    exists P. split_and!; try done.
    intros -> ->. reflexivity.
Qed.

(** ** The keyword filter *)

(** C6, amended. The keyword reaches the store as a regular expression.
    When it is the only filter and holds no metacharacter, the tasks
    matched are exactly the tasks of the workspace whose title contains
    it, letter case apart: the reply counts them in [totalCount] and
    returns, newest first, the slice of them that the page selects. *)
Theorem listing_keyword_literal `{!RegexLaws} db w k pg :
  k ≠ "" → hasMeta k = false →
  0 ≤ (Pagination.pageNumber pg - 1) * Pagination.pageSize pg →
  ∃ page matched,
    outcome (getAllTasksService w (keywordOnly k) pg db) = inr page
    ∧ page_tasks page = pageSlice pg matched
    ∧ (Pagination.pageNumber pg = 1 →
       Z.of_nat (length matched) ≤ Pagination.pageSize pg →
       page_tasks page = matched)
    ∧ page_totalCount page = Z.of_nat (length matched)
    ∧ StronglySorted newestFirstTask matched
    ∧ NoDup matched
    ∧ ∀ id t, (id, t) ∈ matched ↔
        tasks db !! id = Some t ∧ Task.workspace t = w
        ∧ containsIgnoreCase k (Task.title t) = true.
Proof.
  intros Hk Hmeta Hskip.
  destruct (regex_literal k Hmeta) as (re & Hre & Hspec).
  rewrite getAllTasksService_run.
  assert (compileQuery (buildQuery w (keywordOnly k))
          = inr (matchesQuery (buildQuery w (keywordOnly k)) re)) as ->.
  { unfold compileQuery, buildQuery. simpl.
    destruct k; [done|]. simpl. by rewrite Hre. }
  rewrite (proj2 (Z.ltb_ge _ _)) by done.
  set (P := matchesQuery _ re).
  exists (mkPage (pageSlice pg (merge_sort newestFirstTask (selectTasks P db)))
            (Pagination.pageSize pg) (Pagination.pageNumber pg)
            (Z.of_nat (length (selectTasks P db)))
            (ceilDiv (Z.of_nat (length (selectTasks P db))) (Pagination.pageSize pg))
            ((Pagination.pageNumber pg - 1) * Pagination.pageSize pg)),
         (merge_sort newestFirstTask (selectTasks P db)).
  split; [reflexivity|]. split; [reflexivity|]. split.
  { simpl. intros Hpn Hfit. unfold pageSlice. rewrite Hpn. simpl.
    unfold applyLimit. destruct (_ =? 0); [done|]. apply take_ge. lia. }
  split.
  { simpl. by rewrite merge_sort_Permutation. }
  split; [apply StronglySorted_merge_sort; apply _|]. split.
  { rewrite merge_sort_Permutation. apply NoDup_filter, NoDup_map_to_list. }
  intros id t. rewrite merge_sort_Permutation. unfold selectTasks.
  rewrite list_elem_of_filter, elem_of_map_to_list. simpl.
  subst P. unfold matchesQuery, buildQuery. simpl.
  destruct k; [done|]. simpl. rewrite !andb_true_r, andb_true_iff.
  rewrite bool_decide_eq_true, Hspec. tauto.
Qed.
End Properties.

(** * The reference externals satisfy the law of the engine *)

Lemma parsePattern_literal p :
  hasMeta p = false →
  parsePattern p = Some (Literal <$> list_ascii_of_string (lower p)).
Proof.
  induction p as [|c p IH]; [done|]. simpl.
  intros [Hc Hp]%orb_false_iff. rewrite Hc.
  destruct (decide (c = "."%char)) as [->|_]; [done|].
  by rewrite IH.
Qed.

Lemma matchHere_literal p s :
  matchHere (Literal <$> list_ascii_of_string p) s = isPrefix p (lower s).
Proof.
  revert s. induction p as [|c p IH]; intros [|b s]; simpl; try done.
  destruct (decide _); [apply IH|done].
Qed.

Lemma searchPattern_literal p s :
  searchPattern (Literal <$> list_ascii_of_string p) s = contains p (lower s).
Proof.
  induction s as [|b s IH].
  - simpl. by rewrite matchHere_literal.
  - cbn [searchPattern contains lower]. rewrite IH, matchHere_literal. done.
Qed.

Lemma referenceExternals_laws : @RegexLaws referenceExternals.
Proof.
  split. intros p Hp. simpl. rewrite parsePattern_literal by done. simpl.
  eexists. split; [reflexivity|]. intros s. apply searchPattern_literal.
Qed.

(** * The services on the sample data *)

Section Samples.
Local Existing Instance referenceExternals.

Example parseInt_samples :
  parseInt "25" = Num 25 ∧ parseInt "  -7px" = Num (-7)
  ∧ parseInt "0x1f" = Num 31 ∧ parseInt "abc" = NaN
  ∧ parseInt (toStringParam None) = NaN ∧ parseInt "" = NaN
  ∧ parseInt "12.9" = Num 12 ∧ parseInt "0x" = NaN.
Proof. repeat split; reflexivity. Qed.

(** The result is a double: 2^53 + 1 reads as 2^53, a tie goes to the
    even neighbour, and 400 digits read as an infinity. The no-break
    space before the digits is skipped. *)
Example parseInt_doubles :
  parseInt "9007199254740993" = Num 9007199254740992
  ∧ parseInt "9007199254740995" = Num 9007199254740996
  ∧ parseInt "-9007199254740993" = Num (-9007199254740992)
  ∧ parseInt (String.concat "" (replicate 400 "9")) = Infinity false
  ∧ parseInt (String (ascii_of_N 160) "25") = Num 25.
Proof. repeat split; vm_compute; reflexivity. Qed.

Example parseIntOr_samples :
  parseIntOr (Some "0") 10 = Num 10 ∧ parseIntOr (Some "25") 10 = Num 25
  ∧ parseIntOr (Some "ten") 10 = Num 10 ∧ parseIntOr None 1 = Num 1
  ∧ parseIntOr (Some "-3") 1 = Num (-3) ∧ parseIntOr (Some "-0") 10 = Num 10.
Proof. repeat split; reflexivity. Qed.

(** White space is that of the platform: the no-break space is trimmed,
    and a length counts code units. *)
Example trim_samples :
  trim (String (ascii_of_N 160) " two words " +:+ String (ascii_of_N 160) "")
  = "two words"
  ∧ trim (String (ascii_of_N 160) "") = ""
  ∧ String.length (String.concat "" (replicate 200 (String (ascii_of_N 233) "")))
    = 200%nat.
Proof. repeat split; vm_compute; reflexivity. Qed.

Example string_samples :
  splitComma "TODO,DONE" = ["TODO"; "DONE"] ∧ splitComma "," = [""; ""]
  ∧ trim "  two words  " = "two words"
  ∧ containsIgnoreCase "REPORT" "Write the report" = true
  ∧ containsIgnoreCase "." "a" = false.
Proof. repeat split; reflexivity. Qed.

Example ceilDiv_samples :
  ceilDiv 21 10 = Some 3 ∧ ceilDiv 20 10 = Some 2 ∧ ceilDiv 0 10 = Some 0
  ∧ ceilDiv 5 0 = None.
Proof. repeat split; reflexivity. Qed.

Example reference_dates :
  dateValue "1970-01-02" = Some 86400000 ∧ dateValue "2024-03-01" = Some 1709251200000
  ∧ dateValue "soon" = None.
Proof. repeat split; reflexivity. Qed.

(** A negative page number makes the skip negative, which the store
    refuses. *)
Example listing_negative_page :
  outcome (getAllTasksService "w1" todoFilter (Pagination.mk 10 (-3)) sampleDb)
  = inl (MongoError "Skip value must be non-negative").
Proof. vm_compute. reflexivity. Qed.

(** Creating a task for a member stores it under the generated id. *)
Example createTask_member :
  let body := CreateTaskPayload.mk "Review" None "" "" (Present (JsString "bob"))
                (Some "2024-03-01") in
  let r := createTaskService sampleEnv "w1" "p1" "alice" body sampleDb in
  outcome r = inr ("n1", Task.mk "Review" None "MEDIUM" "TODO" (Some "bob") "alice"
                           "w1" "p1" (Some 1709251200000) 1000)
  ∧ callsOf r = [Project_findById "p1"; Member_exists "bob" "w1"; Task_save "n1"]
  ∧ tasks (finalDb r) !! "n1"
    = Some (Task.mk "Review" None "MEDIUM" "TODO" (Some "bob") "alice" "w1" "p1"
              (Some 1709251200000) 1000).
Proof. vm_compute. repeat split; reflexivity. Qed.

Lemma sample_resolves_t1 : resolves sampleDb "w1" "p1" "t1" sampleTask1.
Proof.
  split; [exists (Project.mk "w1"); split; reflexivity|].
  split; reflexivity.
Defined.

Lemma updateTask_outsider_unauthorized_witness :
  resolves sampleDb "w1" "p1" "t1" sampleTask1
  ∧ MEMBER ≠ OWNER ∧ MEMBER ≠ ADMIN
  ∧ Task.assignedTo sampleTask1 ≠ Some "carol"
  ∧ updateTaskService "w1" "p1" "t1" "carol" MEMBER statusBody sampleDb =
    (inl (UnauthorizedException "You are not authorized to update this task"),
     sampleDb, [Project_findById "p1"; Task_findById "t1"]).
Proof.
  split; [exact sample_resolves_t1|].
  split; [discriminate|]. split; [discriminate|]. split; [discriminate|].
  apply (updateTask_outsider_unauthorized sampleDb "w1" "p1" "t1" "carol" MEMBER
           statusBody sampleTask1 sample_resolves_t1); discriminate.
Defined.

Lemma updateTask_assignee_status_only_witness :
  resolves sampleDb "w1" "p1" "t1" sampleTask1
  ∧ MEMBER ≠ OWNER ∧ MEMBER ≠ ADMIN
  ∧ Task.assignedTo sampleTask1 = Some "bob"
  ∧ definesBesidesStatus titleBody
  ∧ updateTaskService "w1" "p1" "t1" "bob" MEMBER titleBody sampleDb =
    (inl (UnauthorizedException "Members can only update the task status"),
     sampleDb, [Project_findById "p1"; Task_findById "t1"])
  ∧ UpdateTaskPayload.status statusBody = Some "DONE"
  ∧ ¬ definesBesidesStatus statusBody
  ∧ updateTaskService "w1" "p1" "t1" "bob" MEMBER statusBody sampleDb =
    (inr (withStatus "DONE" sampleTask1),
     withTasks (<["t1" := withStatus "DONE" sampleTask1]> (tasks sampleDb)) sampleDb,
     [Project_findById "p1"; Task_findById "t1"; Task_findByIdAndUpdate "t1"]).
Proof.
  assert (definesBesidesStatus titleBody) as Hd by (left; eexists; reflexivity).
  assert (¬ definesBesidesStatus statusBody) as Hn.
  { intros [[? [=]]|[[? [=]]|[[? [=]]|[[? [=]]|(? & [=] & _)]]]]. }
  split; [exact sample_resolves_t1|].
  split; [discriminate|]. split; [discriminate|]. split; [reflexivity|].
  split; [exact Hd|]. split.
  { apply (updateTask_assignee_status_only sampleDb "w1" "p1" "t1" "bob" MEMBER
             titleBody sampleTask1 sample_resolves_t1); try discriminate;
      [reflexivity|exact Hd]. }
  split; [reflexivity|]. split; [exact Hn|].
  apply (updateTask_assignee_status_only sampleDb "w1" "p1" "t1" "bob" MEMBER
           statusBody sampleTask1 sample_resolves_t1); try discriminate;
    [reflexivity|reflexivity|exact Hn].
Defined.

(** C3. Creating a task for a user who is not a member of the workspace
    stops before anything is saved, but with a bare [Error]; the same
    assignee in an update by the owner is a bad request. *)
Theorem createTask_nonmember_plain_error :
  createTaskService sampleEnv "w1" "p1" "alice" malloryTask sampleDb =
  (inl (JsError "Assigned user is not a member of this workspace."), sampleDb,
   [Project_findById "p1"; Member_exists "mallory" "w1"])
  ∧ isBadRequest (JsError "Assigned user is not a member of this workspace.") = false
  ∧ updateTaskService "w1" "p1" "t1" "alice" OWNER malloryBody sampleDb =
    (inl (BadRequestException "Assigned user is not a member of this workspace"),
     sampleDb, [Project_findById "p1"; Task_findById "t1"; Member_exists "mallory" "w1"]).
Proof.
  assert (Member.mk "mallory" "w1" ∉ members sampleDb) as Hm.
  { simpl. rewrite !not_elem_of_cons. split_and!; try discriminate.
    apply not_elem_of_nil. }
  split; [|split; [reflexivity|]].
  - by apply (createTask_nonmember sampleEnv sampleDb "w1" "p1" "alice" malloryTask
                "mallory" (Project.mk "w1")).
  - by apply (updateTask_nonmember sampleDb "w1" "p1" "t1" "alice" OWNER malloryBody
                sampleTask1 "mallory" sample_resolves_t1).
Qed.

Lemma updateTask_no_effective_change_witness :
  resolves sampleDb "w1" "p1" "t1" sampleTask1
  ∧ mayUpdate OWNER "alice" sampleTask1
  ∧ effectiveFields OWNER emptyBody = []
  ∧ (isOwnerOrAdmin OWNER = false → ¬ definesBesidesStatus emptyBody)
  ∧ updateTaskService "w1" "p1" "t1" "alice" OWNER emptyBody sampleDb =
    (inl (BadRequestException "No updates were provided"), sampleDb,
     [Project_findById "p1"; Task_findById "t1"]).
Proof.
  split; [exact sample_resolves_t1|]. split; [by left|].
  split; [reflexivity|]. split; [discriminate|].
  apply (updateTask_no_effective_change sampleDb "w1" "p1" "t1" "alice" OWNER
           emptyBody sampleTask1 sample_resolves_t1);
    [by left|reflexivity|discriminate].
Defined.

(** C4 as stated fails: the assignee, a plain member, sends a title only.
    The request is authorized and none of its fields is one a member may
    apply, yet the answer is unauthorized, not a bad request. *)
Lemma updateTask_member_title_counterexample :
  ¬ (∀ db w p tid u role body t,
       resolves db w p tid t → mayUpdate role u t →
       effectiveFields role body = [] →
       ∃ message,
         outcome (updateTaskService w p tid u role body db)
         = inl (BadRequestException message)).
Proof.
  intros Hclaim.
  destruct (Hclaim sampleDb "w1" "p1" "t1" "bob" MEMBER titleBody sampleTask1
              sample_resolves_t1) as [message Hm].
  - right; right; reflexivity.
  - reflexivity.
  - vm_compute in Hm. discriminate Hm.
Qed.

Lemma updateTask_clear_assignee_witness :
  resolves sampleDb "w1" "p1" "t1" sampleTask1
  ∧ (OWNER = OWNER ∨ OWNER = ADMIN)
  ∧ clearsAssignee clearBody
  ∧ callsOf (updateTaskService "w1" "p1" "t1" "alice" OWNER clearBody sampleDb)
    = [Project_findById "p1"; Task_findById "t1"; Task_findByIdAndUpdate "t1"]
  ∧ (tasks (finalDb (updateTaskService "w1" "p1" "t1" "alice" OWNER clearBody sampleDb))
       !! "t1") ≫= Task.assignedTo = None.
Proof.
  split; [exact sample_resolves_t1|]. split; [by left|]. split; [by left|].
  destruct (updateTask_clear_assignee sampleDb "w1" "p1" "t1" "alice" OWNER clearBody
              sampleTask1 sample_resolves_t1 (or_introl eq_refl) (or_introl eq_refl))
    as (Hcalls & _ & _ & Hstore).
  split; [exact Hcalls|].
  destruct (Hstore None eq_refl) as (_ & Htasks & _).
  rewrite Htasks. reflexivity.
Defined.

Lemma sample_consistent : consistent sampleDb.
Proof.
  intros id t p Ht Hp. apply elem_of_map_to_list in Ht.
  vm_compute in Ht.
  repeat (apply elem_of_cons in Ht as [Ht|Ht]); try (by apply elem_of_nil in Ht);
    injection Ht as -> ->; vm_compute in Hp; by injection Hp as <-.
Defined.

Lemma sample_t1_not_in_w2 : ¬ taskInWorkspace sampleDb "t1" "w2".
Proof. intros (t & Ht & Hw). vm_compute in Ht. injection Ht as <-. discriminate Hw. Defined.

Lemma task_outside_workspace_not_found_witness :
  consistent sampleDb
  ∧ namedTask (UpdateTask "w2" "p2" "t1" "dave" OWNER statusBody) = Some ("w2", "t1")
  ∧ ¬ taskInWorkspace sampleDb "t1" "w2"
  ∧ ∃ message,
      outcome (handle sampleEnv (UpdateTask "w2" "p2" "t1" "dave" OWNER statusBody) sampleDb)
      = inl (NotFoundException message)
      ∧ finalDb (handle sampleEnv (UpdateTask "w2" "p2" "t1" "dave" OWNER statusBody)
                   sampleDb) = sampleDb.
Proof.
  split; [exact sample_consistent|]. split; [reflexivity|].
  split; [exact sample_t1_not_in_w2|].
  exact (task_outside_workspace_not_found sampleEnv
           (UpdateTask "w2" "p2" "t1" "dave" OWNER statusBody) sampleDb "w2" "t1"
           sample_consistent eq_refl sample_t1_not_in_w2).
Defined.

Lemma sample_chronological : chronological (now sampleEnv) sampleDb.
Proof.
  intros id c Hc. apply elem_of_map_to_list in Hc. vm_compute in Hc.
  repeat (apply elem_of_cons in Hc as [Hc|Hc]); try (by apply elem_of_nil in Hc).
  injection Hc as -> ->. split.
  - repeat constructor.
  - repeat constructor. discriminate.
Defined.

Lemma responses_append_only_witness :
  chronological (now sampleEnv) sampleDb
  ∧ (∃ c', outcome (handle sampleEnv sampleResponse sampleDb)
           = inr (ClarificationReply "c1" c')
           ∧ TaskClarification.responses c'
             = [ClarificationResponse.mk "The third" "alice" 150;
                ClarificationResponse.mk "See the Q3 sheet" "alice" 1000])
  ∧ chronological (now sampleEnv) (finalDb (handle sampleEnv sampleResponse sampleDb)).
Proof.
  split; [exact sample_chronological|].
  destruct (responses_append_only sampleEnv sampleResponse sampleDb
              sample_chronological) as (Hpush & _ & Hchron).
  split; [|exact Hchron].
  destruct (Hpush "w1" "t1" "c1" "alice" "  See the Q3 sheet " sampleClarification
              eq_refl) as (c' & Hout & Hresp & _);
    [by exists sampleTask1|reflexivity|reflexivity|reflexivity|].
  exists c'. split; [exact Hout|]. rewrite Hresp. reflexivity.
Defined.

Lemma listing_status_filter_witness :
  Filters.status todoFilter = Some ["TODO"] ∧ ["TODO"] ≠ []
  ∧ ∃ page, outcome (getAllTasksService "w1" todoFilter firstPage sampleDb) = inr page
      ∧ page_tasks page = [("t1", sampleTask1)]
      ∧ Forall (λ kt, Task.status kt.2 ∈ ["TODO"] ∧ tasks sampleDb !! kt.1 = Some kt.2
                      ∧ Task.workspace kt.2 = "w1") (page_tasks page)
      ∧ StronglySorted newestFirstTask (page_tasks page).
Proof.
  split; [reflexivity|]. split; [discriminate|].
  pose proof (listing_status_filter sampleDb "w1" todoFilter firstPage ["TODO"]
                eq_refl ltac:(discriminate)) as Hthm.
  destruct (outcome (getAllTasksService "w1" todoFilter firstPage sampleDb))
    as [e|page] eqn:E; vm_compute in E; [discriminate E|].
  exists page. split; [reflexivity|]. split; [by injection E as <-|exact Hthm].
Defined.

Lemma listing_pagination_witness :
  parseIntOr (query_pageSize emptyQuery) 10 = Num 10
  ∧ parseIntOr (query_pageNumber emptyQuery) 1 = Num 1
  ∧ safePage 10 1
  ∧ ∃ run page, getAllTasksController (mret ()) "w1" emptyQuery = Some run
      ∧ outcome (run sampleDb) = inr page
      ∧ page_pageSize page = 10 ∧ page_pageNumber page = 1 ∧ page_skip page = 0
      ∧ page_totalCount page = 2 ∧ page_totalPages page = Some 1
      ∧ page_tasks page = [("t2", sampleTask2); ("t1", sampleTask1)].
Proof.
  assert (safePage 10 1) as Hsafe by (unfold safePage; simpl; lia).
  destruct (listing_pagination (mret ()) sampleDb "w1" emptyQuery)
    as (Hs & Hn & Hrun).
  split; [apply Hs; by left|]. split; [apply Hn; by left|].
  split; [exact Hsafe|].
  destruct (Hrun 10 1 eq_refl eq_refl Hsafe) as (run & Hctl & Hpage).
  injection Hctl as <-.
  exists (mret ();; getAllTasksService "w1" (filtersOf emptyQuery) (Pagination.mk 10 1)).
  destruct (outcome ((mret ();; getAllTasksService "w1" (filtersOf emptyQuery)
                        (Pagination.mk 10 1)) sampleDb))
    as [e|page] eqn:E; vm_compute in E; [discriminate E|].
  exists page. split; [reflexivity|]. split; [reflexivity|].
  destruct Hpage as (Hps & Hpn & Hskip & _).
  split; [exact Hps|]. split; [exact Hpn|]. split; [exact Hskip|].
  by injection E as <-.
Defined.

Lemma listing_keyword_literal_witness :
  "REPORT" ≠ "" ∧ hasMeta "REPORT" = false
  ∧ 0 ≤ (Pagination.pageNumber firstPage - 1) * Pagination.pageSize firstPage
  ∧ ∃ page, outcome (getAllTasksService "w1" (keywordOnly "REPORT") firstPage sampleDb)
            = inr page
      ∧ page_tasks page = [("t1", sampleTask1)] ∧ page_totalCount page = 1.
Proof.
  split; [discriminate|]. split; [reflexivity|]. split; [discriminate|].
  destruct (@listing_keyword_literal referenceExternals referenceExternals_laws
              sampleDb "w1" "REPORT" firstPage) as (page & matched & Hout & _);
    [discriminate|reflexivity|discriminate|].
  exists page. split; [exact Hout|].
  vm_compute in Hout. by injection Hout as <-.
Defined.

(** C6 as stated fails for a keyword with a metacharacter: the dot is a
    wildcard to the store, so the keyword [.] returns the task titled
    [a], whose title holds no dot. *)
Lemma listing_keyword_dot_counterexample :
  ¬ (∀ db w k pg page id t,
       k ≠ "" →
       outcome (getAllTasksService w (keywordOnly k) pg db) = inr page →
       (id, t) ∈ page_tasks page →
       containsIgnoreCase k (Task.title t) = true).
Proof.
  intros Hclaim.
  specialize (Hclaim sampleDb "w1" "." firstPage
                (mkPage [("t2", sampleTask2); ("t1", sampleTask1)] 10 1 2 (Some 1) 0)
                "t2" sampleTask2).
  discriminate Hclaim.
  - discriminate.
  - vm_compute. reflexivity.
  - by left.
Qed.
End Samples.

(** * Further properties of the services *)

Section ServiceProperties.
Context `{Externals}.

(** ** What each service can do, case by case *)

Lemma buildUpdatePayload_cases w b body db :
  (∃ e cs, buildUpdatePayload w b body db = (inl e, db, cs))
  ∨ (∃ u cs, buildUpdatePayload w b body db = (inr u, db, cs)
       ∧ set_status u = UpdateTaskPayload.status body
       ∧ set_dueDate u = (if b then UpdateTaskPayload.dueDate body else None)
       ∧ (b = false → set_assignedTo u = None)
       ∧ (∀ a, set_assignedTo u = Some (Some a) → Member.mk a w ∈ members db)).
Proof.
  unfold buildUpdatePayload. destruct b.
  - destruct (UpdateTaskPayload.assignedTo body) as [|[| |s]].
    + right. do 2 eexists. split; [reflexivity|]. by repeat split.
    + right. do 2 eexists. split; [reflexivity|]. by repeat split.
    + right. do 2 eexists. split; [reflexivity|]. by repeat split.
    + case_bool_decide as Hs.
      * subst s. right. do 2 eexists. split; [reflexivity|]. by repeat split.
      * rewrite bind_run. unfold MemberModel_exists.
        case_bool_decide as Hm.
        -- right. do 2 eexists. split; [reflexivity|]. simpl.
           repeat split; try done. by intros a [= <-].
        -- left. by do 2 eexists.
  - right. do 2 eexists. split; [reflexivity|]. by repeat split.
Qed.

Lemma buildUpdatePayload_members w b body db1 db2 :
  members db1 = members db2 →
  outcome (buildUpdatePayload w b body db1) = outcome (buildUpdatePayload w b body db2)
  ∧ callsOf (buildUpdatePayload w b body db1) = callsOf (buildUpdatePayload w b body db2).
Proof.
  intros Hm. unfold buildUpdatePayload. destruct b; [|done].
  destruct (UpdateTaskPayload.assignedTo body) as [|[| |s]]; try done.
  case_bool_decide as Hs; [by subst s|].
  rewrite !bind_run. unfold MemberModel_exists. rewrite Hm.
  by destruct (bool_decide _).
Qed.

(** The update either fails and writes nothing, or it resolved the task,
    passed both authorization gates, built a payload with at least one
    key and wrote the task with the payload applied. *)
Lemma updateTaskService_cases w p tid uid role body db :
  (∃ e cs, updateTaskService w p tid uid role body db = (inl e, db, cs))
  ∨ (∃ t u due cs0,
       resolves db w p tid t
       ∧ mayUpdate role uid t
       ∧ (isOwnerOrAdmin role = false → ¬ definesBesidesStatus body)
       ∧ buildUpdatePayload w (isOwnerOrAdmin role) body db = (inr u, db, cs0)
       ∧ Object_keys u ≠ []
       ∧ castOptDate (set_dueDate u) = inr due
       ∧ updateTaskService w p tid uid role body db =
         (inr (applyUpdate u due t),
          withTasks (<[tid := applyUpdate u due t]> (tasks db)) db,
          [Project_findById p; Task_findById tid] ++ cs0 ++ [Task_findByIdAndUpdate tid])).
Proof.
  destruct (projects db !! p) as [pr|] eqn:Hp.
  2:{ left. unfold updateTaskService. rewrite bind_run.
      unfold ProjectModel_findById. rewrite Hp. by do 2 eexists. }
  destruct (decide (Project.workspace pr = w)) as [Hw|Hw].
  2:{ left. unfold updateTaskService. rewrite bind_run.
      unfold ProjectModel_findById. rewrite Hp. simpl.
      rewrite bool_decide_true by done. by do 2 eexists. }
  destruct (tasks db !! tid) as [t|] eqn:Ht.
  2:{ left. unfold updateTaskService. rewrite bind_run.
      unfold ProjectModel_findById at 1. rewrite Hp. simpl.
      rewrite bool_decide_false by (by intros ?). rewrite bind_run.
      unfold TaskModel_findById. rewrite Ht. by do 2 eexists. }
  destruct (decide (Task.project t = p)) as [Htp|Htp].
  2:{ left. unfold updateTaskService. rewrite bind_run.
      unfold ProjectModel_findById at 1. rewrite Hp. simpl.
      rewrite bool_decide_false by (by intros ?). rewrite bind_run.
      unfold TaskModel_findById at 1. rewrite Ht.
      rewrite bool_decide_true by done. by do 2 eexists. }
  assert (resolves db w p tid t) as Hres by (by split; [exists pr|]).
  rewrite (updateTaskService_resolved _ _ _ _ _ _ _ _ Hres). cbv zeta.
  destruct (negb (isOwnerOrAdmin role) && negb (isTaskAssignedToUser t uid)) eqn:Hgate;
    [left; by do 2 eexists|].
  destruct (negb (isOwnerOrAdmin role)
            && bool_decide (0 < length (invalidFields body))%nat) eqn:Hfields;
    [left; by do 2 eexists|].
  rewrite bind_run.
  destruct (buildUpdatePayload_cases w (isOwnerOrAdmin role) body db)
    as [(e & cs & Hb)|(u & cs0 & Hb & _)]; rewrite Hb; [left; by do 2 eexists|].
  destruct (bool_decide (length (Object_keys u) = 0%nat)) eqn:Hkeys;
    [left; by do 2 eexists|].
  apply bool_decide_eq_false in Hkeys.
  rewrite bind_run. unfold TaskModel_findByIdAndUpdate.
  destruct (castOptDate (set_dueDate u)) as [e|due] eqn:Hcast;
    [left; by do 2 eexists|].
  rewrite Ht. right. exists t, u, due, cs0.
  split; [done|]. split.
  { unfold mayUpdate. unfold isOwnerOrAdmin in *.
    rewrite isTaskAssignedToUser_spec in Hgate.
    destruct role; simpl in *; auto.
    right; right. apply negb_false_iff in Hgate.
    by apply bool_decide_eq_true in Hgate. }
  split.
  { intros Hr. rewrite Hr in Hfields. simpl in Hfields.
    apply bool_decide_eq_false in Hfields.
    apply invalidFields_nil. destruct (invalidFields body); [done|].
    simpl in Hfields. lia. }
  split; [done|]. split.
  { intros Hnil. apply Hkeys. by rewrite Hnil. }
  split; [done|]. reflexivity.
Qed.

Lemma createTaskService_success env w p u body db pr a d :
  projects db !! p = Some pr → Project.workspace pr = w →
  castAssignee (assigneeValue (CreateTaskPayload.assignedTo body)) = inr a →
  (∀ x, a = Some x → Member.mk x w ∈ members db) →
  castOptDate (CreateTaskPayload.dueDate body) = inr d →
  tasks db !! freshId env = None →
  let priority := CreateTaskPayload.priority body in
  let status := CreateTaskPayload.status body in
  let t := Task.mk (CreateTaskPayload.title body) (CreateTaskPayload.description body)
             (if truthy priority then priority else TaskPriorityEnum_MEDIUM)
             (if truthy status then status else TaskStatusEnum_TODO)
             a u w p d (now env) in
  createTaskService env w p u body db =
  (inr (freshId env, t), withTasks (<[freshId env := t]> (tasks db)) db,
   [Project_findById p]
   ++ match a with Some x => [Member_exists x w] | None => [] end
   ++ [Task_save (freshId env)]).
Proof.
  intros Hp Hw Ha Hm Hd Hf priority status t.
  unfold createTaskService. rewrite bind_run. unfold ProjectModel_findById at 1.
  rewrite Hp. unfold projectOutside. rewrite bool_decide_false by (by intros ?).
  rewrite bind_run.
  destruct (assigneeValue (CreateTaskPayload.assignedTo body)) as [| |s] eqn:Hv.
  - simpl in Ha. simplify_eq. simpl. rewrite bind_run.
    unfold TaskModel_save, TaskModel_new. simpl. rewrite Hd, Hf. reflexivity.
  - simpl in Ha. simplify_eq. simpl. rewrite bind_run.
    unfold TaskModel_save, TaskModel_new. simpl. rewrite Hd, Hf. reflexivity.
  - simpl in Ha. destruct (truthy s) eqn:Hs; [|done]. simplify_eq.
    rewrite bind_run. unfold MemberModel_exists.
    rewrite bool_decide_true by (by apply Hm). simpl. rewrite bind_run.
    unfold TaskModel_save, TaskModel_new. simpl. rewrite Hs, Hd, Hf. reflexivity.
Qed.

(** A creation either fails and writes nothing, or met every condition of
    [createTaskService_success]. *)
Lemma createTaskService_cases env w p u body db :
  (∃ e cs, createTaskService env w p u body db = (inl e, db, cs))
  ∨ (∃ pr a d,
       projects db !! p = Some pr ∧ Project.workspace pr = w
       ∧ castAssignee (assigneeValue (CreateTaskPayload.assignedTo body)) = inr a
       ∧ (∀ x, a = Some x → Member.mk x w ∈ members db)
       ∧ castOptDate (CreateTaskPayload.dueDate body) = inr d
       ∧ tasks db !! freshId env = None).
Proof.
  destruct (projects db !! p) as [pr|] eqn:Hp.
  2:{ left. unfold createTaskService. rewrite bind_run.
      unfold ProjectModel_findById. rewrite Hp. by do 2 eexists. }
  destruct (decide (Project.workspace pr = w)) as [Hw|Hw].
  2:{ left. unfold createTaskService. rewrite bind_run.
      unfold ProjectModel_findById. rewrite Hp. simpl.
      rewrite bool_decide_true by done. by do 2 eexists. }
  unfold createTaskService. rewrite bind_run. unfold ProjectModel_findById at 1.
  rewrite Hp. unfold projectOutside. rewrite bool_decide_false by (by intros ?).
  rewrite bind_run.
  destruct (assigneeValue (CreateTaskPayload.assignedTo body)) as [| |s] eqn:Hv.
  - simpl. rewrite bind_run. unfold TaskModel_save, TaskModel_new. simpl.
    destruct (castOptDate _) as [e|d] eqn:Hd; [left; by do 2 eexists|].
    destruct (tasks db !! freshId env) eqn:Hf; [left; by do 2 eexists|].
    right. exists pr, None, d. by repeat split.
  - simpl. rewrite bind_run. unfold TaskModel_save, TaskModel_new. simpl.
    destruct (castOptDate _) as [e|d] eqn:Hd; [left; by do 2 eexists|].
    destruct (tasks db !! freshId env) eqn:Hf; [left; by do 2 eexists|].
    right. exists pr, None, d. by repeat split.
  - destruct (truthy s) eqn:Hs.
    + rewrite bind_run. unfold MemberModel_exists.
      case_bool_decide as Hm; [|left; by do 2 eexists].
      simpl. rewrite bind_run. unfold TaskModel_save, TaskModel_new. simpl.
      rewrite Hs.
      destruct (castOptDate _) as [e|d] eqn:Hd; [left; by do 2 eexists|].
      destruct (tasks db !! freshId env) eqn:Hf; [left; by do 2 eexists|].
      right. exists pr, (Some s), d. simpl. rewrite ?Hs.
      repeat split; try done. by intros x [= <-].
    + simpl. rewrite bind_run. unfold TaskModel_save, TaskModel_new. simpl.
      rewrite Hs. left. by do 2 eexists.
Qed.

Lemma deleteTaskService_cases w tid db :
  (∃ cs, deleteTaskService w tid db =
         (inl (NotFoundException
                 "Task not found or does not belong to the specified workspace"), db, cs)
         ∧ ¬ taskInWorkspace db tid w)
  ∨ (∃ t, tasks db !! tid = Some t ∧ Task.workspace t = w
          ∧ deleteTaskService w tid db =
            (inr (), withTasks (delete tid (tasks db)) db, [Task_findOneAndDelete tid])).
Proof.
  unfold deleteTaskService. rewrite bind_run. unfold TaskModel_findOneAndDelete.
  destruct (tasks db !! tid) as [t|] eqn:Ht.
  - destruct (decide _) as [Hw|Hw].
    + right. by exists t.
    + left. eexists. split; [reflexivity|]. intros (t' & Ht' & Hw'). congruence.
  - left. eexists. split; [reflexivity|]. intros (t' & Ht' & Hw'). congruence.
Qed.

Lemma createTaskClarificationService_cases env w t u question db :
  (∃ e cs, createTaskClarificationService env w t u question db = (inl e, db, cs))
  ∨ (taskInWorkspace db t w ∧ trim question ≠ ""
     ∧ clarifications db !! freshId env = None
     ∧ let c := TaskClarification.mk t w (trim question) u [] (now env) (now env) in
       createTaskClarificationService env w t u question db =
       (inr (freshId env, c),
        withClarifications (<[freshId env := c]> (clarifications db)) db,
        [Task_findOne t; Clarification_create (freshId env)])).
Proof.
  unfold createTaskClarificationService. rewrite bind_run.
  rewrite verifyTaskBelongsToWorkspace_run.
  destruct (tasks db !! t) as [task|] eqn:Ht; [|left; by do 2 eexists].
  case_bool_decide as Hw; [|left; by do 2 eexists].
  unfold TaskClarificationModel_create.
  destruct (truthy (trim question)) eqn:Hq; [|left; by do 2 eexists].
  destruct (clarifications db !! freshId env) eqn:Hf; [left; by do 2 eexists|].
  right. split; [by exists task|]. split; [by intros Hq'; rewrite Hq' in Hq|].
  split; [done|]. reflexivity.
Qed.

Lemma respondToTaskClarificationService_cases env w t cid u message db :
  (∃ e cs, respondToTaskClarificationService env w t cid u message db = (inl e, db, cs))
  ∨ (∃ c, taskInWorkspace db t w ∧ clarifications db !! cid = Some c
          ∧ TaskClarification.workspace c = w ∧ TaskClarification.task c = t).
Proof.
  unfold respondToTaskClarificationService. rewrite bind_run.
  rewrite verifyTaskBelongsToWorkspace_run.
  destruct (tasks db !! t) as [task|] eqn:Ht; [|left; by do 2 eexists].
  case_bool_decide as Hw; [|left; by do 2 eexists].
  rewrite bind_run. unfold TaskClarificationModel_findOneAndUpdate.
  destruct (clarifications db !! cid) as [c|] eqn:Hc; [|left; by do 2 eexists].
  destruct (bool_decide (TaskClarification.workspace c = w)) eqn:Hcw;
    [|left; by do 2 eexists].
  destruct (bool_decide (TaskClarification.task c = t)) eqn:Hct;
    [|left; by do 2 eexists].
  right. exists c. apply bool_decide_eq_true in Hcw, Hct.
  split; [by exists task|]. done.
Qed.

Lemma handle_outcome_error env r db e :
  outcome (handle env r db) = inl e →
  match r with
  | CreateTask w p u body => outcome (createTaskService env w p u body db) = inl e
  | UpdateTask w p t u role body =>
      outcome (updateTaskService w p t u role body db) = inl e
  | GetAllTasks w f pg => outcome (getAllTasksService w f pg db) = inl e
  | GetTaskById w p t => outcome (getTaskByIdService w p t db) = inl e
  | GetTaskClarifications w t => outcome (getTaskClarificationsService w t db) = inl e
  | CreateTaskClarification w t u q =>
      outcome (createTaskClarificationService env w t u q db) = inl e
  | RespondToTaskClarification w t c u m =>
      outcome (respondToTaskClarificationService env w t c u m db) = inl e
  | DeleteTask w t => outcome (deleteTaskService w t db) = inl e
  end.
Proof.
  destruct r; simpl; rewrite bind_run;
    match goal with |- context [match ?m db with _ => _ end] =>
      destruct (m db) as [[[e'|a] db'] cs] end; try done;
    try destruct a; unfold outcome; simpl; intros; by simplify_eq.
Qed.

(** ** A request that fails writes nothing *)

(** X1. Whatever the request, if the service answers with an error then
    every collection is as it was before the call. *)
Theorem failed_request_writes_nothing env r db e :
  outcome (handle env r db) = inl e → finalDb (handle env r db) = db.
Proof.
  intros He. apply handle_outcome_error in He. rewrite handle_finalDb.
  destruct r as [w p u body|w p t u role body|w f pg|w p t|w t|w t u q|w t c u m|w t].
  - destruct (createTaskService_cases env w p u body db)
      as [(e' & cs & ->)|(pr & a & d & Hp & Hw & Ha & Hm & Hd & Hf)]; [done|].
    rewrite (createTaskService_success _ _ _ _ _ _ pr a d) in He by done.
    discriminate He.
  - destruct (updateTaskService_cases w p t u role body db)
      as [(e' & cs & ->)|(t0 & up & due & cs0 & _ & _ & _ & _ & _ & _ & Hrun)]; [done|].
    rewrite Hrun in He. discriminate He.
  - apply getAllTasksService_finalDb.
  - apply getTaskByIdService_finalDb.
  - apply getTaskClarificationsService_finalDb.
  - destruct (createTaskClarificationService_cases env w t u q db)
      as [(e' & cs & ->)|(_ & _ & _ & Hrun)]; [done|].
    rewrite Hrun in He. discriminate He.
  - destruct (respondToTaskClarificationService_cases env w t c u m db)
      as [(e' & cs & ->)|(c0 & Ht & Hc & Hw & Hct)]; [done|].
    rewrite (respondToTaskClarificationService_run _ _ _ _ _ _ _ c0) in He by done.
    discriminate He.
  - destruct (deleteTaskService_cases w t db) as [(cs & -> & _)|(t0 & _ & _ & Hrun)];
      [done|].
    rewrite Hrun in He. discriminate He.
Qed.

(** ** Creating a task *)

Lemma getTaskByIdService_run w p tid db :
  getTaskByIdService w p tid db =
  match projects db !! p with
  | Some pr =>
      if decide (Project.workspace pr = w) then
        match tasks db !! tid with
        | Some t =>
            if decide (Task.workspace t = w ∧ Task.project t = p)
            then (inr t, db, [Project_findById p; Task_findOne tid])
            else (inl (NotFoundException "Task not found."), db,
                  [Project_findById p; Task_findOne tid])
        | None => (inl (NotFoundException "Task not found."), db,
                   [Project_findById p; Task_findOne tid])
        end
      else (inl (NotFoundException
                   "Project not found or does not belong to this workspace"), db,
            [Project_findById p])
  | None => (inl (NotFoundException
                    "Project not found or does not belong to this workspace"), db,
             [Project_findById p])
  end.
Proof.
  unfold getTaskByIdService. rewrite bind_run. unfold ProjectModel_findById at 1.
  destruct (projects db !! p) as [pr|]; [|reflexivity]. simpl.
  destruct (decide (Project.workspace pr = w)) as [Hw|Hw].
  - rewrite bool_decide_false by (by intros ?). rewrite bind_run.
    unfold TaskModel_findOne.
    destruct (tasks db !! tid) as [t|]; [|reflexivity]. simpl.
    destruct (decide (_ ∧ _)) as [[Htw Htp]|Hn].
    + by rewrite !bool_decide_true.
    + destruct (decide (Task.workspace t = w)), (decide (Task.project t = p));
        try (exfalso; by apply Hn);
        rewrite ?bool_decide_true, ?bool_decide_false by done; reflexivity.
  - by rewrite bool_decide_true.
Qed.

(** X2. When the project belongs to the workspace, the assignee (if any)
    is a member, the due date can be read and the generated id is free,
    the creation succeeds: the stored task carries the request's
    workspace, project and creator and the current time, an empty
    priority or status falls back to MEDIUM or TODO, and reading the id
    back through [getTaskByIdService] returns that very task. *)
Theorem createTask_then_get env w p u body db pr a d :
  projects db !! p = Some pr → Project.workspace pr = w →
  castAssignee (assigneeValue (CreateTaskPayload.assignedTo body)) = inr a →
  (∀ x, a = Some x → Member.mk x w ∈ members db) →
  castOptDate (CreateTaskPayload.dueDate body) = inr d →
  tasks db !! freshId env = None →
  ∃ t, outcome (createTaskService env w p u body db) = inr (freshId env, t)
       ∧ t = Task.mk (CreateTaskPayload.title body) (CreateTaskPayload.description body)
               (if truthy (CreateTaskPayload.priority body)
                then CreateTaskPayload.priority body else "MEDIUM")
               (if truthy (CreateTaskPayload.status body)
                then CreateTaskPayload.status body else "TODO")
               a u w p d (now env)
       ∧ outcome (getTaskByIdService w p (freshId env)
                    (finalDb (createTaskService env w p u body db))) = inr t.
Proof.
  intros Hp Hw Ha Hm Hd Hf.
  rewrite (createTaskService_success _ _ _ _ _ _ pr a d) by done.
  eexists. split; [reflexivity|]. split; [reflexivity|].
  rewrite getTaskByIdService_run. unfold finalDb. simpl.
  rewrite Hp, decide_True by done. rewrite lookup_insert_eq.
  by rewrite decide_True.
Qed.

(** X3. A creation never touches a task that is already stored, not even
    one that holds the generated id, and leaves the projects, the members
    and the clarifications alone. *)
Theorem createTask_keeps_existing env w p u body db :
  let db' := finalDb (createTaskService env w p u body db) in
  (∀ id t, tasks db !! id = Some t → tasks db' !! id = Some t)
  ∧ (∀ id, id ≠ freshId env → tasks db' !! id = tasks db !! id)
  ∧ projects db' = projects db ∧ members db' = members db
  ∧ clarifications db' = clarifications db.
Proof.
  intros db'. subst db'.
  destruct (createTaskService_cases env w p u body db)
    as [(e' & cs & ->)|(pr & a & d & Hp & Hw & Ha & Hm & Hd & Hf)]; [done|].
  rewrite (createTaskService_success _ _ _ _ _ _ pr a d) by done.
  unfold finalDb. simpl. split_and!; try done.
  - intros id t Ht. rewrite lookup_insert_ne; [done|]. intros <-. congruence.
  - intros id Hne. by rewrite lookup_insert_ne.
Qed.

(** ** Updating a task *)

(** X4. An update, whatever its outcome, touches no task but the one it
    names, neither adds nor removes a task, never changes the task's
    workspace, project, creator or creation time, and leaves the
    projects, the members and the clarifications alone. *)
Theorem updateTask_frame w p tid uid role body db :
  let db' := finalDb (updateTaskService w p tid uid role body db) in
  (∀ id, id ≠ tid → tasks db' !! id = tasks db !! id)
  ∧ (tasks db !! tid = None → tasks db' !! tid = None)
  ∧ (∀ t, tasks db !! tid = Some t →
       ∃ t', tasks db' !! tid = Some t'
             ∧ Task.workspace t' = Task.workspace t
             ∧ Task.project t' = Task.project t
             ∧ Task.createdBy t' = Task.createdBy t
             ∧ Task.createdAt t' = Task.createdAt t)
  ∧ projects db' = projects db ∧ members db' = members db
  ∧ clarifications db' = clarifications db.
Proof.
  intros db'. subst db'.
  destruct (updateTaskService_cases w p tid uid role body db)
    as [(e' & cs & ->)|(t0 & up & due & cs0 & Hres & _ & _ & _ & _ & _ & ->)].
  { unfold finalDb. simpl. split_and!; try done. intros t Ht. by exists t. }
  destruct Hres as (_ & Ht0 & _).
  unfold finalDb. simpl. split_and!; try done.
  - intros id Hne. by rewrite lookup_insert_ne.
  - congruence.
  - intros t Ht. simplify_eq. rewrite lookup_insert_eq. by eexists.
Qed.

(** X5. A caller who is neither owner nor admin can change nothing but
    the status: whatever the body and whatever the outcome, the stored
    task afterwards is the old one with, at most, another status. *)
Theorem updateTask_member_changes_status_only w p tid uid role body db t :
  role ≠ OWNER → role ≠ ADMIN →
  tasks db !! tid = Some t →
  ∃ s, tasks (finalDb (updateTaskService w p tid uid role body db)) !! tid
       = Some (withStatus s t).
Proof.
  intros Ho Ha Ht.
  assert (withStatus (Task.status t) t = t) as Hid by (by destruct t).
  destruct (updateTaskService_cases w p tid uid role body db)
    as [(e' & cs & ->)|(t0 & up & due & cs0 & Hres & _ & _ & Hb & _ & _ & ->)].
  { exists (Task.status t). unfold finalDb. simpl. by rewrite Hid. }
  destruct Hres as (_ & Ht0 & _). simplify_eq.
  rewrite notOwnerOrAdmin in Hb by done. unfold buildUpdatePayload in Hb.
  injection Hb as <- <-.
  unfold finalDb. simpl. rewrite lookup_insert_eq.
  destruct (UpdateTaskPayload.status body) as [s|].
  - by exists s.
  - by exists (Task.status t).
Qed.

Lemma applyUpdate_idemp u due t :
  applyUpdate u due (applyUpdate u due t) = applyUpdate u due t.
Proof.
  unfold applyUpdate. simpl.
  by destruct (set_title u), (set_description u), (set_priority u), (set_status u),
    (set_assignedTo u), (set_dueDate u).
Qed.

(** On the fields of the model a successful update, sent again to the
    database it produced, is answered as before and writes what is
    there. *)
Lemma updateTaskService_repeat w p tid uid role body db t' db' cs :
  updateTaskService w p tid uid role body db = (inr t', db', cs) →
  updateTaskService w p tid uid role body db' = (inr t', db', cs).
Proof.
  intros Hrun.
  destruct (updateTaskService_cases w p tid uid role body db)
    as [(e' & cs' & He)|(t & u & due & cs0 & Hres & Hmay & Hfields & Hb & Hkeys
                         & Hcast & Hrun')]; [congruence|].
  rewrite Hrun' in Hrun. injection Hrun as <- <- <-.
  set (t' := applyUpdate u due t).
  set (db' := withTasks (<[tid := t']> (tasks db)) db).
  destruct Hres as ((pr & Hp & Hw) & Ht & Htp).
  assert (resolves db' w p tid t') as Hres'.
  { split; [by exists pr|]. split; [apply lookup_insert_eq|done]. }
  rewrite (updateTaskService_resolved _ _ _ _ _ _ _ _ Hres'). cbv zeta.
  assert (negb (isOwnerOrAdmin role) && negb (isTaskAssignedToUser t' uid) = false)
    as ->.
  { destruct (isOwnerOrAdmin role) eqn:Hr; [done|]. simpl.
    rewrite isTaskAssignedToUser_spec.
    assert (Task.assignedTo t' = Task.assignedTo t) as ->.
    { unfold buildUpdatePayload in Hb. injection Hb as <- <-. by subst t'. }
    destruct Hmay as [->|[->|Hmay]]; try done.
    by rewrite (bool_decide_true _ Hmay). }
  assert (negb (isOwnerOrAdmin role)
          && bool_decide (0 < length (invalidFields body))%nat = false) as ->.
  { destruct (isOwnerOrAdmin role); [done|]. simpl.
    specialize (Hfields eq_refl). apply invalidFields_nil in Hfields.
    by rewrite Hfields. }
  rewrite bind_run.
  destruct (buildUpdatePayload_members w (isOwnerOrAdmin role) body db db' eq_refl)
    as [Hout Hcalls].
  destruct (buildUpdatePayload_cases w (isOwnerOrAdmin role) body db')
    as [(e & cs1 & Hb')|(u' & cs1 & Hb' & _)];
    rewrite Hb, Hb' in Hout, Hcalls; unfold outcome, callsOf in Hout, Hcalls;
    simpl in Hout, Hcalls; [done|].
  injection Hout as <-. subst cs1. rewrite Hb'.
  rewrite bool_decide_false by (intros Hl; apply Hkeys; by destruct (Object_keys u)).
  rewrite bind_run. unfold TaskModel_findByIdAndUpdate. rewrite Hcast.
  change (tasks db') with (<[tid := t']> (tasks db)). rewrite lookup_insert_eq.
  subst t'. rewrite applyUpdate_idemp. simpl.
  rewrite insert_insert_eq. reflexivity.
Qed.

(** X6. Updates are idempotent on what they set: a successful update sent
    again to the database it produced succeeds again with the same calls,
    and the task it stores and returns agrees with the first reply in
    title, description, priority, status, assignee and due date; no other
    task changes. Nothing is said of a modification stamp, which the store
    would renew. *)
Theorem updateTask_idempotent w p tid uid role body db t' db' cs :
  updateTaskService w p tid uid role body db = (inr t', db', cs) →
  ∃ t'' db'',
    updateTaskService w p tid uid role body db' = (inr t'', db'', cs)
    ∧ tasks db'' !! tid = Some t''
    ∧ Task.title t'' = Task.title t'
    ∧ Task.description t'' = Task.description t'
    ∧ Task.priority t'' = Task.priority t'
    ∧ Task.status t'' = Task.status t'
    ∧ Task.assignedTo t'' = Task.assignedTo t'
    ∧ Task.dueDate t'' = Task.dueDate t'
    ∧ ∀ id, id ≠ tid → tasks db'' !! id = tasks db' !! id.
Proof.
  intros Hrun. exists t', db'.
  split; [by apply (updateTaskService_repeat _ _ _ _ _ _ db)|].
  split; [|by split_and!].
  destruct (updateTaskService_cases w p tid uid role body db)
    as [(e' & cs' & He)|(t & u & due & cs0 & _ & _ & _ & _ & _ & _ & Hrun')];
    [congruence|].
  rewrite Hrun' in Hrun. injection Hrun as <- <- <-. simpl.
  apply lookup_insert_eq.
Qed.

(** X7. An owner or admin who assigns the task to a member of the
    workspace succeeds: the membership is queried once, the stored task
    has the new assignee, and the fields the body leaves undefined keep
    their values. *)
Theorem updateTask_assign_member db w p tid u role body t a due :
  resolves db w p tid t →
  role = OWNER ∨ role = ADMIN →
  UpdateTaskPayload.assignedTo body = Present (JsString a) → a ≠ "" →
  Member.mk a w ∈ members db →
  castOptDate (UpdateTaskPayload.dueDate body) = inr due →
  ∃ t', updateTaskService w p tid u role body db =
        (inr t', withTasks (<[tid := t']> (tasks db)) db,
         [Project_findById p; Task_findById tid; Member_exists a w;
          Task_findByIdAndUpdate tid])
        ∧ Task.assignedTo t' = Some a
        ∧ Task.title t' = default (Task.title t) (UpdateTaskPayload.title body)
        ∧ Task.status t' = default (Task.status t) (UpdateTaskPayload.status body)
        ∧ Task.priority t' = default (Task.priority t) (UpdateTaskPayload.priority body).
Proof.
  intros Hres Hrole Ha Hne Hm Hd.
  assert (isOwnerOrAdmin role = true) as Hr by (destruct Hrole; subst; reflexivity).
  rewrite (updateTaskService_resolved _ _ _ _ _ _ _ _ Hres). cbv zeta.
  rewrite Hr. cbn [negb andb].
  unfold buildUpdatePayload. rewrite Ha. rewrite (bool_decide_false (a = "")) by done.
  rewrite !bind_run. unfold MemberModel_exists.
  rewrite (bool_decide_true (_ ∈ _)) by done.
  simpl.
  match goal with |- context [Object_keys ?u] =>
    rewrite (Object_keys_assignedTo u (Some a)) by reflexivity end.
  rewrite bind_run. unfold TaskModel_findByIdAndUpdate. simpl. rewrite Hd.
  destruct Hres as (_ & Ht & _). rewrite Ht.
  eexists. split; [reflexivity|]. done.
Qed.

(** ** Deleting a task *)

(** X8. Deleting a task of the workspace removes that task and nothing
    else; afterwards the task can no longer be read, updated or deleted in
    any workspace or project. *)
Theorem deleteTask_then_gone w tid db t :
  tasks db !! tid = Some t → Task.workspace t = w →
  let db' := finalDb (deleteTaskService w tid db) in
  outcome (deleteTaskService w tid db) = inr ()
  ∧ tasks db' = delete tid (tasks db)
  ∧ projects db' = projects db ∧ members db' = members db
  ∧ clarifications db' = clarifications db
  ∧ ∀ w' p' u role body,
      (∃ m, outcome (getTaskByIdService w' p' tid db') = inl (NotFoundException m))
      ∧ (∃ m, outcome (updateTaskService w' p' tid u role body db')
              = inl (NotFoundException m))
      ∧ (∃ m, outcome (deleteTaskService w' tid db') = inl (NotFoundException m)).
Proof.
  intros Ht Hw db'. subst db'.
  destruct (deleteTaskService_cases w tid db) as [(cs & _ & Hout)|(t0 & _ & _ & ->)].
  { destruct Hout. by exists t. }
  unfold finalDb, outcome. simpl. split_and!; try done.
  intros w' p' u role body.
  set (db' := withTasks (delete tid (tasks db)) db).
  assert (tasks db' !! tid = None) as Hgone by apply lookup_delete_eq.
  split_and!.
  - rewrite getTaskByIdService_run, Hgone. repeat case_match; by eexists.
  - destruct (updateTaskService_cases w' p' tid u role body db')
      as [(e & cs & Hrun)|(t1 & ? & ? & ? & (_ & Ht1 & _) & _)]; [|congruence].
    unfold updateTaskService in *. rewrite bind_run in *.
    unfold ProjectModel_findById in * |- *.
    destruct (projectOutside _ _); [by eexists|].
    rewrite bind_run. unfold TaskModel_findById. rewrite Hgone. by eexists.
  - destruct (deleteTaskService_cases w' tid db') as [(cs & -> & _)|(t1 & Ht1 & _)];
      [by eexists|congruence].
Qed.

(** X9. A deletion keeps the clarifications of the deleted task in the
    store, but no clarification operation reaches them any more: listing,
    asking and responding on that task all fail as not-found. *)
Theorem deleteTask_orphans_clarifications env w tid db t :
  tasks db !! tid = Some t → Task.workspace t = w →
  let db' := finalDb (deleteTaskService w tid db) in
  (∀ cid c, clarifications db !! cid = Some c → clarifications db' !! cid = Some c)
  ∧ ∀ w' cid u text,
      (∃ m, outcome (getTaskClarificationsService w' tid db')
            = inl (NotFoundException m))
      ∧ (∃ m, outcome (createTaskClarificationService env w' tid u text db')
              = inl (NotFoundException m))
      ∧ (∃ m, outcome (respondToTaskClarificationService env w' tid cid u text db')
              = inl (NotFoundException m)).
Proof.
  intros Ht Hw db'. subst db'.
  destruct (deleteTaskService_cases w tid db) as [(cs & _ & Hout)|(t0 & _ & _ & ->)].
  { destruct Hout. by exists t. }
  unfold finalDb. simpl. split; [done|].
  intros w' cid u text.
  set (db' := withTasks (delete tid (tasks db)) db).
  assert (¬ taskInWorkspace db' tid w') as Hout.
  { intros (t1 & Ht1 & _). subst db'. simpl in Ht1.
    by rewrite lookup_delete_eq in Ht1. }
  split_and!.
  - unfold getTaskClarificationsService.
    rewrite bind_run, verifyTaskBelongsToWorkspace_outside by done. by eexists.
  - unfold createTaskClarificationService.
    rewrite bind_run, verifyTaskBelongsToWorkspace_outside by done. by eexists.
  - unfold respondToTaskClarificationService.
    rewrite bind_run, verifyTaskBelongsToWorkspace_outside by done. by eexists.
Qed.

(** ** Clarifications *)

Global Instance newestFirstClarification_total : Total newestFirstClarification.
Proof. intros a b. unfold newestFirstClarification. lia. Qed.

Global Instance newestFirstClarification_trans : Transitive newestFirstClarification.
Proof. intros a b c. unfold newestFirstClarification. lia. Qed.

(** X10. A response addressed to a clarification that does not exist, or
    that belongs to another task or workspace, fails as not-found even
    though the task itself is in the workspace, and no response is
    stored. *)
Theorem respond_foreign_clarification env w t cid u message db :
  taskInWorkspace db t w →
  (∀ c, clarifications db !! cid = Some c →
        TaskClarification.workspace c ≠ w ∨ TaskClarification.task c ≠ t) →
  respondToTaskClarificationService env w t cid u message db =
  (inl (NotFoundException "Clarification not found for this task"), db,
   [Task_findOne t; Clarification_findOneAndUpdate cid]).
Proof.
  intros (task & Ht & Hw) Hforeign.
  unfold respondToTaskClarificationService. rewrite bind_run.
  rewrite verifyTaskBelongsToWorkspace_run, Ht, bool_decide_true by done.
  rewrite bind_run. unfold TaskClarificationModel_findOneAndUpdate.
  destruct (clarifications db !! cid) as [c|] eqn:Hc; [|reflexivity].
  destruct (Hforeign c eq_refl) as [Hn|Hn].
  - by rewrite (bool_decide_false _ Hn).
  - rewrite (bool_decide_false (TaskClarification.task c = t)) by done.
    by rewrite andb_false_r.
Qed.

Lemma getTaskClarificationsService_run w t db :
  taskInWorkspace db t w →
  getTaskClarificationsService w t db =
  (inr (merge_sort newestFirstClarification (selectClarifications w t db)), db,
   [Task_findOne t; Clarification_find]).
Proof.
  intros (task & Ht & Hw). unfold getTaskClarificationsService. rewrite bind_run.
  by rewrite verifyTaskBelongsToWorkspace_run, Ht, bool_decide_true.
Qed.

Lemma elem_of_selectClarifications w t db id c :
  (id, c) ∈ selectClarifications w t db ↔
  clarifications db !! id = Some c
  ∧ TaskClarification.workspace c = w ∧ TaskClarification.task c = t.
Proof.
  unfold selectClarifications.
  rewrite list_elem_of_filter, elem_of_map_to_list. simpl. tauto.
Qed.

(** X11. For a task of the workspace, the clarification listing succeeds
    and holds, once each and newest first, exactly the stored
    clarifications of that task and workspace. *)
Theorem clarifications_listing w t db :
  taskInWorkspace db t w →
  ∃ cs, getTaskClarificationsService w t db =
        (inr cs, db, [Task_findOne t; Clarification_find])
        ∧ StronglySorted newestFirstClarification cs
        ∧ NoDup cs
        ∧ ∀ id c, (id, c) ∈ cs ↔
            clarifications db !! id = Some c
            ∧ TaskClarification.workspace c = w ∧ TaskClarification.task c = t.
Proof.
  intros Hin. rewrite getTaskClarificationsService_run by done.
  eexists. split; [reflexivity|].
  split; [apply StronglySorted_merge_sort; apply _|]. split.
  - rewrite merge_sort_Permutation. apply NoDup_filter, NoDup_map_to_list.
  - intros id c. rewrite merge_sort_Permutation.
    apply elem_of_selectClarifications.
Qed.

(** X12. Asking a question on a task of the workspace, with text that is
    not blank and a free id, stores a clarification with the trimmed
    question, the asking user and no response; the listing of that task
    then shows it, and shows every clarification it showed before. *)
Theorem ask_then_list env w t u question db :
  taskInWorkspace db t w → trim question ≠ "" →
  clarifications db !! freshId env = None →
  let c := TaskClarification.mk t w (trim question) u [] (now env) (now env) in
  let db' := finalDb (createTaskClarificationService env w t u question db) in
  outcome (createTaskClarificationService env w t u question db)
  = inr (freshId env, c)
  ∧ ∃ cs, outcome (getTaskClarificationsService w t db') = inr cs
          ∧ (freshId env, c) ∈ cs
          ∧ ∀ old, outcome (getTaskClarificationsService w t db) = inr old →
                   old ⊆ cs.
Proof.
  intros Hin Hq Hf c db'. subst db'.
  destruct (createTaskClarificationService_cases env w t u question db)
    as [(e & cs & Hrun)|(_ & _ & _ & Hrun)].
  { exfalso. revert Hrun. unfold createTaskClarificationService.
    rewrite bind_run, verifyTaskBelongsToWorkspace_run.
    destruct Hin as (task & -> & Hw). rewrite bool_decide_true by done.
    unfold TaskClarificationModel_create. rewrite Hf.
    destruct (trim question); done. }
  rewrite Hrun. fold c. split; [reflexivity|].
  unfold finalDb. simpl.
  set (db' := withClarifications (<[freshId env := c]> (clarifications db)) db).
  assert (taskInWorkspace db' t w) as Hin' by exact Hin.
  rewrite (getTaskClarificationsService_run _ _ _ Hin').
  eexists. split; [reflexivity|]. split.
  - rewrite merge_sort_Permutation. apply elem_of_selectClarifications.
    split; [apply lookup_insert_eq|done].
  - intros old. rewrite (getTaskClarificationsService_run _ _ _ Hin).
    intros [= <-] [id c0]. rewrite !merge_sort_Permutation.
    rewrite !elem_of_selectClarifications. intros (Hc0 & ? & ?).
    split; [|done]. simpl. rewrite lookup_insert_ne; [done|]. congruence.
Qed.

(** X13. After a successful response the listing of the task shows the
    clarification with the new response as the last one of its list. *)
Theorem respond_then_list env w t cid u message db c :
  taskInWorkspace db t w → clarifications db !! cid = Some c →
  TaskClarification.workspace c = w → TaskClarification.task c = t →
  let db' := finalDb (respondToTaskClarificationService env w t cid u message db) in
  ∃ cs c', outcome (getTaskClarificationsService w t db') = inr cs
           ∧ (cid, c') ∈ cs
           ∧ last (TaskClarification.responses c')
             = Some (ClarificationResponse.mk (trim message) u (now env))
           ∧ length (TaskClarification.responses c')
             = S (length (TaskClarification.responses c)).
Proof.
  intros Hin Hc Hw Ht db'. subst db'.
  rewrite (respondToTaskClarificationService_run _ _ _ _ _ _ _ c) by done.
  unfold finalDb. simpl.
  set (c' := pushResponse env _ c).
  set (db' := withClarifications (<[cid := c']> (clarifications db)) db).
  assert (taskInWorkspace db' t w) as Hin' by exact Hin.
  rewrite (getTaskClarificationsService_run _ _ _ Hin').
  exists (merge_sort newestFirstClarification (selectClarifications w t db')), c'.
  split; [reflexivity|]. split.
  - rewrite merge_sort_Permutation. apply elem_of_selectClarifications.
    split; [apply lookup_insert_eq|done].
  - subst c'. unfold pushResponse. simpl. split.
    + by rewrite last_snoc.
    + rewrite length_app. simpl. lia.
Qed.

(** ** Reading and listing tasks *)

(** X14. [getTaskByIdService] returns a task exactly when the project
    belongs to the workspace and the stored task with that id lies in
    that workspace and that project; every other outcome is a
    not-found error. *)
Theorem getTask_exactly w p tid db :
  (∀ t, outcome (getTaskByIdService w p tid db) = inr t ↔
        (∃ pr, projects db !! p = Some pr ∧ Project.workspace pr = w)
        ∧ tasks db !! tid = Some t
        ∧ Task.workspace t = w ∧ Task.project t = p)
  ∧ ∀ e, outcome (getTaskByIdService w p tid db) = inl e → isNotFound e = true.
Proof.
  rewrite getTaskByIdService_run. split.
  - intros t. split.
    + destruct (projects db !! p) as [pr|] eqn:Hp; [|done].
      destruct (decide _) as [Hw|]; [|done].
      destruct (tasks db !! tid) as [t0|]; [|done].
      destruct (decide _) as [[? ?]|]; [|done].
      intros [= <-]. split; [by exists pr|done].
    + intros ((pr & -> & Hw) & -> & Htw & Htp).
      rewrite decide_True by done. by rewrite decide_True.
  - intros e. repeat case_match; by intros [= <-].
Qed.

Lemma listing_page w filters pg db page :
  outcome (getAllTasksService w filters pg db) = inr page →
  ∃ P, compileQuery (buildQuery w filters) = inr P
       ∧ 0 ≤ (Pagination.pageNumber pg - 1) * Pagination.pageSize pg
       ∧ page = mkPage (pageSlice pg (merge_sort newestFirstTask (selectTasks P db)))
                  (Pagination.pageSize pg) (Pagination.pageNumber pg)
                  (Z.of_nat (length (selectTasks P db)))
                  (ceilDiv (Z.of_nat (length (selectTasks P db))) (Pagination.pageSize pg))
                  ((Pagination.pageNumber pg - 1) * Pagination.pageSize pg).
Proof.
  rewrite getAllTasksService_run.
  destruct (compileQuery _) as [e|P]; [done|].
  destruct (_ <? 0) eqn:Hskip; [done|].
  intros [= <-]. exists P. split; [done|]. split; [by apply Z.ltb_ge|done].
Qed.

(** X15. A page never shows a task twice and never more tasks than the
    query matches; with a positive page size it shows at most that many;
    a page that starts at or after the total is empty; and the total does
    not depend on the page asked for. *)
Theorem listing_page_bounds w filters pg db page :
  outcome (getAllTasksService w filters pg db) = inr page →
  0 ≤ page_skip page
  ∧ NoDup (page_tasks page)
  ∧ Z.of_nat (length (page_tasks page)) ≤ page_totalCount page
  ∧ (0 < Pagination.pageSize pg →
     Z.of_nat (length (page_tasks page)) ≤ Pagination.pageSize pg)
  ∧ (page_totalCount page ≤ page_skip page → page_tasks page = [])
  ∧ ∀ pg' page', outcome (getAllTasksService w filters pg' db) = inr page' →
                 page_totalCount page' = page_totalCount page.
Proof.
  intros Hrun. destruct (listing_page _ _ _ _ _ Hrun) as (P & HP & Hskip & ->).
  simpl. set (sorted := merge_sort newestFirstTask (selectTasks P db)).
  assert (length sorted = length (selectTasks P db)) as Hlen.
  { subst sorted. by rewrite merge_sort_Permutation. }
  assert (NoDup sorted) as Hnd.
  { subst sorted. rewrite merge_sort_Permutation.
    apply NoDup_filter, NoDup_map_to_list. }
  split; [done|]. split.
  { unfold pageSlice, applyLimit. destruct (_ =? 0).
    - eapply sublist_NoDup; [done|apply sublist_drop].
    - eapply sublist_NoDup; [|apply sublist_take].
      eapply sublist_NoDup; [done|apply sublist_drop]. }
  split.
  { rewrite <- Hlen. unfold pageSlice, applyLimit. destruct (_ =? 0).
    - rewrite length_drop. lia.
    - rewrite length_take, length_drop. lia. }
  split.
  { intros Hpos. unfold pageSlice, applyLimit.
    rewrite (proj2 (Z.eqb_neq _ 0)) by lia. rewrite length_take. lia. }
  split.
  { intros Hpast. rewrite <- Hlen in Hpast. unfold pageSlice.
    rewrite drop_ge by lia. unfold applyLimit. destruct (_ =? 0); [done|].
    apply take_nil. }
  intros pg' page' Hrun'.
  destruct (listing_page _ _ _ _ _ Hrun') as (P' & HP' & _ & ->).
  simpl. congruence.
Qed.

(** X16. Every task a listing returns is a stored task of the requested
    workspace that satisfies each filter given: the project, one of the
    priorities, one of the assignees (a task without assignee never
    matches an assignee filter) and the exact due date. *)
Theorem listing_filters_sound w filters pg db page :
  outcome (getAllTasksService w filters pg db) = inr page →
  Forall (λ kt,
    tasks db !! kt.1 = Some kt.2
    ∧ Task.workspace kt.2 = w
    ∧ (∀ pid, Filters.projectId filters = Some pid → pid ≠ "" →
              Task.project kt.2 = pid)
    ∧ (∀ l, Filters.priority filters = Some l → l ≠ [] → Task.priority kt.2 ∈ l)
    ∧ (∀ l, Filters.assignedTo filters = Some l → l ≠ [] →
            ∃ a, Task.assignedTo kt.2 = Some a ∧ a ∈ l)
    ∧ (∀ d, Filters.dueDate filters = Some d → d ≠ "" →
            is_Some (dateValue d) ∧ Task.dueDate kt.2 = dateValue d))
    (page_tasks page).
Proof.
  intros Hrun. destruct (listing_page _ _ _ _ _ Hrun) as (P & HP & Hskip & ->).
  simpl. apply Forall_forall. intros [id t] Hin.
  apply pageSlice_subseteq in Hin. rewrite merge_sort_Permutation in Hin.
  apply list_elem_of_filter in Hin as [HPt Hin]. simpl in HPt.
  apply elem_of_map_to_list in Hin. simpl.
  assert (∃ re, P = matchesQuery (buildQuery w filters) re
                ∧ q_dueDate (buildQuery w filters) ≠ Some None) as (re & -> & Hdate).
  { unfold compileQuery in HP. repeat case_match; simplify_eq; eauto. }
  unfold matchesQuery, buildQuery in HPt, Hdate. simpl in HPt, Hdate.
  apply andb_true_iff in HPt as [HPt Hdue].
  apply andb_true_iff in HPt as [HPt _].
  apply andb_true_iff in HPt as [HPt Hassignee].
  apply andb_true_iff in HPt as [HPt Hpriority].
  apply andb_true_iff in HPt as [HPt _].
  apply andb_true_iff in HPt as [HPt Hproject].
  apply bool_decide_eq_true in HPt.
  split; [done|]. split; [done|]. split_and!.
  - intros pid Hp Hne. rewrite Hp in Hproject.
    destruct pid; [done|]. simpl in Hproject.
    by apply bool_decide_eq_true in Hproject.
  - intros l Hl Hne. rewrite Hl in Hpriority.
    rewrite bool_decide_true in Hpriority by (destruct l; simpl; [done|lia]).
    simpl in Hpriority. by apply bool_decide_eq_true in Hpriority.
  - intros l Hl Hne. rewrite Hl in Hassignee.
    rewrite bool_decide_true in Hassignee by (destruct l; simpl; [done|lia]).
    simpl in Hassignee. destruct (Task.assignedTo t) as [a|]; [|done].
    exists a. split; [done|]. by apply bool_decide_eq_true in Hassignee.
  - intros d Hd Hne. rewrite Hd in Hdue, Hdate.
    destruct d; [done|]. simpl in Hdue, Hdate.
    destruct (dateValue _) as [v|]; [|done].
    split; [by eexists|]. by apply bool_decide_eq_true in Hdue.
Qed.
End ServiceProperties.

(** * Strings *)

Section StringProperties.

Lemma list_of_rev_app s1 s2 :
  list_ascii_of_string (String.rev_app s1 s2)
  = rev (list_ascii_of_string s1) ++ list_ascii_of_string s2.
Proof.
  revert s2. induction s1 as [|a s1 IH]; intros s2; simpl; [done|].
  rewrite IH. simpl. by rewrite <- app_assoc.
Qed.

Lemma list_of_rev s :
  list_ascii_of_string (String.rev s) = rev (list_ascii_of_string s).
Proof. unfold String.rev. rewrite list_of_rev_app. simpl. apply app_nil_r. Qed.

Lemma list_of_string_inj s1 s2 :
  list_ascii_of_string s1 = list_ascii_of_string s2 → s1 = s2.
Proof.
  intros Heq. rewrite <- (string_of_list_ascii_of_string s1).
  rewrite <- (string_of_list_ascii_of_string s2). by rewrite Heq.
Qed.

Lemma list_of_app s1 s2 :
  list_ascii_of_string (s1 +:+ s2)
  = list_ascii_of_string s1 ++ list_ascii_of_string s2.
Proof. induction s1 as [|a s1 IH]; simpl; [done|]. by rewrite IH. Qed.

Lemma string_rev_involutive s : String.rev (String.rev s) = s.
Proof. apply list_of_string_inj. by rewrite !list_of_rev, rev_involutive. Qed.

Lemma string_rev_cons a s : String.rev (String a s) = String.rev s +:+ String a "".
Proof.
  apply list_of_string_inj. rewrite list_of_app, !list_of_rev. done.
Qed.

Lemma string_rev_snoc a s : String.rev (s +:+ String a "") = String a (String.rev s).
Proof.
  apply list_of_string_inj. simpl. rewrite !list_of_rev, list_of_app. simpl.
  by rewrite rev_app_distr.
Qed.

(** A string that [trimStart] leaves alone: empty, or starting with a
    character that is no white space. *)
Lemma trimStart_fixed s :
  trimStart s = s ↔
  match s with String c _ => isWhiteSpace c = false | EmptyString => True end.
Proof.
  destruct s as [|c s]; simpl; [done|].
  destruct (isWhiteSpace c) eqn:Hc; [|done].
  split; [|done]. intros Heq. exfalso.
  assert (∀ x, String.length (trimStart x) ≤ String.length x)%nat as Hle.
  { clear. induction x as [|a x IH]; simpl; [done|].
    destruct (isWhiteSpace a); simpl; lia. }
  pose proof (Hle s) as Hs. rewrite Heq in Hs. simpl in Hs. lia.
Qed.

Lemma trimStart_idemp s : trimStart (trimStart s) = trimStart s.
Proof.
  induction s as [|c s IH]; simpl; [done|].
  destruct (isWhiteSpace c) eqn:Hc; [done|]. simpl. by rewrite Hc.
Qed.

Lemma trimStart_snoc s c :
  isWhiteSpace c = false →
  ∃ s', trimStart (s +:+ String c "") = s' +:+ String c "".
Proof.
  intros Hc. induction s as [|a s IH]; simpl.
  - rewrite Hc. by exists "".
  - destruct (isWhiteSpace a); [done|]. by exists (String a s).
Qed.

(** [trim] is idempotent: what the schemas and the store trim once stays
    as it is when trimmed again. *)
Lemma trim_idemp s : trim (trim s) = trim s.
Proof.
  unfold trim. set (x := trimStart s).
  assert (trimStart x = x) as Hx by apply trimStart_idemp.
  set (y := String.rev (trimStart (String.rev x))).
  assert (trimStart (String.rev y) = String.rev y) as Hend.
  { subst y. rewrite string_rev_involutive. apply trimStart_idemp. }
  assert (trimStart y = y) as Hstart.
  { apply trimStart_fixed. apply trimStart_fixed in Hx.
    destruct x as [|c x']; [done|].
    subst y. rewrite string_rev_cons.
    destruct (trimStart_snoc (String.rev x') c Hx) as [s' ->].
    by rewrite string_rev_snoc. }
  by rewrite Hstart, Hend, string_rev_involutive.
Qed.

Lemma splitComma_go_app cur s r :
  ","%char ∉ list_ascii_of_string s →
  splitComma_go cur (s +:+ r) = splitComma_go (String.rev_app s cur) r.
Proof.
  revert cur. induction s as [|a s IH]; intros cur Hs; simpl; [done|].
  simpl in Hs. apply not_elem_of_cons in Hs as [Ha Hs].
  rewrite decide_False by done. by apply IH.
Qed.

Lemma rev_rev_app s cur : String.rev (String.rev_app s cur) = String.rev cur +:+ s.
Proof.
  apply list_of_string_inj.
  rewrite list_of_rev, list_of_rev_app, list_of_app, list_of_rev.
  by rewrite rev_app_distr, rev_involutive.
Qed.

Lemma string_app_nil_r s : s +:+ "" = s.
Proof.
  apply list_of_string_inj. rewrite list_of_app. simpl. apply app_nil_r.
Qed.

Lemma splitComma_concat l :
  l ≠ [] → Forall (λ s, ","%char ∉ list_ascii_of_string s) l →
  splitComma (String.concat "," l) = l.
Proof.
  intros Hne Hl. unfold splitComma.
  induction l as [|s l IH]; [done|].
  apply Forall_cons in Hl as [Hs Hl].
  destruct l as [|s' l].
  - simpl. rewrite <- (string_app_nil_r s) at 1.
    rewrite splitComma_go_app by done. simpl.
    by rewrite rev_rev_app.
  - change (String.concat "," (s :: s' :: l))
      with (s +:+ String "," (String.concat "," (s' :: l))).
    rewrite splitComma_go_app by done. cbn [splitComma_go].
    rewrite decide_True by done. rewrite rev_rev_app. simpl.
    f_equal. by apply IH.
Qed.
End StringProperties.

(** * Validated bodies *)

Section ValidationProperties.
Context `{Externals} `{TaskEnums}.

Lemma zStringTrim_inr checks v s :
  zStringTrim checks v = inr s →
  ∃ raw, v = Some (JString raw) ∧ s = trim raw ∧ checks s = [] ∧ trim s = s.
Proof.
  unfold zStringTrim. destruct v as [[|raw|]|]; try done.
  destruct (checks (trim raw)) eqn:Hc; [|done].
  intros [= <-]. exists raw. by rewrite trim_idemp.
Qed.

Lemma zStringTrim_trimmed checks s :
  trim s = s → checks s = [] → zStringTrim checks (Some (JString s)) = inr s.
Proof. intros Ht Hc. unfold zStringTrim. by rewrite Ht, Hc. Qed.

Lemma checkMin_nil n s : checkMin n s = [] ↔ (n ≤ String.length s)%nat.
Proof.
  unfold checkMin. destruct (_ <? _)%nat eqn:E.
  - apply Nat.ltb_lt in E. split; [done|lia].
  - apply Nat.ltb_ge in E. done.
Qed.

Lemma checkMax_nil n s : checkMax n s = [] ↔ (String.length s ≤ n)%nat.
Proof.
  unfold checkMax. destruct (_ <? _)%nat eqn:E.
  - apply Nat.ltb_lt in E. split; [done|lia].
  - apply Nat.ltb_ge in E. done.
Qed.

Lemma atKey_inr {A} key (r : Parsed A) a : atKey key r = inr a ↔ r = inr a.
Proof. destruct r; simpl; split; congruence. Qed.

Lemma zEnum_inr values v s :
  zEnum values v = inr s ↔ v = Some (JString s) ∧ s ∈ values.
Proof.
  unfold zEnum. destruct v as [[|raw|]|]; try (split; [done|by intros [[=] _]]).
  case_bool_decide as Hin.
  - split; [by intros [= <-]|by intros [[= <-] _]].
  - split; [done|]. intros [[= <-] ?]. done.
Qed.

Lemma string_length_pos s : (1 ≤ String.length s)%nat ↔ s ≠ "".
Proof. destruct s; simpl; split; try done; lia. Qed.

Lemma dueDateSchema_inr v o :
  dueDateSchema v = inr o →
  (v = None ∧ o = None)
  ∨ ∃ raw, v = Some (JString raw) ∧ o = Some (trim raw)
           ∧ (trim raw = "" ∨ is_Some (dateValue (trim raw))).
Proof.
  unfold dueDateSchema, zOptional. destruct v as [j|]; [|intros [= <-]; by left].
  destruct (zStringTrim _ (Some j)) as [e|s] eqn:Hs; [done|].
  apply zStringTrim_inr in Hs as (raw & [= ->] & -> & _ & _). simpl.
  destruct (truthy (trim raw)) eqn:Ht; simpl.
  - case_bool_decide as Hd; [|done]. intros [= <-]. right. exists raw. auto.
  - intros [= <-]. right. exists raw. split_and!; try done.
    left. by destruct (trim raw).
Qed.

Lemma assignedToSchema_inr v o :
  assignedToSchema v = inr o →
  (v = None ∧ o = None) ∨ (v = Some JNull ∧ o = Some None)
  ∨ ∃ a, v = Some (JString a) ∧ o = Some (Some (trim a)) ∧ trim a ≠ "".
Proof.
  unfold assignedToSchema, zOptional, zNullable.
  destruct v as [j|]; [|intros [= <-]; by left].
  destruct (decide (j = JNull)) as [->|Hj]; [intros [= <-]; right; by left|].
  destruct (zStringTrim (checkMin 1) (Some j)) as [e|s] eqn:Hs;
    [by destruct j|].
  apply zStringTrim_inr in Hs as (raw & [= ->] & -> & Hmin & _).
  simpl. intros [= <-].
  right; right. exists raw. split_and!; try done.
  by apply string_length_pos, checkMin_nil.
Qed.

Lemma updateTaskSchema_inr raw p :
  updateTaskSchema raw = inr p →
  ∃ t d pr s a due,
    zOptional titleSchema (raw !! "title") = inr t
    ∧ zOptional descriptionSchema (raw !! "description") = inr d
    ∧ zOptional prioritySchema (raw !! "priority") = inr pr
    ∧ zOptional statusSchema (raw !! "status") = inr s
    ∧ zOptional assignedToSchema (raw !! "assignedTo") = inr a
    ∧ zOptional dueDateSchema (raw !! "dueDate") = inr due
    ∧ p = UpdateTaskPayload.mk t (mjoin d) pr s (assigneeField (mjoin a)) (mjoin due).
Proof.
  unfold updateTaskSchema.
  destruct (zOptional titleSchema _) as [?|t]; simpl;
  destruct (zOptional descriptionSchema _) as [?|d]; simpl;
  destruct (zOptional prioritySchema _) as [?|pr]; simpl;
  destruct (zOptional statusSchema _) as [?|s]; simpl;
  destruct (zOptional assignedToSchema _) as [?|a]; simpl;
  destruct (zOptional dueDateSchema _) as [?|due]; simpl; try done.
  intros [= <-]. by exists t, d, pr, s, a, due.
Qed.

Lemma zOptional_inr {A} (schema : option Json → Parsed A) v o :
  zOptional schema v = inr o →
  (v = None ∧ o = None) ∨ (∃ a, is_Some v ∧ schema v = inr a ∧ o = Some a).
Proof.
  unfold zOptional. destruct v as [j|]; [|intros [= <-]; by left].
  destruct (schema (Some j)) as [e|a]; [done|]. intros [= <-].
  right. exists a. by split; [eexists|].
Qed.

(** X17. What a body accepted by [updateTaskSchema] looks like: a title
    is trimmed and holds 1 to 255 characters; status and priority are
    values of their enumerations; [assignedTo] is missing, [null], or a
    trimmed string that is not empty (the empty string and a blank one are
    refused, so an assignee can only be cleared with [null]); and a due
    date is trimmed and is empty or a text that [Date.parse] reads. *)
Theorem validated_update_body raw p :
  updateTaskSchema raw = inr p →
  (∀ t, UpdateTaskPayload.title p = Some t →
        trim t = t ∧ (1 ≤ String.length t ≤ 255)%nat)
  ∧ (∀ s, UpdateTaskPayload.status p = Some s → s ∈ TaskStatusEnum_values)
  ∧ (∀ s, UpdateTaskPayload.priority p = Some s → s ∈ TaskPriorityEnum_values)
  ∧ (UpdateTaskPayload.assignedTo p = Absent
     ∨ UpdateTaskPayload.assignedTo p = Present JsNull
     ∨ ∃ a, UpdateTaskPayload.assignedTo p = Present (JsString a)
            ∧ a ≠ "" ∧ trim a = a)
  ∧ ∀ d, UpdateTaskPayload.dueDate p = Some d →
         trim d = d ∧ (d = "" ∨ is_Some (dateValue d)).
Proof.
  intros (t & d & pr & s & a & due & Ht & Hd & Hpr & Hs & Ha & Hdue & ->)
    %updateTaskSchema_inr.
  simpl. split_and!.
  - intros t' ->. apply zOptional_inr in Ht as [[_ [=]]|(t0 & _ & Ht & [= <-])].
    apply zStringTrim_inr in Ht as (raw0 & _ & -> & Hc & Htrim).
    apply app_eq_nil in Hc as [Hmin%checkMin_nil Hmax%checkMax_nil].
    by rewrite trim_idemp.
  - intros s' ->. apply zOptional_inr in Hs as [[_ [=]]|(s0 & _ & Hs & [= <-])].
    by apply zEnum_inr in Hs as [_ ?].
  - intros s' ->. apply zOptional_inr in Hpr as [[_ [=]]|(s0 & _ & Hpr & [= <-])].
    by apply zEnum_inr in Hpr as [_ ?].
  - apply zOptional_inr in Ha as [[_ ->]|(a0 & _ & Ha & ->)]; [by left|].
    apply assignedToSchema_inr in Ha as [[_ ->]|[[_ ->]|(x & _ & -> & Hx)]];
      simpl; [by left|right; by left|].
    right; right. exists (trim x). by rewrite trim_idemp.
  - intros d' Hd'.
    apply zOptional_inr in Hdue as [[_ ->]|(d0 & _ & Hdue & ->)]; [done|].
    simpl in Hd'.
    apply dueDateSchema_inr in Hdue as [[_ ->]|(r0 & _ & -> & Hr)]; [done|].
    injection Hd' as <-. by rewrite trim_idemp.
Qed.

Lemma putKey_lookup key v body k :
  putKey key v body !! k = if decide (key = k) then
                             match v with Some j => Some j | None => body !! k end
                           else body !! k.
Proof.
  unfold putKey. destruct v as [j|]; [|by destruct (decide _)].
  apply lookup_insert.
Qed.

Lemma jsonOfUpdate_lookup p :
  jsonOfUpdate p !! "title" = jsonOfOpt (UpdateTaskPayload.title p)
  ∧ jsonOfUpdate p !! "description" = jsonOfOpt (UpdateTaskPayload.description p)
  ∧ jsonOfUpdate p !! "priority" = jsonOfOpt (UpdateTaskPayload.priority p)
  ∧ jsonOfUpdate p !! "status" = jsonOfOpt (UpdateTaskPayload.status p)
  ∧ jsonOfUpdate p !! "assignedTo" = jsonOfAssignee (UpdateTaskPayload.assignedTo p)
  ∧ jsonOfUpdate p !! "dueDate" = jsonOfOpt (UpdateTaskPayload.dueDate p).
Proof.
  unfold jsonOfUpdate. rewrite !putKey_lookup. simpl.
  destruct (UpdateTaskPayload.title p), (UpdateTaskPayload.description p),
    (UpdateTaskPayload.priority p), (UpdateTaskPayload.status p),
    (UpdateTaskPayload.assignedTo p) as [|[| |?]], (UpdateTaskPayload.dueDate p);
    done.
Qed.

Lemma zStringTrim_reparse checks v s :
  zStringTrim checks v = inr s → zStringTrim checks (Some (JString s)) = inr s.
Proof.
  intros (raw & _ & -> & Hc & Ht)%zStringTrim_inr.
  by apply zStringTrim_trimmed.
Qed.

Lemma zOptional_string_reparse checks v o :
  zOptional (zStringTrim checks) v = inr o →
  zOptional (zStringTrim checks) (jsonOfOpt o) = inr o.
Proof.
  intros [[_ ->]|(s & _ & Hs & ->)]%zOptional_inr; [done|].
  change (sum_map id Some (zStringTrim checks (Some (JString s))) = inr (Some s)).
  by rewrite (zStringTrim_reparse _ _ _ Hs).
Qed.

Lemma zOptional_enum_reparse values v o :
  zOptional (zEnum values) v = inr o →
  zOptional (zEnum values) (jsonOfOpt o) = inr o.
Proof.
  intros [[_ ->]|(s & _ & Hs & ->)]%zOptional_inr; [done|].
  apply zEnum_inr in Hs as [_ Hin].
  unfold jsonOfOpt, zOptional, zEnum. simpl. by rewrite bool_decide_true.
Qed.

Lemma description_reparse v d :
  zOptional descriptionSchema v = inr d →
  zOptional descriptionSchema (jsonOfOpt (mjoin d)) = inr (Some (mjoin d))
  ∨ (mjoin d = None ∧ zOptional descriptionSchema (jsonOfOpt (mjoin d)) = inr None).
Proof.
  intros [[_ ->]|(d0 & _ & Hd & ->)]%zOptional_inr; [by right|].
  apply zOptional_inr in Hd as [[_ ->]|(s & _ & Hs & ->)]; [by right|].
  left.
  change (sum_map id Some (sum_map id Some
            (zStringTrim (λ _, []) (Some (JString s)))) = inr (Some (Some s))).
  by rewrite (zStringTrim_reparse _ _ _ Hs).
Qed.

Lemma assignedTo_reparse v a :
  zOptional assignedToSchema v = inr a →
  zOptional assignedToSchema (jsonOfAssignee (assigneeField (mjoin a)))
  = inr (Some (mjoin a))
  ∨ (mjoin a = None
     ∧ zOptional assignedToSchema (jsonOfAssignee (assigneeField (mjoin a)))
       = inr None).
Proof.
  intros [[_ ->]|(x & _ & Ha & ->)]%zOptional_inr; [by right|]. simpl.
  apply assignedToSchema_inr in Ha as [[_ ->]|[[_ ->]|(y & _ & -> & Hy)]].
  - by right.
  - by left.
  - left.
    change (sum_map id Some (sum_map id Some (sum_map id Some
              (zStringTrim (checkMin 1) (Some (JString (trim y))))))
            = inr (Some (Some (Some (trim y))))).
    rewrite zStringTrim_trimmed; [done|apply trim_idemp|].
    by apply checkMin_nil, string_length_pos.
Qed.

Lemma dueDate_reparse v due :
  zOptional dueDateSchema v = inr due →
  zOptional dueDateSchema (jsonOfOpt (mjoin due)) = inr (Some (mjoin due))
  ∨ (mjoin due = None
     ∧ zOptional dueDateSchema (jsonOfOpt (mjoin due)) = inr None).
Proof.
  intros [[_ ->]|(x & _ & Hdue & ->)]%zOptional_inr; [by right|]. simpl.
  apply dueDateSchema_inr in Hdue as [[_ ->]|(y & _ & -> & Hy)]; [by right|].
  left.
  change (sum_map id Some (dueDateSchema (Some (JString (trim y))))
          = inr (Some (Some (trim y)))).
  unfold dueDateSchema.
  change (zOptional (zStringTrim (λ _, [])) (Some (JString (trim y))))
    with (sum_map id Some (zStringTrim (λ _, []) (Some (JString (trim y))))).
  rewrite zStringTrim_trimmed; [|apply trim_idemp|done].
  destruct Hy as [->|Hy]; [done|]. simpl.
  rewrite (bool_decide_true _ Hy). by rewrite orb_true_r.
Qed.

(** X19. Validation is idempotent: the JSON image of a body that
    [updateTaskSchema] produced is accepted again and parses to the very
    same body. *)
Theorem updateTaskSchema_idempotent raw p :
  updateTaskSchema raw = inr p → updateTaskSchema (jsonOfUpdate p) = inr p.
Proof.
  intros (t & d & pr & s & a & due & Ht & Hd & Hpr & Hs & Ha & Hdue & ->)
    %updateTaskSchema_inr.
  unfold updateTaskSchema.
  destruct (jsonOfUpdate_lookup
              (UpdateTaskPayload.mk t (mjoin d) pr s (assigneeField (mjoin a))
                 (mjoin due))) as (-> & -> & -> & -> & -> & ->).
  cbn [UpdateTaskPayload.title UpdateTaskPayload.description
       UpdateTaskPayload.priority UpdateTaskPayload.status
       UpdateTaskPayload.assignedTo UpdateTaskPayload.dueDate].
  unfold titleSchema, prioritySchema, statusSchema in *.
  rewrite (zOptional_string_reparse _ _ _ Ht).
  rewrite (zOptional_enum_reparse _ _ _ Hpr), (zOptional_enum_reparse _ _ _ Hs).
  destruct (description_reparse _ _ Hd) as [->|[Hdn ->]],
           (assignedTo_reparse _ _ Ha) as [->|[Han ->]],
           (dueDate_reparse _ _ Hdue) as [->|[Hduen ->]]; simpl;
    rewrite ?Hdn, ?Han, ?Hduen; reflexivity.
Qed.

Lemma createTaskSchema_inr raw p :
  createTaskSchema raw = inr p →
  ∃ t d pr s a due,
    titleSchema (raw !! "title") = inr t
    ∧ descriptionSchema (raw !! "description") = inr d
    ∧ prioritySchema (raw !! "priority") = inr pr
    ∧ statusSchema (raw !! "status") = inr s
    ∧ assignedToSchema (raw !! "assignedTo") = inr a
    ∧ dueDateSchema (raw !! "dueDate") = inr due
    ∧ p = CreateTaskPayload.mk t d pr s (assigneeField a) due.
Proof.
  unfold createTaskSchema.
  destruct (titleSchema _) as [?|t]; simpl;
  destruct (descriptionSchema _) as [?|d]; simpl;
  destruct (prioritySchema _) as [?|pr]; simpl;
  destruct (statusSchema _) as [?|s]; simpl;
  destruct (assignedToSchema _) as [?|a]; simpl;
  destruct (dueDateSchema _) as [?|due]; simpl; try done.
  intros [= <-]. by exists t, d, pr, s, a, due.
Qed.

(** X20. A creation whose body passed [createTaskSchema], when it
    succeeds, stores under the generated id a task of the request's
    workspace, project and creator whose title is the validated one,
    trimmed and of 1 to 255 characters, and whose assignee, if it has
    one, is a member of the workspace. *)
Theorem validated_create_outcomes raw body env w p u db id t :
  createTaskSchema raw = inr body →
  outcome (createTaskService env w p u body db) = inr (id, t) →
  id = freshId env
  ∧ tasks (finalDb (createTaskService env w p u body db)) !! id = Some t
  ∧ Task.title t = CreateTaskPayload.title body
  ∧ trim (Task.title t) = Task.title t
  ∧ (1 ≤ String.length (Task.title t) ≤ 255)%nat
  ∧ Task.workspace t = w ∧ Task.project t = p ∧ Task.createdBy t = u
  ∧ ∀ a, Task.assignedTo t = Some a → a ≠ "" ∧ Member.mk a w ∈ members db.
Proof.
  intros (t0 & d & pr & s & a & due & Ht & _ & _ & _ & _ & _ & ->)
    %createTaskSchema_inr Hout.
  destruct (createTaskService_cases env w p u
              (CreateTaskPayload.mk t0 d pr s (assigneeField a) due) db)
    as [(e' & cs & Hrun)|(pr0 & a0 & d0 & Hp & Hw & Ha0 & Hm & Hd0 & Hf)].
  { rewrite Hrun in Hout. done. }
  rewrite (createTaskService_success _ _ _ _ _ _ pr0 a0 d0) in Hout |- * by done.
  injection Hout as <- <-. unfold finalDb. simpl.
  rewrite lookup_insert_eq.
  apply zStringTrim_inr in Ht as (r0 & _ & -> & Hc & _).
  apply app_eq_nil in Hc as [?%checkMin_nil ?%checkMax_nil].
  split_and!; try done.
  - apply trim_idemp.
  - intros x ->. split; [|by apply Hm].
    revert Ha0. unfold castAssignee.
    destruct (assigneeValue _) as [| |y]; try done.
    destruct (truthy y) eqn:Hy; [|done]. intros [= <-]. by intros ->.
Qed.
End ValidationProperties.

Section ClarificationValidation.
Context `{Externals}.

Lemma clarificationText_inr lo hi key (raw : gmap string Json) q :
  atKey key (zStringTrim (λ s, checkMin lo s ++ checkMax hi s) (raw !! key)) = inr q →
  trim q = q ∧ (lo ≤ String.length q ≤ hi)%nat.
Proof.
  intros Hq%atKey_inr.
  apply zStringTrim_inr in Hq as (r0 & _ & -> & Hc & Ht).
  by apply app_eq_nil in Hc as [?%checkMin_nil ?%checkMax_nil].
Qed.

(** X21. A question that passed [createClarificationSchema] is trimmed
    and holds 5 to 1000 characters; asked on a task of the workspace with
    a free id it is stored exactly as validated, and the store's own
    check of the question never fails. *)
Theorem validated_question_stored raw q env w t u db :
  createClarificationSchema raw = inr q →
  taskInWorkspace db t w → clarifications db !! freshId env = None →
  (5 ≤ String.length q ≤ 1000)%nat
  ∧ ∃ c, createTaskClarificationService env w t u q db =
         (inr (freshId env, c),
          withClarifications (<[freshId env := c]> (clarifications db)) db,
          [Task_findOne t; Clarification_create (freshId env)])
         ∧ TaskClarification.question c = q
         ∧ TaskClarification.responses c = [].
Proof.
  intros [Htrim Hlen]%clarificationText_inr Hin Hf. split; [done|].
  destruct (createTaskClarificationService_cases env w t u q db)
    as [(e & cs & Hrun)|(_ & _ & _ & Hrun)].
  - exfalso. revert Hrun. unfold createTaskClarificationService.
    rewrite bind_run, verifyTaskBelongsToWorkspace_run.
    destruct Hin as (task & -> & Hw). rewrite bool_decide_true by done.
    unfold TaskClarificationModel_create. rewrite Hf, Htrim.
    destruct q; [simpl in Hlen; lia|done].
  - eexists. split; [exact Hrun|]. simpl. by rewrite Htrim.
Qed.

(** X22. A message that passed [respondClarificationSchema] is trimmed
    and holds 1 to 1000 characters; sent to a clarification of the task it
    becomes, exactly as validated, the last response of that
    clarification. *)
Theorem validated_response_stored raw m env w t cid u db c :
  respondClarificationSchema raw = inr m →
  taskInWorkspace db t w → clarifications db !! cid = Some c →
  TaskClarification.workspace c = w → TaskClarification.task c = t →
  (1 ≤ String.length m ≤ 1000)%nat
  ∧ ∃ c', outcome (respondToTaskClarificationService env w t cid u m db) = inr c'
          ∧ TaskClarification.responses c'
            = TaskClarification.responses c
              ++ [ClarificationResponse.mk m u (now env)].
Proof.
  intros [Htrim Hlen]%clarificationText_inr Hin Hc Hw Ht. split; [done|].
  rewrite (respondToTaskClarificationService_run _ _ _ _ _ _ _ c) by done.
  eexists. split; [reflexivity|]. simpl. by rewrite Htrim.
Qed.
End ClarificationValidation.


(** * The task editor against the server *)

Section ClientProperties.
Context `{Externals} `{TaskEnums} `{ClientExternals}.

Lemma clientIsOwnerOrAdmin_roles roleName :
  clientIsOwnerOrAdmin roleName = true ↔ roleName = Some "OWNER" ∨ roleName = Some "ADMIN".
Proof.
  unfold clientIsOwnerOrAdmin. rewrite orb_true_iff.
  by rewrite !bool_decide_eq_true.
Qed.

(** X23. The form of a user who is neither owner nor admin, against the
    server: when the user is the assignee of the task, submitting sends
    the status alone and the server accepts it, storing the task with the
    chosen status and nothing else changed; when the user is not the
    assignee, the form sends nothing, and the server would have refused
    any body as unauthorized. *)
Theorem form_member_submission db w p tid uid role roleName t values :
  resolves db w p tid t →
  role ≠ OWNER → role ≠ ADMIN → clientIsOwnerOrAdmin roleName = false →
  match onSubmit false (clientIsOwnerOrAdmin roleName)
          (clientIsTaskAssignee (Task.assignedTo t) (Some uid)) values with
  | Some payload =>
      updateTaskService w p tid uid role payload db =
      (inr (withStatus (FormValues.status values) t),
       withTasks (<[tid := withStatus (FormValues.status values) t]> (tasks db)) db,
       [Project_findById p; Task_findById tid; Task_findByIdAndUpdate tid])
  | None =>
      ∀ body, outcome (updateTaskService w p tid uid role body db)
              = inl (UnauthorizedException "You are not authorized to update this task")
  end.
Proof.
  intros Hres Ho Ha ->. unfold onSubmit, clientIsTaskAssignee.
  case_bool_decide as Hu; simpl.
  - rewrite (updateTaskService_resolved _ _ _ _ _ _ _ _ Hres).
    rewrite notOwnerOrAdmin, isTaskAssignedToUser_spec by done.
    rewrite (bool_decide_true (Task.assignedTo t = Some uid)) by done.
    cbn [negb andb]. simpl invalidFields. cbv zeta.
    rewrite bool_decide_false by (simpl; lia). cbn [andb].
    unfold buildUpdatePayload. rewrite bind_run. simpl.
    rewrite bind_run. unfold TaskModel_findByIdAndUpdate. simpl.
    destruct Hres as (_ & Ht & _). rewrite Ht. rewrite applyUpdate_status.
    reflexivity.
  - intros body.
    rewrite (updateTaskService_resolved _ _ _ _ _ _ _ _ Hres).
    rewrite notOwnerOrAdmin, isTaskAssignedToUser_spec by done.
    by rewrite (bool_decide_false (Task.assignedTo t = Some uid)).
Qed.


(** X25. The form's title rule against the server's: both trim, and both
    refuse an empty title, but the form has no upper bound. The server
    accepts exactly the titles the form accepts that hold at most 255
    characters once trimmed, and answers the longer ones with a single
    [too_big] issue. *)
Theorem form_title_against_server v :
  titleSchema v =
  match formTitleSchema v with
  | inr t => if (255 <? String.length t)%nat
             then inl [mkIssue [] too_big] else inr t
  | inl issues => inl issues
  end.
Proof.
  unfold titleSchema, formTitleSchema, zStringTrim.
  destruct v as [[|raw|]|]; try reflexivity.
  unfold checkMin, checkMax.
  destruct (String.length (trim raw) <? 1)%nat eqn:E1;
    destruct (255 <? String.length (trim raw))%nat eqn:E2; simpl;
    try rewrite E2; try reflexivity.
  apply Nat.ltb_lt in E1, E2. lia.
Qed.

Lemma handleAsk_Some question q :
  handleAsk question = Some q ↔ q = trim question ∧ (5 ≤ String.length q)%nat.
Proof.
  unfold handleAsk. cbv zeta.
  destruct (String.length (trim question) <? 5)%nat eqn:E.
  - apply Nat.ltb_lt in E. split; [done|]. intros [-> ?]. lia.
  - apply Nat.ltb_ge in E. split; [by intros [= <-]|]. by intros [-> _].
Qed.

Lemma clarificationText_accepts lo hi key text q :
  atKey key (zStringTrim (λ s, checkMin lo s ++ checkMax hi s)
               (({[ key := JString text ]} : gmap string Json) !! key)) = inr q
  ↔ q = trim text ∧ (lo ≤ String.length q ≤ hi)%nat.
Proof.
  rewrite lookup_singleton_eq, atKey_inr. unfold zStringTrim, checkMin, checkMax.
  destruct (String.length (trim text) <? lo)%nat eqn:E1;
    destruct (hi <? String.length (trim text))%nat eqn:E2; simpl.
  - apply Nat.ltb_lt in E1. split; [done|]. intros [-> ?]. lia.
  - apply Nat.ltb_lt in E1. split; [done|]. intros [-> ?]. lia.
  - apply Nat.ltb_lt in E2. split; [done|]. intros [-> ?]. lia.
  - apply Nat.ltb_ge in E1, E2. split; [by intros [= <-]|]. by intros [-> _].
Qed.

(** X26. The question box against the server. For any text, the
    server's schema accepts it as the question exactly when the box,
    given that text, sends a question and the question holds at most
    1000 characters; the question the server then works with is the one
    the box sends. And what the box sends is accepted as it is when it
    holds at most 1000 characters: the box never sends a question the
    server finds too short. *)
Theorem ask_against_server question q :
  (createClarificationSchema {[ "question" := JString question ]} = inr q
   ↔ handleAsk question = Some q ∧ (String.length q ≤ 1000)%nat)
  ∧ (handleAsk question = Some q → (String.length q ≤ 1000)%nat →
     createClarificationSchema {[ "question" := JString q ]} = inr q).
Proof.
  unfold createClarificationSchema. rewrite !clarificationText_accepts.
  rewrite handleAsk_Some. split; [intuition lia|].
  intros [-> Hlen] Hmax. by rewrite trim_idemp.
Qed.

Lemma truthy_length s : truthy s = true ↔ (1 ≤ String.length s)%nat.
Proof. destruct s; simpl; split; try done; lia. Qed.

Lemma handleRespond_Some answerDrafts clarificationId m :
  handleRespond answerDrafts clarificationId = Some m
  ↔ ∃ draft, answerDrafts !! clarificationId = Some draft
             ∧ m = trim draft ∧ (1 ≤ String.length m)%nat.
Proof.
  unfold handleRespond.
  destruct (answerDrafts !! clarificationId) as [draft|]; simpl.
  - destruct (truthy (trim draft)) eqn:Et.
    + apply truthy_length in Et. split.
      * intros [= <-]. by exists draft.
      * by intros (d & [= <-] & -> & _).
    + split; [done|]. intros (d & [= <-] & -> & Hlen).
      apply truthy_length in Hlen. congruence.
  - split; [done|]. by intros (d & [=] & _).
Qed.

(** X27. The answer box against the server. The server's schema accepts
    the draft of a clarification as the message exactly when the box
    sends a message for it and the message holds at most 1000
    characters; the message the server then works with is the one the
    box sends; and what the box sends is accepted as it is when it holds
    at most 1000 characters. *)
Theorem respond_against_server answerDrafts clarificationId draft m :
  answerDrafts !! clarificationId = Some draft →
  (respondClarificationSchema {[ "message" := JString draft ]} = inr m
   ↔ handleRespond answerDrafts clarificationId = Some m
     ∧ (String.length m ≤ 1000)%nat)
  ∧ (handleRespond answerDrafts clarificationId = Some m →
     (String.length m ≤ 1000)%nat →
     respondClarificationSchema {[ "message" := JString m ]} = inr m).
Proof.
  intros Hd. unfold respondClarificationSchema. rewrite !clarificationText_accepts.
  rewrite handleRespond_Some. split.
  - split.
    + intros [-> Hlen]. split; [|lia]. exists draft. split_and!; [done|done|lia].
    + intros [(d & Hd' & -> & Hmin) Hmax]. simplify_eq. split; [done|lia].
  - intros (d & _ & -> & Hmin) Hmax. by rewrite trim_idemp.
Qed.

(** X28. Once an answer has been accepted its draft is cleared: asking
    the box to respond again sends nothing until something is typed, what
    is typed is sent trimmed, and the drafts of the other clarifications
    are sent as before. *)
Theorem respond_clears_draft answerDrafts clarificationId :
  handleRespond (onRespondSuccess answerDrafts clarificationId) clarificationId = None
  ∧ (∀ value,
       handleRespond (onDraftChange (onRespondSuccess answerDrafts clarificationId)
                        clarificationId value) clarificationId
       = if truthy (trim value) then Some (trim value) else None)
  ∧ ∀ other, other ≠ clarificationId →
      handleRespond (onRespondSuccess answerDrafts clarificationId) other
      = handleRespond answerDrafts other.
Proof.
  unfold handleRespond, onRespondSuccess, onDraftChange. split_and!.
  - by rewrite lookup_insert_eq.
  - intros value. by rewrite lookup_insert_eq.
  - intros other Hne. by rewrite lookup_insert_ne.
Qed.
End ClientProperties.

(** * The query of a listing *)

Section QueryProperties.

Lemma string_app_assoc s1 s2 s3 : (s1 +:+ s2) +:+ s3 = s1 +:+ (s2 +:+ s3).
Proof.
  apply list_of_string_inj. rewrite !list_of_app. by rewrite app_assoc.
Qed.

Lemma concat_cons_nonempty s l :
  l ≠ [] → String.concat "," (s :: l) = s +:+ String "," (String.concat "," l).
Proof. by destruct l. Qed.

Lemma concat_splitComma_go cur s :
  String.concat "," (splitComma_go cur s) = String.rev cur +:+ s.
Proof.
  revert cur. induction s as [|c s IH]; intros cur; simpl.
  - by rewrite string_app_nil_r.
  - destruct (decide (c = ","%char)) as [->|Hc].
    + rewrite concat_cons_nonempty by apply splitComma_go_nonempty.
      by rewrite IH.
    + rewrite IH, string_rev_cons, string_app_assoc. done.
Qed.

Lemma splitComma_go_commafree cur s :
  ","%char ∉ list_ascii_of_string cur →
  Forall (λ x, ","%char ∉ list_ascii_of_string x) (splitComma_go cur s).
Proof.
  revert cur. induction s as [|c s IH]; intros cur Hcur; simpl.
  - constructor; [|done]. rewrite list_of_rev.
    by rewrite list_elem_of_In, <- in_rev, <- list_elem_of_In.
  - destruct (decide (c = ","%char)) as [->|Hc].
    + constructor.
      * rewrite list_of_rev. by rewrite list_elem_of_In, <- in_rev, <- list_elem_of_In.
      * apply IH. simpl. apply not_elem_of_nil.
    + apply IH. simpl. rewrite not_elem_of_cons. split; [congruence|done].
Qed.

Lemma splitParam_commaJoined v l : splitParam v = Some l ↔ commaJoined v l.
Proof.
  unfold splitParam, commaJoined. split.
  - destruct v as [s|]; [|done]. destruct (truthy s) eqn:Hs; [|done].
    intros [= <-]. exists s. split_and!; try done.
    + by destruct s.
    + unfold splitComma. by rewrite concat_splitComma_go.
    + apply splitComma_go_nonempty.
    + apply splitComma_go_commafree. simpl. apply not_elem_of_nil.
  - intros (s & -> & Hne & Hs & Hl & Hcf).
    destruct s as [|c s]; [done|]. simpl truthy. cbv iota.
    rewrite Hs. by rewrite splitComma_concat.
Qed.

(** X29. How the controller reads the list filters of a query: a filter
    is set to the list [l] exactly when the parameter is a text that is
    not empty and is [l] written with commas, no element of [l] holding a
    comma; so splitting and joining are inverse to each other, a decoded
    list is never empty, and an id or a status with a comma in it cannot
    be asked for. *)
Theorem query_lists_decoded q l :
  (Filters.status (filtersOf q) = Some l ↔ commaJoined (query_status q) l)
  ∧ (Filters.priority (filtersOf q) = Some l ↔ commaJoined (query_priority q) l)
  ∧ (Filters.assignedTo (filtersOf q) = Some l ↔ commaJoined (query_assignedTo q) l).
Proof. unfold filtersOf. simpl. split_and!; apply splitParam_commaJoined. Qed.
End QueryProperties.

(** * The routes *)

Section RouteProperties.

Lemma lower_empty s : lower s = "" → s = "".
Proof. by destruct s. Qed.

(** A path that matches a route is the route's length of segments, none
    of them empty, with at most a closing slash behind. *)
Lemma matchSegments_shape route path ps :
  Forall (λ seg, seg ≠ Word "") route →
  matchSegments route path = Some ps →
  ∃ path', Forall (λ s, s ≠ "") path' ∧ length path' = length route
           ∧ (path = path' ∨ path = path' ++ [""]).
Proof.
  revert path ps. induction route as [|seg route IH]; intros path ps Hw Hm.
  - destruct path as [|s [|s2 path]]; simpl in Hm; try done.
    + exists []. by split_and!; [constructor| |left].
    + destruct s; [|done]. exists []. by split_and!; [constructor| |right].
  - apply Forall_cons in Hw as [Hseg Hw].
    destruct path as [|s path]; [by destruct seg|].
    assert (s ≠ "" ∧ ∃ ps', matchSegments route path = Some ps') as [Hs [ps' Hm']].
    { destruct seg as [w|name]; simpl in Hm.
      - case_bool_decide as Hl; [|done]. split; [|by eexists].
        intros ->. simpl in Hl. apply lower_empty in Hl. by subst w.
      - destruct (truthy s) eqn:Ht; [|done]. split; [by intros ->|].
        destruct (matchSegments route path); [by eexists|done]. }
    destruct (IH _ _ Hw Hm') as (path' & Hne & Hlen & Hp).
    exists (s :: path'). split_and!.
    + by constructor.
    + simpl. by rewrite Hlen.
    + destruct Hp as [->| ->]; [by left|by right].
Qed.

(** The parameters of a match are those of the route, in its order, and
    none of them is empty. *)
Lemma matchSegments_params route path ps :
  matchSegments route path = Some ps →
  ps.*1 = omap (λ seg, match seg with Param name => Some name | Word _ => None end) route
  ∧ Forall (λ kv, kv.2 ≠ "") ps.
Proof.
  revert path ps. induction route as [|seg route IH]; intros path ps Hm.
  - destruct path as [|s [|s2 path]]; simpl in Hm; try done.
    + by injection Hm as <-.
    + destruct s; [|done]. by injection Hm as <-.
  - destruct path as [|s path]; [by destruct seg|].
    destruct seg as [w|name]; simpl in Hm.
    + case_bool_decide; [|done]. by apply IH in Hm.
    + destruct (truthy s) eqn:Ht; [|done].
      destruct (matchSegments route path) as [ps'|] eqn:Hm'; [|done].
      injection Hm as <-. destruct (IH _ _ Hm') as [Hk Hv].
      split; [by rewrite fmap_cons, Hk|]. constructor; [|done]. simpl. by intros ->.
Qed.

Lemma dispatchIn_Some routes m path c ps :
  dispatchIn routes m path = Some (c, ps) →
  ∃ route, (m, route, c) ∈ routes ∧ matchSegments route path = Some ps.
Proof.
  induction routes as [|[[m' route] c'] routes IH]; simpl; [done|].
  case_bool_decide as Hm.
  - destruct (matchSegments route path) as [ps'|] eqn:Hr.
    + intros [= <- <-]. subst m'. exists route. split; [left|done].
    + intros (r & Hin & Hr')%IH. exists r. split; [by right|done].
  - intros (r & Hin & Hr')%IH. exists r. split; [by right|done].
Qed.

Lemma matched_length route1 route2 path ps1 ps2 :
  Forall (λ seg, seg ≠ Word "") route1 → Forall (λ seg, seg ≠ Word "") route2 →
  matchSegments route1 path = Some ps1 → matchSegments route2 path = Some ps2 →
  length route1 = length route2.
Proof.
  intros Hw1 Hw2 H1 H2.
  destruct (matchSegments_shape _ _ _ Hw1 H1) as (p1 & Hn1 & <- & Hp1).
  destruct (matchSegments_shape _ _ _ Hw2 H2) as (p2 & Hn2 & <- & Hp2).
  destruct Hp1 as [->| ->], Hp2 as [E|E].
  - by subst.
  - subst p1. apply Forall_app in Hn1 as [_ Hn1]. by inversion Hn1.
  - subst p2. apply Forall_app in Hn2 as [_ Hn2]. by inversion Hn2.
  - by apply app_inv_tail in E as ->.
Qed.

Lemma taskRoutes_words :
  Forall (λ r, Forall (λ seg, seg ≠ Word "") r.1.2) taskRoutes.
Proof. unfold taskRoutes. repeat constructor; simpl; discriminate. Qed.

(** X30. Every request the router hands on is scoped to a workspace and
    had a single candidate: the parameters bind [workspaceId] to a value
    that is not empty, and no other route of the same method matches the
    path, so the order in which the routes are registered decides
    nothing. *)
Theorem dispatch_scoped_and_unique m path c params :
  dispatch m path = Some (c, params) →
  (∃ w, ("workspaceId", w) ∈ params ∧ w ≠ "")
  ∧ ∀ route c', (m, route, c') ∈ taskRoutes →
                is_Some (matchSegments route path) → c' = c.
Proof.
  intros (route & Hin & Hm)%dispatchIn_Some.
  pose proof taskRoutes_words as Hwords. rewrite Forall_forall in Hwords.
  split.
  - destruct (matchSegments_params _ _ _ Hm) as [Hk Hv].
    assert ("workspaceId" ∈ params.*1) as Hw.
    { rewrite Hk. clear -Hin. unfold taskRoutes in Hin.
      set_unfold. destruct_or!; simplify_eq; simpl; set_solver. }
    apply list_elem_of_fmap in Hw as ([k w] & Hkw & Hw). simpl in Hkw. subst k.
    exists w. split; [done|].
    rewrite Forall_forall in Hv. exact (Hv _ Hw).
  - intros route' c' Hin' [ps' Hm'].
    assert (length route' = length route) as Hlen.
    { eapply matched_length; [| |exact Hm'|exact Hm].
      - exact (Hwords _ Hin').
      - exact (Hwords _ Hin). }
    clear -Hin Hin' Hlen. unfold taskRoutes in *.
    set_unfold. destruct_or!; simplify_eq; done.
Qed.
End RouteProperties.

(** * The properties at sample data *)

Section PropertySamples.
Local Existing Instance referenceExternals.
Local Existing Instance sampleEnums.
Local Existing Instance sampleClient.

(** The schemas on white space and letters beyond ASCII: a title that is
    one no-break space is too small, a title of 200 letters U+00E9 is
    accepted as it is, and a question of a no-break space and three
    letters is too small once trimmed. *)
Example schemas_beyond_ascii :
  titleSchema (Some (JString (String (ascii_of_N 160) "")))
  = inl [mkIssue [] too_small]
  ∧ titleSchema
      (Some (JString (String.concat "" (replicate 200 (String (ascii_of_N 233) "")))))
    = inr (String.concat "" (replicate 200 (String (ascii_of_N 233) "")))
  ∧ createClarificationSchema
      {[ "question" := JString (String (ascii_of_N 160) "abc") ]}
    = inl [mkIssue ["question"] too_small].
Proof. repeat split; vm_compute; reflexivity. Qed.

(** The client's rendering of a date is read back by the reference
    instance, as a date and by the schema's cast. *)
Example toISOString_samples :
  toISOString 1709251200000 = "2024-03-01T00:00:00.000Z"
  ∧ toISOString 951868799999 = "2000-02-29T23:59:59.999Z"
  ∧ dateValue (toISOString 951868799999) = Some 951868799999
  ∧ schemaDate (toISOString 1709251200000) = Some 1709251200000
  ∧ schemaDate "1709251200000" = Some 1709251200000
  ∧ dateValue "1709251200000" = None.
Proof. repeat split; vm_compute; reflexivity. Qed.

Lemma failed_request_writes_nothing_witness :
  outcome (handle sampleEnv (UpdateTask "w1" "p1" "t1" "carol" MEMBER statusBody)
      sampleDb) = inl (UnauthorizedException "You are not authorized to update this task")
  ∧ (finalDb (handle sampleEnv (UpdateTask "w1" "p1" "t1" "carol" MEMBER statusBody)
      sampleDb) = sampleDb).
Proof.
  assert (outcome (handle sampleEnv (UpdateTask "w1" "p1" "t1" "carol" MEMBER statusBody)
      sampleDb) = inl (UnauthorizedException
      "You are not authorized to update this task")) as h1
    by (vm_compute; reflexivity).
  split; [exact h1|].
  exact (failed_request_writes_nothing sampleEnv
           (UpdateTask "w1" "p1" "t1" "carol" MEMBER statusBody) sampleDb
           (UnauthorizedException "You are not authorized to update this task") h1).
Defined.

Lemma createTask_then_get_witness :
  projects sampleDb !! "p1" = Some (Project.mk "w1")
  ∧ Project.workspace (Project.mk "w1") = "w1"
  ∧ castAssignee (assigneeValue (CreateTaskPayload.assignedTo sampleCreateBody)) = inr
      (Some "bob")
  ∧ (∀ x, (Some "bob") = Some x → Member.mk x "w1" ∈ members sampleDb)
  ∧ castOptDate (CreateTaskPayload.dueDate sampleCreateBody) = inr (Some 1709251200000)
  ∧ tasks sampleDb !! freshId sampleEnv = None
  ∧ (∃ t, outcome (createTaskService sampleEnv "w1" "p1" "alice" sampleCreateBody
      sampleDb) = inr (freshId sampleEnv, t)
    ∧ t = Task.mk (CreateTaskPayload.title sampleCreateBody)
        (CreateTaskPayload.description sampleCreateBody)
    (if truthy (CreateTaskPayload.priority sampleCreateBody)
    then CreateTaskPayload.priority sampleCreateBody else "MEDIUM")
    (if truthy (CreateTaskPayload.status sampleCreateBody)
    then CreateTaskPayload.status sampleCreateBody else "TODO")
    (Some "bob") "alice" "w1" "p1" (Some 1709251200000) (now sampleEnv)
    ∧ outcome (getTaskByIdService "w1" "p1" (freshId sampleEnv)
    (finalDb (createTaskService sampleEnv "w1" "p1" "alice" sampleCreateBody sampleDb))) =
        inr t).
Proof.
  assert (projects sampleDb !! "p1" = Some (Project.mk "w1")) as h1
    by (reflexivity).
  assert (Project.workspace (Project.mk "w1") = "w1") as h2
    by (reflexivity).
  assert (castAssignee (assigneeValue (CreateTaskPayload.assignedTo sampleCreateBody)) =
      inr (Some "bob")) as h3
    by (reflexivity).
  assert ((∀ x, (Some "bob") = Some x → Member.mk x "w1" ∈ members sampleDb)) as h4
    by (intros x [= <-]; right; left).
  assert (castOptDate (CreateTaskPayload.dueDate sampleCreateBody) = inr (Some
      1709251200000)) as h5
    by (reflexivity).
  assert (tasks sampleDb !! freshId sampleEnv = None) as h6
    by (reflexivity).
  split; [exact h1|].
  split; [exact h2|].
  split; [exact h3|].
  split; [exact h4|].
  split; [exact h5|].
  split; [exact h6|].
  exact (createTask_then_get sampleEnv "w1" "p1" "alice" sampleCreateBody sampleDb
           (Project.mk "w1") (Some "bob") (Some 1709251200000) h1 h2 h3 h4 h5 h6).
Defined.

Lemma updateTask_member_changes_status_only_witness :
  MEMBER ≠ OWNER
  ∧ MEMBER ≠ ADMIN
  ∧ tasks sampleDb !! "t1" = Some sampleTask1
  ∧ (∃ s, tasks (finalDb (updateTaskService "w1" "p1" "t1" "bob" MEMBER titleBody
      sampleDb)) !! "t1"
    = Some (withStatus s sampleTask1)).
Proof.
  assert (MEMBER ≠ OWNER) as h1
    by (discriminate).
  assert (MEMBER ≠ ADMIN) as h2
    by (discriminate).
  assert (tasks sampleDb !! "t1" = Some sampleTask1) as h3
    by (reflexivity).
  split; [exact h1|].
  split; [exact h2|].
  split; [exact h3|].
  exact (updateTask_member_changes_status_only "w1" "p1" "t1" "bob" MEMBER titleBody
           sampleDb sampleTask1 h1 h2 h3).
Defined.

Lemma updateTask_idempotent_witness :
  updateTaskService "w1" "p1" "t1" "bob" MEMBER statusBody sampleDb = (inr (withStatus
      "DONE" sampleTask1), (withTasks (<["t1" := withStatus "DONE" sampleTask1]> (tasks
      sampleDb)) sampleDb), ([Project_findById "p1"; Task_findById "t1";
      Task_findByIdAndUpdate "t1"]))
  ∧ (∃ t'' db'',
    updateTaskService "w1" "p1" "t1" "bob" MEMBER statusBody (withTasks (<["t1" :=
        withStatus "DONE" sampleTask1]> (tasks sampleDb)) sampleDb) = (inr t'', db'',
        ([Project_findById "p1"; Task_findById "t1"; Task_findByIdAndUpdate "t1"]))
    ∧ tasks db'' !! "t1" = Some t''
    ∧ Task.title t'' = Task.title (withStatus "DONE" sampleTask1)
    ∧ Task.description t'' = Task.description (withStatus "DONE" sampleTask1)
    ∧ Task.priority t'' = Task.priority (withStatus "DONE" sampleTask1)
    ∧ Task.status t'' = Task.status (withStatus "DONE" sampleTask1)
    ∧ Task.assignedTo t'' = Task.assignedTo (withStatus "DONE" sampleTask1)
    ∧ Task.dueDate t'' = Task.dueDate (withStatus "DONE" sampleTask1)
    ∧ ∀ id, id ≠ "t1" → tasks db'' !! id = tasks (withTasks (<["t1" := withStatus "DONE"
        sampleTask1]> (tasks sampleDb)) sampleDb) !! id).
Proof.
  assert (updateTaskService "w1" "p1" "t1" "bob" MEMBER statusBody sampleDb = (inr
      (withStatus "DONE" sampleTask1), (withTasks (<["t1" := withStatus "DONE"
      sampleTask1]> (tasks sampleDb)) sampleDb), ([Project_findById "p1"; Task_findById
      "t1"; Task_findByIdAndUpdate "t1"]))) as h1
    by (vm_compute; reflexivity).
  split; [exact h1|].
  exact (updateTask_idempotent "w1" "p1" "t1" "bob" MEMBER statusBody sampleDb
           (withStatus "DONE" sampleTask1)
           (withTasks (<["t1" := withStatus "DONE" sampleTask1]> (tasks sampleDb))
               sampleDb)
           ([Project_findById "p1"; Task_findById "t1"; Task_findByIdAndUpdate "t1"]) h1).
Defined.

Lemma updateTask_assign_member_witness :
  resolves sampleDb "w1" "p1" "t1" sampleTask1
  ∧ (OWNER = OWNER ∨ OWNER = ADMIN)
  ∧ UpdateTaskPayload.assignedTo assignBody = Present (JsString "alice")
  ∧ "alice" ≠ ""
  ∧ Member.mk "alice" "w1" ∈ members sampleDb
  ∧ castOptDate (UpdateTaskPayload.dueDate assignBody) = inr None
  ∧ (∃ t', updateTaskService "w1" "p1" "t1" "alice" OWNER assignBody sampleDb =
    (inr t', withTasks (<["t1" := t']> (tasks sampleDb)) sampleDb,
    [Project_findById "p1"; Task_findById "t1"; Member_exists "alice" "w1";
    Task_findByIdAndUpdate "t1"])
    ∧ Task.assignedTo t' = Some "alice"
    ∧ Task.title t' = default (Task.title sampleTask1) (UpdateTaskPayload.title
        assignBody)
    ∧ Task.status t' = default (Task.status sampleTask1) (UpdateTaskPayload.status
        assignBody)
    ∧ Task.priority t' = default (Task.priority sampleTask1) (UpdateTaskPayload.priority
        assignBody)).
Proof.
  assert (resolves sampleDb "w1" "p1" "t1" sampleTask1) as h1
    by (exact sample_resolves_t1).
  assert (OWNER = OWNER ∨ OWNER = ADMIN) as h2
    by (by left).
  assert (UpdateTaskPayload.assignedTo assignBody = Present (JsString "alice")) as h3
    by (reflexivity).
  assert ("alice" ≠ "") as h4
    by (discriminate).
  assert (Member.mk "alice" "w1" ∈ members sampleDb) as h5
    by (left).
  assert (castOptDate (UpdateTaskPayload.dueDate assignBody) = inr None) as h6
    by (reflexivity).
  split; [exact h1|].
  split; [exact h2|].
  split; [exact h3|].
  split; [exact h4|].
  split; [exact h5|].
  split; [exact h6|].
  exact (updateTask_assign_member sampleDb "w1" "p1" "t1" "alice" OWNER assignBody
           sampleTask1 "alice" None h1 h2 h3 h4 h5 h6).
Defined.

Lemma deleteTask_then_gone_witness :
  tasks sampleDb !! "t1" = Some sampleTask1
  ∧ Task.workspace sampleTask1 = "w1"
  ∧ (let db' := finalDb (deleteTaskService "w1" "t1" sampleDb) in
    outcome (deleteTaskService "w1" "t1" sampleDb) = inr ()
    ∧ tasks db' = delete "t1" (tasks sampleDb)
    ∧ projects db' = projects sampleDb ∧ members db' = members sampleDb
    ∧ clarifications db' = clarifications sampleDb
    ∧ ∀ w' p' u role body,
    (∃ m, outcome (getTaskByIdService w' p' "t1" db') = inl (NotFoundException m))
    ∧ (∃ m, outcome (updateTaskService w' p' "t1" u role body db')
    = inl (NotFoundException m))
    ∧ (∃ m, outcome (deleteTaskService w' "t1" db') = inl (NotFoundException m))).
Proof.
  assert (tasks sampleDb !! "t1" = Some sampleTask1) as h1
    by (reflexivity).
  assert (Task.workspace sampleTask1 = "w1") as h2
    by (reflexivity).
  split; [exact h1|].
  split; [exact h2|].
  exact (deleteTask_then_gone "w1" "t1" sampleDb sampleTask1 h1 h2).
Defined.

Lemma deleteTask_orphans_clarifications_witness :
  tasks sampleDb !! "t1" = Some sampleTask1
  ∧ Task.workspace sampleTask1 = "w1"
  ∧ (let db' := finalDb (deleteTaskService "w1" "t1" sampleDb) in
    (∀ cid c, clarifications sampleDb !! cid = Some c → clarifications db' !! cid = Some
        c)
    ∧ ∀ w' cid u text,
    (∃ m, outcome (getTaskClarificationsService w' "t1" db')
    = inl (NotFoundException m))
    ∧ (∃ m, outcome (createTaskClarificationService sampleEnv w' "t1" u text db')
    = inl (NotFoundException m))
    ∧ (∃ m, outcome (respondToTaskClarificationService sampleEnv w' "t1" cid u text db')
    = inl (NotFoundException m))).
Proof.
  assert (tasks sampleDb !! "t1" = Some sampleTask1) as h1
    by (reflexivity).
  assert (Task.workspace sampleTask1 = "w1") as h2
    by (reflexivity).
  split; [exact h1|].
  split; [exact h2|].
  exact (deleteTask_orphans_clarifications sampleEnv "w1" "t1" sampleDb sampleTask1 h1
           h2).
Defined.

Lemma respond_foreign_clarification_witness :
  taskInWorkspace sampleDb "t2" "w1"
  ∧ (∀ c, clarifications sampleDb !! "c1" = Some c →
    TaskClarification.workspace c ≠ "w1" ∨ TaskClarification.task c ≠ "t2")
  ∧ (respondToTaskClarificationService sampleEnv "w1" "t2" "c1" "alice" "The third"
      sampleDb =
    (inl (NotFoundException "Clarification not found for this task"), sampleDb,
    [Task_findOne "t2"; Clarification_findOneAndUpdate "c1"])).
Proof.
  assert (taskInWorkspace sampleDb "t2" "w1") as h1
    by (by exists sampleTask2).
  assert ((∀ c, clarifications sampleDb !! "c1" = Some c →
          TaskClarification.workspace c ≠ "w1" ∨ TaskClarification.task c ≠ "t2")) as h2
    by (intros c [= <-]; right; discriminate).
  split; [exact h1|].
  split; [exact h2|].
  exact (respond_foreign_clarification sampleEnv "w1" "t2" "c1" "alice" "The third"
           sampleDb h1 h2).
Defined.

Lemma clarifications_listing_witness :
  taskInWorkspace sampleDb "t1" "w1"
  ∧ (∃ cs, getTaskClarificationsService "w1" "t1" sampleDb =
    (inr cs, sampleDb, [Task_findOne "t1"; Clarification_find])
    ∧ StronglySorted newestFirstClarification cs
    ∧ NoDup cs
    ∧ ∀ id c, (id, c) ∈ cs ↔
    clarifications sampleDb !! id = Some c
    ∧ TaskClarification.workspace c = "w1" ∧ TaskClarification.task c = "t1").
Proof.
  assert (taskInWorkspace sampleDb "t1" "w1") as h1
    by (by exists sampleTask1).
  split; [exact h1|].
  exact (clarifications_listing "w1" "t1" sampleDb h1).
Defined.

Lemma ask_then_list_witness :
  taskInWorkspace sampleDb "t1" "w1"
  ∧ trim " Which quarter is it? " ≠ ""
  ∧ clarifications sampleDb !! freshId sampleEnv = None
  ∧ (let c := TaskClarification.mk "t1" "w1" (trim " Which quarter is it? ") "bob" [] (now
      sampleEnv) (now sampleEnv) in
    let db' := finalDb (createTaskClarificationService sampleEnv "w1" "t1" "bob"
        " Which quarter is it? " sampleDb) in
    outcome (createTaskClarificationService sampleEnv "w1" "t1" "bob"
        " Which quarter is it? " sampleDb)
    = inr (freshId sampleEnv, c)
    ∧ ∃ cs, outcome (getTaskClarificationsService "w1" "t1" db') = inr cs
    ∧ (freshId sampleEnv, c) ∈ cs
    ∧ ∀ old, outcome (getTaskClarificationsService "w1" "t1" sampleDb) = inr old →
    old ⊆ cs).
Proof.
  assert (taskInWorkspace sampleDb "t1" "w1") as h1
    by (by exists sampleTask1).
  assert (trim " Which quarter is it? " ≠ "") as h2
    by (discriminate).
  assert (clarifications sampleDb !! freshId sampleEnv = None) as h3
    by (reflexivity).
  split; [exact h1|].
  split; [exact h2|].
  split; [exact h3|].
  exact (ask_then_list sampleEnv "w1" "t1" "bob" " Which quarter is it? " sampleDb h1
           h2 h3).
Defined.

Lemma respond_then_list_witness :
  taskInWorkspace sampleDb "t1" "w1"
  ∧ clarifications sampleDb !! "c1" = Some sampleClarification
  ∧ TaskClarification.workspace sampleClarification = "w1"
  ∧ TaskClarification.task sampleClarification = "t1"
  ∧ (let db' := finalDb (respondToTaskClarificationService sampleEnv "w1" "t1" "c1"
      "alice" "  See the Q3 sheet " sampleDb) in
    ∃ cs c', outcome (getTaskClarificationsService "w1" "t1" db') = inr cs
    ∧ ("c1", c') ∈ cs
    ∧ last (TaskClarification.responses c')
    = Some (ClarificationResponse.mk (trim "  See the Q3 sheet ") "alice" (now sampleEnv))
    ∧ length (TaskClarification.responses c')
    = S (length (TaskClarification.responses sampleClarification))).
Proof.
  assert (taskInWorkspace sampleDb "t1" "w1") as h1
    by (by exists sampleTask1).
  assert (clarifications sampleDb !! "c1" = Some sampleClarification) as h2
    by (reflexivity).
  assert (TaskClarification.workspace sampleClarification = "w1") as h3
    by (reflexivity).
  assert (TaskClarification.task sampleClarification = "t1") as h4
    by (reflexivity).
  split; [exact h1|].
  split; [exact h2|].
  split; [exact h3|].
  split; [exact h4|].
  exact (respond_then_list sampleEnv "w1" "t1" "c1" "alice" "  See the Q3 sheet "
           sampleDb sampleClarification h1 h2 h3 h4).
Defined.

Lemma listing_page_bounds_witness :
  outcome (getAllTasksService "w1" todoFilter firstPage sampleDb) = inr samplePage
  ∧ (0 ≤ page_skip samplePage
    ∧ NoDup (page_tasks samplePage)
    ∧ Z.of_nat (length (page_tasks samplePage)) ≤ page_totalCount samplePage
    ∧ (0 < Pagination.pageSize firstPage →
    Z.of_nat (length (page_tasks samplePage)) ≤ Pagination.pageSize firstPage)
    ∧ (page_totalCount samplePage ≤ page_skip samplePage → page_tasks samplePage = [])
    ∧ ∀ pg' page', outcome (getAllTasksService "w1" todoFilter pg' sampleDb) = inr page' →
    page_totalCount page' = page_totalCount samplePage).
Proof.
  assert (outcome (getAllTasksService "w1" todoFilter firstPage sampleDb) = inr
      samplePage) as h1
    by (vm_compute; reflexivity).
  split; [exact h1|].
  exact (listing_page_bounds "w1" todoFilter firstPage sampleDb samplePage h1).
Defined.

Lemma listing_filters_sound_witness :
  outcome (getAllTasksService "w1" fullFilter firstPage datedDb) = inr datedPage
  ∧ (Forall (λ kt,
    tasks datedDb !! kt.1 = Some kt.2
    ∧ Task.workspace kt.2 = "w1"
    ∧ (∀ pid, Filters.projectId fullFilter = Some pid → pid ≠ "" →
    Task.project kt.2 = pid)
    ∧ (∀ l, Filters.priority fullFilter = Some l → l ≠ [] → Task.priority kt.2 ∈ l)
    ∧ (∀ l, Filters.assignedTo fullFilter = Some l → l ≠ [] →
    ∃ a, Task.assignedTo kt.2 = Some a ∧ a ∈ l)
    ∧ (∀ d, Filters.dueDate fullFilter = Some d → d ≠ "" →
    is_Some (dateValue d) ∧ Task.dueDate kt.2 = dateValue d))
    (page_tasks datedPage)).
Proof.
  assert (outcome (getAllTasksService "w1" fullFilter firstPage datedDb) = inr datedPage)
      as h1
    by (vm_compute; reflexivity).
  split; [exact h1|].
  exact (listing_filters_sound "w1" fullFilter firstPage datedDb datedPage h1).
Defined.

Lemma validated_update_body_witness :
  updateTaskSchema sampleUpdateJson = inr sampleUpdateParsed
  ∧ ((∀ t, UpdateTaskPayload.title sampleUpdateParsed = Some t →
    trim t = t ∧ (1 ≤ String.length t ≤ 255)%nat)
    ∧ (∀ s, UpdateTaskPayload.status sampleUpdateParsed = Some s → s ∈
        TaskStatusEnum_values)
    ∧ (∀ s, UpdateTaskPayload.priority sampleUpdateParsed = Some s → s ∈
        TaskPriorityEnum_values)
    ∧ (UpdateTaskPayload.assignedTo sampleUpdateParsed = Absent
    ∨ UpdateTaskPayload.assignedTo sampleUpdateParsed = Present JsNull
    ∨ ∃ a, UpdateTaskPayload.assignedTo sampleUpdateParsed = Present (JsString a)
    ∧ a ≠ "" ∧ trim a = a)
    ∧ ∀ d, UpdateTaskPayload.dueDate sampleUpdateParsed = Some d →
    trim d = d ∧ (d = "" ∨ is_Some (dateValue d))).
Proof.
  assert (updateTaskSchema sampleUpdateJson = inr sampleUpdateParsed) as h1
    by (vm_compute; reflexivity).
  split; [exact h1|].
  exact (validated_update_body sampleUpdateJson sampleUpdateParsed h1).
Defined.

Lemma updateTaskSchema_idempotent_witness :
  updateTaskSchema sampleUpdateJson = inr sampleUpdateParsed
  ∧ (updateTaskSchema (jsonOfUpdate sampleUpdateParsed) = inr sampleUpdateParsed).
Proof.
  assert (updateTaskSchema sampleUpdateJson = inr sampleUpdateParsed) as h1
    by (vm_compute; reflexivity).
  split; [exact h1|].
  exact (updateTaskSchema_idempotent sampleUpdateJson sampleUpdateParsed h1).
Defined.

Lemma validated_create_outcomes_witness :
  createTaskSchema sampleCreateJson = inr sampleCreateParsed
  ∧ outcome (createTaskService sampleEnv "w1" "p1" "alice" sampleCreateParsed sampleDb) =
      inr ("n1", sampleCreated)
  ∧ ("n1" = freshId sampleEnv
    ∧ tasks (finalDb (createTaskService sampleEnv "w1" "p1" "alice" sampleCreateParsed
        sampleDb)) !! "n1" = Some sampleCreated
    ∧ Task.title sampleCreated = CreateTaskPayload.title sampleCreateParsed
    ∧ trim (Task.title sampleCreated) = Task.title sampleCreated
    ∧ (1 ≤ String.length (Task.title sampleCreated) ≤ 255)%nat
    ∧ Task.workspace sampleCreated = "w1" ∧ Task.project sampleCreated = "p1" ∧
        Task.createdBy sampleCreated = "alice"
    ∧ ∀ a, Task.assignedTo sampleCreated = Some a → a ≠ "" ∧ Member.mk a "w1" ∈ members
        sampleDb).
Proof.
  assert (createTaskSchema sampleCreateJson = inr sampleCreateParsed) as h1
    by (vm_compute; reflexivity).
  assert (outcome (createTaskService sampleEnv "w1" "p1" "alice" sampleCreateParsed
      sampleDb) = inr ("n1", sampleCreated)) as h2
    by (vm_compute; reflexivity).
  split; [exact h1|].
  split; [exact h2|].
  exact (validated_create_outcomes sampleCreateJson sampleCreateParsed sampleEnv "w1"
           "p1" "alice" sampleDb "n1" sampleCreated h1 h2).
Defined.

Lemma validated_question_stored_witness :
  createClarificationSchema ({[ "question" := JString " Which quarter is it? " ]}) = inr
      "Which quarter is it?"
  ∧ taskInWorkspace sampleDb "t1" "w1"
  ∧ clarifications sampleDb !! freshId sampleEnv = None
  ∧ ((5 ≤ String.length "Which quarter is it?" ≤ 1000)%nat
    ∧ ∃ c, createTaskClarificationService sampleEnv "w1" "t1" "bob" "Which quarter is it?"
        sampleDb =
    (inr (freshId sampleEnv, c),
    withClarifications (<[freshId sampleEnv := c]> (clarifications sampleDb)) sampleDb,
    [Task_findOne "t1"; Clarification_create (freshId sampleEnv)])
    ∧ TaskClarification.question c = "Which quarter is it?"
    ∧ TaskClarification.responses c = []).
Proof.
  assert (createClarificationSchema ({[ "question" := JString " Which quarter is it? " ]})
      = inr "Which quarter is it?") as h1
    by (vm_compute; reflexivity).
  assert (taskInWorkspace sampleDb "t1" "w1") as h2
    by (by exists sampleTask1).
  assert (clarifications sampleDb !! freshId sampleEnv = None) as h3
    by (reflexivity).
  split; [exact h1|].
  split; [exact h2|].
  split; [exact h3|].
  exact (validated_question_stored
           ({[ "question" := JString " Which quarter is it? " ]}) "Which quarter is it?"
           sampleEnv "w1" "t1" "bob" sampleDb h1 h2 h3).
Defined.

Lemma validated_response_stored_witness :
  respondClarificationSchema ({[ "message" := JString "  See the Q3 sheet " ]}) = inr
      "See the Q3 sheet"
  ∧ taskInWorkspace sampleDb "t1" "w1"
  ∧ clarifications sampleDb !! "c1" = Some sampleClarification
  ∧ TaskClarification.workspace sampleClarification = "w1"
  ∧ TaskClarification.task sampleClarification = "t1"
  ∧ ((1 ≤ String.length "See the Q3 sheet" ≤ 1000)%nat
    ∧ ∃ c', outcome (respondToTaskClarificationService sampleEnv "w1" "t1" "c1" "alice"
        "See the Q3 sheet" sampleDb) = inr c'
    ∧ TaskClarification.responses c'
    = TaskClarification.responses sampleClarification
    ++ [ClarificationResponse.mk "See the Q3 sheet" "alice" (now sampleEnv)]).
Proof.
  assert (respondClarificationSchema ({[ "message" := JString "  See the Q3 sheet " ]}) =
      inr "See the Q3 sheet") as h1
    by (vm_compute; reflexivity).
  assert (taskInWorkspace sampleDb "t1" "w1") as h2
    by (by exists sampleTask1).
  assert (clarifications sampleDb !! "c1" = Some sampleClarification) as h3
    by (reflexivity).
  assert (TaskClarification.workspace sampleClarification = "w1") as h4
    by (reflexivity).
  assert (TaskClarification.task sampleClarification = "t1") as h5
    by (reflexivity).
  split; [exact h1|].
  split; [exact h2|].
  split; [exact h3|].
  split; [exact h4|].
  split; [exact h5|].
  exact (validated_response_stored ({[ "message" := JString "  See the Q3 sheet " ]})
           "See the Q3 sheet" sampleEnv "w1" "t1" "c1" "alice" sampleDb
           sampleClarification h1 h2 h3 h4 h5).
Defined.

Lemma form_member_submission_witness :
  resolves sampleDb "w1" "p1" "t1" sampleTask1
  ∧ MEMBER ≠ OWNER
  ∧ MEMBER ≠ ADMIN
  ∧ clientIsOwnerOrAdmin (Some "MEMBER") = false
  ∧ (match onSubmit false (clientIsOwnerOrAdmin (Some "MEMBER"))
    (clientIsTaskAssignee (Task.assignedTo sampleTask1) (Some "bob")) sampleForm with
    | Some payload =>
    updateTaskService "w1" "p1" "t1" "bob" MEMBER payload sampleDb =
    (inr (withStatus (FormValues.status sampleForm) sampleTask1),
    withTasks (<["t1" := withStatus (FormValues.status sampleForm) sampleTask1]> (tasks
        sampleDb)) sampleDb,
    [Project_findById "p1"; Task_findById "t1"; Task_findByIdAndUpdate "t1"])
    | None =>
    ∀ body, outcome (updateTaskService "w1" "p1" "t1" "bob" MEMBER body sampleDb)
    = inl (UnauthorizedException "You are not authorized to update this task")
    end).
Proof.
  assert (resolves sampleDb "w1" "p1" "t1" sampleTask1) as h1
    by (exact sample_resolves_t1).
  assert (MEMBER ≠ OWNER) as h2
    by (discriminate).
  assert (MEMBER ≠ ADMIN) as h3
    by (discriminate).
  assert (clientIsOwnerOrAdmin (Some "MEMBER") = false) as h4
    by (reflexivity).
  split; [exact h1|].
  split; [exact h2|].
  split; [exact h3|].
  split; [exact h4|].
  exact (form_member_submission sampleDb "w1" "p1" "t1" "bob" MEMBER (Some "MEMBER")
           sampleTask1 sampleForm h1 h2 h3 h4).
Defined.

Lemma respond_against_server_witness :
  sampleDrafts !! "c1" = Some "  On it  "
  ∧ ((respondClarificationSchema {[ "message" := JString "  On it  " ]} = inr "On it"
    ↔ handleRespond sampleDrafts "c1" = Some "On it"
    ∧ (String.length "On it" ≤ 1000)%nat)
    ∧ (handleRespond sampleDrafts "c1" = Some "On it" →
    (String.length "On it" ≤ 1000)%nat →
    respondClarificationSchema {[ "message" := JString "On it" ]} = inr "On it")).
Proof.
  assert (sampleDrafts !! "c1" = Some "  On it  ") as h1
    by (reflexivity).
  split; [exact h1|].
  exact (respond_against_server sampleDrafts "c1" "  On it  " "On it" h1).
Defined.

Lemma dispatch_scoped_and_unique_witness :
  dispatch GET (["workspace"; "w1"; "all"; ""]) = Some (getAllTasksRoute,
      ([("workspaceId", "w1")]))
  ∧ ((∃ w, ("workspaceId", w) ∈ ([("workspaceId", "w1")]) ∧ w ≠ "")
    ∧ ∀ route c', (GET, route, c') ∈ taskRoutes →
    is_Some (matchSegments route (["workspace"; "w1"; "all"; ""])) → c' =
        getAllTasksRoute).
Proof.
  assert (dispatch GET (["workspace"; "w1"; "all"; ""]) = Some (getAllTasksRoute,
      ([("workspaceId", "w1")]))) as h1
    by (vm_compute; reflexivity).
  split; [exact h1|].
  exact (dispatch_scoped_and_unique GET (["workspace"; "w1"; "all"; ""])
           getAllTasksRoute ([("workspaceId", "w1")]) h1).
Defined.

End PropertySamples.
